(** * PayloadCMS content generator: JSON contract, Lexical compiler, client and tool

    A shallow embedding of
    - [json-processor.ts]   ([JSONProcessor]: validation, slug derivation,
                             block compilation),
    - [payload-client.ts]   ([PayloadCMSClient]: authentication, categories,
                             post creation),
    - [mcp-tool.js]         ([PayloadCMSContentGeneratorTool]: the orchestrator),
    - [config.js]           ([ConfigManager]: detection and validation of
                             the configuration),
    followed by the properties established about them.

    Conventions of the embedding.
    - A JavaScript value that can arrive as parsed JSON is a [JSValue].
      Objects are association lists in insertion order.  Numbers are
      the integers below 10^21 in magnitude, which a template literal
      renders in decimal digits; the code only observes their
      truthiness, their [typeof], their rendering and, for the width of
      a media record, whether they exceed 800.
    - A string is a sequence of UTF-16 code units below 256, one [ascii]
      per code unit (the Latin-1 range).
    - A call that may throw returns a [Res]; code that also reads or
      writes state (the [Math.random] source, the client, the backend)
      lives in the state-and-exception monad [M].  An [async] function is
      run to completion at its call: [await] is sequencing.  The
      callbacks that [Promise.all] has in flight together are run one
      after the other in document order, every one of them, also when
      one of them fails.
    - [console.log], [console.warn] and [console.error] have no effect on
      any value and are left out. *)

From Stdlib Require Import String Ascii List ZArith NArith Bool Lia Arith.
From Stdlib Require Import DecimalString.
Import ListNotations.

Local Open Scope list_scope.
Local Open Scope string_scope.

Set Implicit Arguments.
Set Warnings "-register-all".

(* ================================================================== *)
(** * Strings *)
(* ================================================================== *)

Module JsString.

Definition code (c : ascii) : N := N_of_ascii c.

Definition in_range (lo hi : N) (c : ascii) : bool :=
  ((lo <=? code c) && (code c <=? hi))%N.

(** Code units that [String.prototype.toLowerCase] changes, below 256:
    [A-Z], and U+00C0..U+00DE except the multiplication sign U+00D7. *)
Definition is_upper (c : ascii) : bool :=
  in_range 65 90 c || (in_range 192 222 c && negb (code c =? 215)%N).

Definition lower_char (c : ascii) : ascii :=
  if is_upper c then ascii_of_N (code c + 32) else c.

Fixpoint toLowerCase (s : string) : string :=
  match s with
  | EmptyString => EmptyString
  | String c s' => String (lower_char c) (toLowerCase s')
  end.

(** The class [\s] below 256: TAB, LF, VT, FF, CR, SPACE and U+00A0. *)
Definition is_space (c : ascii) : bool :=
  in_range 9 13 c || (code c =? 32)%N || (code c =? 160)%N.

Definition is_lower_alpha (c : ascii) : bool := in_range 97 122 c.
Definition is_digit (c : ascii) : bool := in_range 48 57 c.
Definition is_hyphen (c : ascii) : bool := (code c =? 45)%N.

Definition is_hex_digit (c : ascii) : bool :=
  is_digit c || in_range 97 102 c || in_range 65 70 c.

Fixpoint filter (p : ascii -> bool) (s : string) : string :=
  match s with
  | EmptyString => EmptyString
  | String c s' => if p c then String c (filter p s') else filter p s'
  end.

Fixpoint forallb (p : ascii -> bool) (s : string) : bool :=
  match s with
  | EmptyString => true
  | String c s' => p c && forallb p s'
  end.

(** [s.replace(/C+/g, r)]: every maximal run of code units of class [p]
    becomes the single code unit [r].  [in_run] tells that the previous
    code unit belonged to the run being replaced. *)
Fixpoint replace_runs (p : ascii -> bool) (r : ascii) (in_run : bool)
         (s : string) : string :=
  match s with
  | EmptyString => EmptyString
  | String c s' =>
      if p c
      then if in_run then replace_runs p r true s'
           else String r (replace_runs p r true s')
      else String c (replace_runs p r false s')
  end.

Definition drop_leading (p : ascii -> bool) (s : string) : string :=
  match s with
  | String c s' => if p c then s' else s
  | EmptyString => EmptyString
  end.

Fixpoint drop_trailing (p : ascii -> bool) (s : string) : string :=
  match s with
  | EmptyString => EmptyString
  | String c EmptyString => if p c then EmptyString else s
  | String c s' => String c (drop_trailing p s')
  end.

(** [String.prototype.trim]. *)
Fixpoint drop_while (p : ascii -> bool) (s : string) : string :=
  match s with
  | EmptyString => EmptyString
  | String c s' => if p c then drop_while p s' else s
  end.

Fixpoint rev_onto (s acc : string) : string :=
  match s with
  | EmptyString => acc
  | String c s' => rev_onto s' (String c acc)
  end.

Definition rev (s : string) : string := rev_onto s EmptyString.

Definition trim (s : string) : string :=
  rev (drop_while is_space (rev (drop_while is_space s))).

Definition is_empty (s : string) : bool :=
  match s with EmptyString => true | _ => false end.

(** [Array.prototype.join] on an array of strings. *)
Fixpoint join (sep : string) (xs : list string) : string :=
  match xs with
  | [] => EmptyString
  | [x] => x
  | x :: rest => x ++ sep ++ join sep rest
  end.

(** Decimal rendering of an array index, as in a template literal. *)
Definition of_nat (n : nat) : string :=
  NilZero.string_of_uint (Nat.to_uint n).

Definition of_Z (z : Z) : string :=
  NilZero.string_of_int (Z.to_int z).

End JsString.

(* ================================================================== *)
(** * Slug derivation ([JSONProcessor.generateSlug]) *)
(* ================================================================== *)

(** The character class [[a-z0-9\s-]]; the first replacement deletes
    every code unit outside it. *)
Definition slug_keep (c : ascii) : bool :=
  JsString.is_lower_alpha c || JsString.is_digit c
  || JsString.is_space c || JsString.is_hyphen c.

Definition hyphen : ascii := "-"%char.

(** [title.toLowerCase()
         .replace(/[^a-z0-9\s-]/g, '')
         .replace(/\s+/g, '-')
         .replace(/-+/g, '-')
         .replace(/^-|-$/g, '')] *)
Definition generateSlug (title : string) : string :=
  let s1 := JsString.toLowerCase title in
  let s2 := JsString.filter slug_keep s1 in
  let s3 := JsString.replace_runs JsString.is_space hyphen false s2 in
  let s4 := JsString.replace_runs JsString.is_hyphen hyphen false s3 in
  JsString.drop_trailing JsString.is_hyphen
    (JsString.drop_leading JsString.is_hyphen s4).

(* ================================================================== *)
(** * JavaScript values and exceptions *)
(* ================================================================== *)

Inductive JSValue : Type :=
| JUndefined
| JNull
| JBool (b : bool)
| JNum (z : Z)
| JStr (s : string)
| JArr (items : list JSValue)
| JObj (fields : list (string * JSValue)).

(** A thrown value.  [is_error] is the outcome of [instanceof Error];
    [message] and [stack] are the properties the tool reads in its
    [catch] block.  [stack] is given by its first line, the name and
    the message of the error; the call frames that follow it in the
    engine are left out. *)
Record Exn : Type := mkExn {
  is_error : bool;
  message : string;
  stack : string
}.

Definition TypeError (msg : string) : Exn :=
  mkExn true msg ("TypeError: " ++ msg).

Definition Error (msg : string) : Exn :=
  mkExn true msg ("Error: " ++ msg).

Inductive Res (A : Type) : Type :=
| Val (a : A)
| Throw (e : Exn).

Arguments Val {A} a.
Arguments Throw {A} e.

Definition returns {A : Type} (r : Res A) : bool :=
  match r with Val _ => true | Throw _ => false end.

Module ResMonad.
Definition bind {A B : Type} (r : Res A) (k : A -> Res B) : Res B :=
  match r with
  | Val a => k a
  | Throw e => Throw e
  end.
End ResMonad.

Declare Scope res_scope.
Delimit Scope res_scope with res.
Notation "x <- c ;; k" := (ResMonad.bind c (fun x => k))
  (at level 61, c at next level, right associativity) : res_scope.

Module Js.

Definition nullish (v : JSValue) : bool :=
  match v with JUndefined | JNull => true | _ => false end.

(** ToBoolean. *)
Definition truthy (v : JSValue) : bool :=
  match v with
  | JUndefined | JNull => false
  | JBool b => b
  | JNum z => negb (z =? 0)%Z
  | JStr s => negb (JsString.is_empty s)
  | JArr _ | JObj _ => true
  end.

Inductive TypeTag : Type :=
| TUndefined | TObject | TBoolean | TNumber | TString.

(** The [typeof] operator. *)
Definition typeof (v : JSValue) : TypeTag :=
  match v with
  | JUndefined => TUndefined
  | JNull | JArr _ | JObj _ => TObject
  | JBool _ => TBoolean
  | JNum _ => TNumber
  | JStr _ => TString
  end.

Definition is_string (v : JSValue) : bool :=
  match v with JStr _ => true | _ => false end.
Definition is_object (v : JSValue) : bool :=
  match typeof v with TObject => true | _ => false end.
Definition is_boolean (v : JSValue) : bool :=
  match v with JBool _ => true | _ => false end.
Definition isArray (v : JSValue) : bool :=
  match v with JArr _ => true | _ => false end.

Fixpoint assoc (k : string) (fs : list (string * JSValue)) : JSValue :=
  match fs with
  | [] => JUndefined
  | (k', v) :: rest => if String.eqb k k' then v else assoc k rest
  end.

(** [v.k] for a property name [k] that no prototype defines (all the
    names read by the code are of that kind): an own property of an
    object, [undefined] on any other non-nullish value. *)
Definition prop (v : JSValue) (k : string) : JSValue :=
  match v with
  | JObj fs => assoc k fs
  | _ => JUndefined
  end.

(** The error of a property read on [null] or [undefined]. *)
Definition cannotRead (v : JSValue) (k : string) : Exn :=
  TypeError ("Cannot read properties of "
               ++ match v with JNull => "null" | _ => "undefined" end
               ++ " (reading '" ++ k ++ "')").

(** [v.k], which throws on [null] and [undefined]. *)
Definition get (v : JSValue) (k : string) : Res JSValue :=
  if nullish v then Throw (cannotRead v k) else Val (prop v k).

(** [v?.k]. *)
Definition get_opt (v : JSValue) (k : string) : JSValue :=
  if nullish v then JUndefined else prop v k.

(** [a || b]. *)
Definition or (a b : JSValue) : JSValue := if truthy a then a else b.

(** [v === 'lit']. *)
Definition eq_str (v : JSValue) (lit : string) : bool :=
  match v with JStr s => String.eqb s lit | _ => false end.

(** [[l1, l2, ...].includes(v)] for an array of string literals. *)
Definition includes (lits : list string) (v : JSValue) : bool :=
  existsb (eq_str v) lits.

Fixpoint set_assoc (k : string) (x : JSValue) (fs : list (string * JSValue))
  : list (string * JSValue) :=
  match fs with
  | [] => [(k, x)]
  | (k', v) :: rest =>
      if String.eqb k k' then (k', x) :: rest
      else (k', v) :: set_assoc k x rest
  end.

(** [o.k = x] on an object. *)
Definition set (o : JSValue) (k : string) (x : JSValue) : JSValue :=
  match o with
  | JObj fs => JObj (set_assoc k x fs)
  | _ => o
  end.

(** ToString, as performed by a template literal. *)
Fixpoint to_string (v : JSValue) : string :=
  match v with
  | JUndefined => "undefined"
  | JNull => "null"
  | JBool true => "true"
  | JBool false => "false"
  | JNum z => JsString.of_Z z
  | JStr s => s
  | JArr items =>
      JsString.join ","
        (map (fun x => if nullish x then EmptyString else to_string x) items)
  | JObj _ => "[object Object]"
  end.

End Js.

(* ================================================================== *)
(** * Validation ([JSONProcessor.validatePostCreationRequest]) *)
(* ================================================================== *)

Record ValidationResult : Type := mkValidation {
  valid : bool;
  errors : list string
}.

Definition blockTypes : list string :=
  ["paragraph"; "heading"; "code"; "banner"; "mediaBlock"].

Definition allowedLanguages : list string :=
  ["typescript"; "javascript"; "css"; "html"; "python"; "bash";
   "json"; "yaml"; "dockerfile"; "sql"; "markdown"; "xml"].

Definition allowedLevels : list string := ["h2"; "h3"].

Definition allowedStyles : list string := ["info"; "warning"; "error"; "success"].

(** [errors.push(msg)]. *)
Definition push (errs : list string) (msg : string) : list string :=
  (errs ++ [msg])%list.

(** [if (c) errors.push(msg)]. *)
Definition push_if (c : bool) (msg : string) (errs : list string) : list string :=
  if c then push errs msg else errs.

Definition blk (index : nat) : string :=
  "blocks[" ++ JsString.of_nat index ++ "]".

(** [typeof v !== 'string' || v.trim().length === 0] *)
Definition not_nonblank_string (v : JSValue) : bool :=
  match v with
  | JStr s => JsString.is_empty (JsString.trim s)
  | _ => true
  end.

(** The body of the callback of [data.blocks.forEach]. *)
Definition validateBlock (block : JSValue) (index : nat) (errs : list string)
  : Res (list string) :=
  (type <- Js.get block "type" ;;
   let content := Js.prop block "content" in
   let metadata := Js.prop block "metadata" in
   let errs :=
     if negb (Js.truthy type) || negb (Js.is_string type) then
       push errs (blk index ++ ".type is required and must be a string")
     else if negb (Js.includes blockTypes type) then
       push errs (blk index ++ ".type must be one of: paragraph, heading, code, banner, mediaBlock")
     else errs in
   let errs :=
     if negb (Js.eq_str type "mediaBlock")
        && (negb (Js.truthy content) || negb (Js.is_string content)) then
       push errs (blk index ++ ".content is required and must be a string")
     else if Js.eq_str type "mediaBlock" && negb (Js.is_string content) then
       push errs (blk index ++ ".content must be a string (can be empty for mediaBlock)")
     else errs in
   let errs :=
     push_if (Js.truthy metadata && negb (Js.is_object metadata))
             (blk index ++ ".metadata must be an object if provided") errs in
   let errs :=
     if Js.eq_str type "code" && Js.truthy (Js.get_opt metadata "language") then
       push_if (negb (Js.includes allowedLanguages (Js.prop metadata "language")))
               (blk index ++ ".metadata.language must be one of: "
                  ++ JsString.join ", " allowedLanguages) errs
     else errs in
   let errs :=
     if Js.eq_str type "heading" && Js.truthy (Js.get_opt metadata "level") then
       push_if (negb (Js.includes allowedLevels (Js.prop metadata "level")))
               (blk index ++ ".metadata.level must be one of: "
                  ++ JsString.join ", " allowedLevels) errs
     else errs in
   let errs :=
     if Js.eq_str type "banner" && Js.truthy (Js.get_opt metadata "style") then
       push_if (negb (Js.includes allowedStyles (Js.prop metadata "style")))
               (blk index ++ ".metadata.style must be one of: "
                  ++ JsString.join ", " allowedStyles) errs
     else errs in
   Val errs)%res.

(** [data.blocks.forEach((block, index) => ...)], from [index] on. *)
Fixpoint validateBlocks (blocks : list JSValue) (index : nat) (errs : list string)
  : Res (list string) :=
  match blocks with
  | [] => Val errs
  | block :: rest =>
      (errs' <- validateBlock block index errs ;;
       validateBlocks rest (S index) errs')%res
  end.

(** [data.categories.forEach((category, index) => ...)], from [index] on. *)
Fixpoint validateCategories (cats : list JSValue) (index : nat) (errs : list string)
  : list string :=
  match cats with
  | [] => errs
  | category :: rest =>
      validateCategories rest (S index)
        (push_if (not_nonblank_string category)
                 ("categories[" ++ JsString.of_nat index ++ "] must be a non-empty string")
                 errs)
  end.

Definition validatePostCreationRequest (data : JSValue) : Res ValidationResult :=
  (let errs : list string := [] in
   title <- Js.get data "title" ;;
   let errs :=
     push_if (negb (Js.truthy title) || not_nonblank_string title)
             "title is required and must be a non-empty string" errs in
   let meta := Js.prop data "meta" in
   let errs :=
     if negb (Js.truthy meta) || negb (Js.is_object meta) then
       push errs "meta is required and must be an object"
     else
       let errs :=
         push_if (negb (Js.truthy (Js.prop meta "title"))
                  || negb (Js.is_string (Js.prop meta "title")))
                 "meta.title is required and must be a string" errs in
       push_if (negb (Js.truthy (Js.prop meta "description"))
                || negb (Js.is_string (Js.prop meta "description")))
               "meta.description is required and must be a string" errs in
   let blocks := Js.prop data "blocks" in
   errs <- match blocks with
           | JArr items => validateBlocks items 0 errs
           | _ => Val (push errs "blocks is required and must be an array")
           end ;;
   let slug := Js.prop data "slug" in
   let errs :=
     push_if (Js.truthy slug && not_nonblank_string slug)
             "slug must be a non-empty string if provided" errs in
   let categories := Js.prop data "categories" in
   let errs :=
     if Js.truthy categories && negb (Js.isArray categories) then
       push errs "categories must be an array if provided"
     else
       match categories with
       | JArr cats => validateCategories cats 0 errs
       | _ => errs
       end in
   let heroImage := Js.prop data "heroImage" in
   let errs :=
     push_if (Js.truthy heroImage && negb (Js.is_boolean heroImage))
             "heroImage must be a boolean if provided" errs in
   Val (mkValidation (Nat.eqb (List.length errs) 0) errs))%res.

(* ================================================================== *)
(** * State and exceptions *)
(* ================================================================== *)

(** A computation over a world [W]: it returns or throws, and leaves a
    world behind in both cases. *)
Definition M (W A : Type) : Type := W -> Res A * W.

Module StateExn.
Section Ops.
Context {W : Type}.

Definition ret {A : Type} (a : A) : M W A := fun w => (Val a, w).

Definition throw {A : Type} (e : Exn) : M W A := fun w => (Throw e, w).

Definition bind {A B : Type} (c : M W A) (k : A -> M W B) : M W B :=
  fun w =>
    match c w with
    | (Val a, w') => k a w'
    | (Throw e, w') => (Throw e, w')
    end.

(** [try { body } catch (error) { handler }] *)
Definition try_catch {A : Type} (body : M W A) (handler : Exn -> M W A)
  : M W A :=
  fun w =>
    match body w with
    | (Val a, w') => (Val a, w')
    | (Throw e, w') => handler e w'
    end.

(** A call that may throw but touches no state. *)
Definition lift {A : Type} (r : Res A) : M W A := fun w => (r, w).

Definition gets {A : Type} (f : W -> A) : M W A := fun w => (Val (f w), w).

Definition modify (f : W -> W) : M W unit := fun w => (Val tt, f w).

(** [if (c) { body }] for a body run for its effect. *)
Definition when (c : bool) (body : M W unit) : M W unit :=
  if c then body else ret tt.
End Ops.
End StateExn.

Declare Scope m_scope.
Delimit Scope m_scope with M.
Notation "x <- c ;; k" := (StateExn.bind c (fun x => k))
  (at level 61, c at next level, right associativity) : m_scope.
Notation "c ;;; k" := (StateExn.bind c (fun _ => k))
  (at level 61, right associativity) : m_scope.

(** The host's [Math.random], seen through the two expressions the code
    applies to it. *)
Class MathRandom (W : Type) : Type := {
  (** [Math.random().toString(36).substring(2, 15)] *)
  random_token : W -> string * W;
  (** [Math.floor(Math.random() * n)] *)
  random_index : nat -> W -> nat * W;
  random_index_lt : forall n w, n <> 0 -> fst (random_index n w) < n
}.

(* ================================================================== *)
(** * Compilation to the Lexical format ([JSONProcessor]) *)
(* ================================================================== *)

Definition textNode (text : JSValue) : JSValue :=
  JObj [("type", JStr "text"); ("detail", JNum 0); ("format", JNum 0);
        ("mode", JStr "normal"); ("style", JStr ""); ("text", text);
        ("version", JNum 1)].

Definition createHeading (text tag : JSValue) : JSValue :=
  JObj [("type", JStr "heading");
        ("children", JArr [textNode text]);
        ("direction", JStr "ltr"); ("format", JStr ""); ("indent", JNum 0);
        ("tag", tag); ("version", JNum 1)].

Definition createParagraph (text : JSValue) : JSValue :=
  JObj [("type", JStr "paragraph");
        ("children", JArr [textNode text]);
        ("direction", JStr "ltr"); ("format", JStr ""); ("indent", JNum 0);
        ("textFormat", JNum 0); ("version", JNum 1)].

Definition defaultLanguage : string := "javascript".

(** [allowedLanguages.includes(language) ? language : 'javascript'] *)
Definition validLanguage (language : JSValue) : JSValue :=
  if Js.includes allowedLanguages language then language else JStr defaultLanguage.

Section Compiler.
Context {W : Type} {R : MathRandom W}.

Definition generateBlockId : M W string :=
  fun w =>
    let (a, w1) := random_token w in
    let (b, w2) := random_token w1 in
    (Val (a ++ b), w2).

Definition createCodeBlock (code language blockName : JSValue) : M W JSValue :=
  (id <- generateBlockId ;;
   StateExn.ret
     (JObj [("type", JStr "block");
            ("fields", JObj [("blockType", JStr "code");
                             ("language", validLanguage language);
                             ("code", code);
                             ("id", JStr id)]);
            ("format", JStr ""); ("version", JNum 2)]))%M.

Definition createBannerBlock (text style blockName : JSValue) : M W JSValue :=
  (id <- generateBlockId ;;
   StateExn.ret
     (JObj [("type", JStr "block");
            ("fields",
              JObj [("blockType", JStr "banner");
                    ("style", style);
                    ("content",
                      JObj [("root",
                        JObj [("type", JStr "root");
                              ("children", JArr [createParagraph text]);
                              ("direction", JStr "ltr"); ("format", JStr "");
                              ("indent", JNum 0); ("version", JNum 1)])]);
                    ("id", JStr id)]);
            ("format", JStr ""); ("version", JNum 2)]))%M.

Definition createMediaBlock (blockName : JSValue) : M W JSValue :=
  (id <- generateBlockId ;;
   StateExn.ret
     (JObj [("type", JStr "block");
            ("fields", JObj [("blockType", JStr "mediaBlock");
                             ("media", JStr "random");
                             ("id", JStr id)]);
            ("format", JStr ""); ("version", JNum 2)]))%M.

(** The [switch (block.type)] of [convertBlocksToLexical]: the node
    pushed for one block. *)
Definition convertBlock (block : JSValue) : M W JSValue :=
  (type <- StateExn.lift (Js.get block "type") ;;
   let content := Js.prop block "content" in
   let metadata := Js.prop block "metadata" in
   if Js.eq_str type "heading" then
     StateExn.ret
       (createHeading content (Js.or (Js.get_opt metadata "level") (JStr "h2")))
   else if Js.eq_str type "paragraph" then
     StateExn.ret (createParagraph content)
   else if Js.eq_str type "code" then
     createCodeBlock content
       (Js.or (Js.get_opt metadata "language") (JStr "javascript"))
       (Js.or (Js.get_opt metadata "blockName") (JStr "Code Example"))
   else if Js.eq_str type "banner" then
     createBannerBlock content
       (Js.or (Js.get_opt metadata "style") (JStr "info"))
       (Js.or (Js.get_opt metadata "blockName") (JStr "Important Note"))
   else if Js.eq_str type "mediaBlock" then
     createMediaBlock (Js.or (Js.get_opt metadata "blockName") (JStr "Media"))
   else
     StateExn.ret (createParagraph content))%M.

(** [blocks.forEach(block => { ... children.push(...) })] *)
Fixpoint convertEach (blocks : list JSValue) (children : list JSValue)
  : M W (list JSValue) :=
  match blocks with
  | [] => StateExn.ret children
  | block :: rest =>
      (node <- convertBlock block ;;
       convertEach rest (children ++ [node])%list)%M
  end.

Definition convertBlocksToLexical (blocks : JSValue) : M W JSValue :=
  match blocks with
  | JArr items =>
      (children <- convertEach items [] ;;
       StateExn.ret
         (JObj [("root",
            JObj [("type", JStr "root");
                  ("children", JArr children);
                  ("direction", JStr "ltr"); ("format", JStr "");
                  ("indent", JNum 0); ("version", JNum 1)])]))%M
  | _ => StateExn.throw (TypeError "blocks.forEach is not a function")
  end.

(** [title.toLowerCase()] on a value that need not be a string. *)
Definition generateSlugOf (title : JSValue) : Res JSValue :=
  match title with
  | JStr s => Val (JStr (generateSlug s))
  | _ => Throw (TypeError "title.toLowerCase is not a function")
  end.

Definition processPostCreationRequest (request : JSValue) : M W JSValue :=
  (title <- StateExn.lift (Js.get request "title") ;;
   let slug := Js.prop request "slug" in
   let meta := Js.prop request "meta" in
   let blocks := Js.prop request "blocks" in
   let heroImage := Js.prop request "heroImage" in
   finalSlug <- StateExn.lift
                  (if Js.truthy slug then Val slug else generateSlugOf title) ;;
   content <- convertBlocksToLexical blocks ;;
   metaTitle <- StateExn.lift (Js.get meta "title") ;;
   metaDescription <- StateExn.lift (Js.get meta "description") ;;
   StateExn.ret
     (JObj [("slug", finalSlug);
            ("_status", JStr "draft");
            ("title", title);
            ("content", content);
            ("meta", JObj [("title", metaTitle);
                           ("description", metaDescription)]);
            ("heroImage",
              if Js.truthy heroImage then JStr "random" else JUndefined);
            ("relatedPosts", JArr [])]))%M.

End Compiler.

(* ================================================================== *)
(** * The tool ([PayloadCMSContentGeneratorTool]) *)
(* ================================================================== *)

(** The methods of [PayloadCMSClient] that the tool calls.  Every one of
    them may return any value or throw. *)
Class PayloadClient (W : Type) : Type := {
  testConnection : M W JSValue;
  getDefaultAuthor : M W JSValue;
  getRandomHeroImage : M W JSValue;
  createPost : JSValue -> M W JSValue;
  getAdminUrl : JSValue -> M W JSValue;
  getPublicUrl : JSValue -> M W JSValue
}.

(** An object under mutation next to the world: the state of code that
    assigns to the properties of [obj] while it calls the client. *)
Definition Mut (S W A : Type) : Type := M (S * W) A.

Module Mutation.
Section Ops.
Context {S W : Type}.

(** A client call made while the object is held. *)
Definition call {A : Type} (c : M W A) : Mut S W A :=
  fun sw =>
    match c (snd sw) with
    | (r, w') => (r, (fst sw, w'))
    end.

Definition read : Mut S W S := fun sw => (Val (fst sw), sw).

Definition update (f : S -> S) : Mut S W unit :=
  fun sw => (Val tt, (f (fst sw), snd sw)).
End Ops.
End Mutation.

Definition fieldList : Type := list (string * JSValue).

Definition noSuchMethod (what : string) : Exn :=
  TypeError (what ++ " is not a function").

Section Tool.
Context {W : Type} {R : MathRandom W} {P : PayloadClient W}.

(** The first half of the callback of [processBlocks]: the placeholder
    of a media block is replaced when the client resolves an id.
    [fs] holds the properties of [block]. *)
Definition resolveMedia : Mut fieldList W unit :=
  (fs <- Mutation.read ;;
   let fields := Js.assoc "fields" fs in
   if Js.eq_str (Js.assoc "type" fs) "block"
      && Js.eq_str (Js.get_opt fields "blockType") "mediaBlock"
   then
     if Js.eq_str (Js.prop fields "media") "random" then
       mediaId <- Mutation.call getRandomHeroImage ;;
       StateExn.when (Js.truthy mediaId)
         (Mutation.update
            (Js.set_assoc "fields" (Js.set fields "media" mediaId)))
     else StateExn.ret tt
   else StateExn.ret tt)%M.

(** The outcome of [Promise.all]: the first failure, if any. *)
Definition firstFailure (r r' : Res unit) : Res unit :=
  match r with
  | Throw e => Throw e
  | Val _ => r'
  end.

(** [await Promise.all(blocks.map(callback))]: [map] starts the
    callback on every block, whether or not the callback of another
    block fails, and the promise rejects with the first failure.  The
    calls to the client that the code has in flight together are
    taken one after the other, in document order, each with its
    answer; the result carries the blocks after the assignments made
    to them. *)
Fixpoint forEachBlock (callback : JSValue -> W -> Res unit * (JSValue * W))
         (blocks : list JSValue) (w : W) : Res unit * (list JSValue * W) :=
  match blocks with
  | [] => (Val tt, ([], w))
  | b :: rest =>
      match callback b w with
      | (r, (b', w')) =>
          match forEachBlock callback rest w' with
          | (r', (rest', w'')) => (firstFailure r r', (b' :: rest', w''))
          end
      end
  end.

(** [if (block.children && Array.isArray(block.children))
       await Promise.all(processBlocks(block.children))],
    on the properties [fs] of [block]; the result carries the children
    after the walk, when there was one. *)
Fixpoint walkChildren (callback : JSValue -> W -> Res unit * (JSValue * W))
         (fs : fieldList) (w : W) : Res unit * (option (list JSValue) * W) :=
  match fs with
  | [] => (Val tt, (None, w))
  | (k, v) :: rest =>
      if String.eqb "children" k then
        match v with
        | JArr cs =>
            match forEachBlock callback cs w with
            | (r, (cs', w')) => (r, (Some cs', w'))
            end
        | _ => (Val tt, (None, w))
        end
      else walkChildren callback rest w
  end.

(** The callback of [processBlocks], applied to [block]; the result
    carries [block] after the assignments made to it and below it.
    The walk into [block.children] follows the children as they are
    before [resolveMedia], which assigns to [block.fields] only. *)
Fixpoint processBlock (block : JSValue) (w : W) {struct block}
  : Res unit * (JSValue * W) :=
  match block with
  | JObj fs =>
      match resolveMedia (fs, w) with
      | (Throw e, (fs1, w1)) => (Throw e, (JObj fs1, w1))
      | (Val _, (fs1, w1)) =>
          match walkChildren processBlock fs w1 with
          | (r, (Some cs', w2)) =>
              (r, (JObj (Js.set_assoc "children" (JArr cs') fs1), w2))
          | (r, (None, w2)) => (r, (JObj fs1, w2))
          end
      end
  | JUndefined | JNull =>
      (Throw (Js.cannotRead block "type"), (block, w))
  | _ => (Val tt, (block, w))
  end.

(** [await Promise.all(processBlocks(blocks))] *)
Definition processBlocks (blocks : list JSValue) (w : W)
  : Res unit * (list JSValue * W) :=
  forEachBlock processBlock blocks w.

(** [postData.content.root.children = children], the effect of the
    assignments made below [postData.content.root.children]. *)
Definition setRootChildren (children : list JSValue) (postData : JSValue)
  : JSValue :=
  let content := Js.prop postData "content" in
  let root := Js.prop content "root" in
  Js.set postData "content"
    (Js.set content "root" (Js.set root "children" (JArr children))).

Definition processMediaBlocks : Mut JSValue W unit :=
  fun pw =>
    let postData := fst pw in
    let children :=
      Js.get_opt (Js.get_opt (Js.prop postData "content") "root") "children" in
    if Js.truthy children then
      match children with
      | JArr cs =>
          match processBlocks cs (snd pw) with
          | (r, (cs', w')) => (r, (setRootChildren cs' postData, w'))
          end
      | _ => (Throw (noSuchMethod "blocks.map"), pw)
      end
    else (Val tt, pw).

(** The elements of an array or of a string as properties ["0"],
    ["1"], ..., counting from [index]. *)
Fixpoint elementProps (index : nat) (xs : list JSValue) : fieldList :=
  match xs with
  | [] => []
  | x :: rest => (JsString.of_nat index, x) :: elementProps (S index) rest
  end.

Fixpoint codeUnits (s : string) : list JSValue :=
  match s with
  | EmptyString => []
  | String c s' => JStr (String c EmptyString) :: codeUnits s'
  end.

(** [{ ...postData }]: the own properties of an object, the elements
    of an array or of a string, nothing of any other value. *)
Definition spread (v : JSValue) : JSValue :=
  match v with
  | JObj fs => JObj fs
  | JArr items => JObj (elementProps 0 items)
  | JStr s => JObj (elementProps 0 (codeUnits s))
  | _ => JObj []
  end.

(** [enhanced.meta.image = id], in the strict mode of a module.  On
    an array the assignment adds a property that is no element:
    nothing reads it afterwards and [JSON.stringify] leaves it out, so
    the array stands as it was. *)
Definition setMetaImage (id : JSValue) : Mut JSValue W unit :=
  (enhanced <- Mutation.read ;;
   match Js.prop enhanced "meta" with
   | JObj _ as meta =>
       Mutation.update (fun e => Js.set e "meta" (Js.set meta "image" id))
   | JArr _ => StateExn.ret tt
   | JUndefined =>
       StateExn.throw
         (TypeError "Cannot set properties of undefined (setting 'image')")
   | JNull =>
       StateExn.throw
         (TypeError "Cannot set properties of null (setting 'image')")
   | JBool _ as meta =>
       StateExn.throw
         (TypeError ("Cannot create property 'image' on boolean '"
                       ++ Js.to_string meta ++ "'"))
   | JNum _ as meta =>
       StateExn.throw
         (TypeError ("Cannot create property 'image' on number '"
                       ++ Js.to_string meta ++ "'"))
   | JStr _ as meta =>
       StateExn.throw
         (TypeError ("Cannot create property 'image' on string '"
                       ++ Js.to_string meta ++ "'"))
   end)%M.

(** The [try] block of [enhancePostDataFromJSON], run on [enhanced]. *)
Definition enhanceBody (request : JSValue) : Mut JSValue W unit :=
  (authorId <- Mutation.call getDefaultAuthor ;;
   StateExn.when (Js.truthy authorId)
     (Mutation.update (fun e => Js.set e "authors" (JArr [authorId]))) ;;;
   heroRequested <- StateExn.lift (Js.get request "heroImage") ;;
   StateExn.when (Js.truthy heroRequested)
     (heroImageId <- Mutation.call getRandomHeroImage ;;
      StateExn.when (Js.truthy heroImageId)
        (Mutation.update (fun e => Js.set e "heroImage" heroImageId) ;;;
         setMetaImage heroImageId)) ;;;
   processMediaBlocks)%M.

Definition enhancePostDataFromJSON (postData request : JSValue) : M W JSValue :=
  fun w =>
    let enhanced := spread postData in
    match StateExn.try_catch (enhanceBody request)
                             (fun _ => StateExn.ret tt) (enhanced, w) with
    | (Val _, (enhanced', w')) => (Val enhanced', w')
    | (Throw e, (_, w')) => (Throw e, w')
    end.

Definition failure (error details : string) : JSValue :=
  JObj [("success", JBool false); ("error", JStr error);
        ("details", JStr details)].

(** The [try] block of [createPostFromJSON]. *)
Definition createPostBody (request : JSValue) : M W JSValue :=
  (validation <- StateExn.lift (validatePostCreationRequest request) ;;
   if negb (valid validation) then
     StateExn.ret
       (failure "Invalid JSON input" (JsString.join ", " (errors validation)))
   else
     isConnected <- testConnection ;;
     if negb (Js.truthy isConnected) then
       StateExn.ret
         (failure "Could not connect to PayloadCMS Local API"
            "Failed to initialize PayloadCMS Local API. Ensure the tool is running inside the PayloadCMS container.")
     else
       postData <- processPostCreationRequest request ;;
       enhancedPostData <- enhancePostDataFromJSON postData request ;;
       createdPost <- createPost enhancedPostData ;;
       if negb (Js.truthy createdPost) then
         StateExn.ret
           (failure "Failed to create post"
              "Post creation returned null - check PayloadCMS logs for details")
       else
         admin_url <- getAdminUrl (Js.prop createdPost "id") ;;
         public_url <- getPublicUrl (Js.prop createdPost "slug") ;;
         StateExn.ret
           (JObj [("success", JBool true);
                  ("post_id", Js.prop createdPost "id");
                  ("slug", Js.prop createdPost "slug");
                  ("title", Js.prop createdPost "title");
                  ("admin_url", admin_url);
                  ("public_url", public_url)]))%M.

Definition createPostFromJSON (request : JSValue) : M W JSValue :=
  StateExn.try_catch (createPostBody request)
    (fun error =>
       StateExn.ret
         (failure
            (if is_error error then message error
             else "Unknown error occurred")
            (if is_error error then stack error
             else "No additional details available"))).

End Tool.

(* ================================================================== *)
(** * The HTTP client ([PayloadCMSClient]) *)
(* ================================================================== *)

(** A request handed to [fetch].  [body] is the value given to
    [JSON.stringify] ([JUndefined] when the request has no body). *)
Record HttpRequest : Type := mkRequest {
  url : string;
  method : string;
  headers : list (string * string);
  body : JSValue
}.

(** What the client reads of a [Response]: [json] is the outcome of
    [response.json()], which throws on a body that is not JSON. *)
Record Response : Type := mkResponse {
  ok : bool;
  status : Z;
  statusText : string;
  text : string;
  json : Res JSValue
}.

(** The network and the service behind it: [fetch] answers, or rejects. *)
Class Http (B : Type) : Type := {
  fetch : HttpRequest -> M B Response
}.

Record PayloadCMSConfig : Type := mkConfig {
  base_url : string;
  admin_email : string;
  admin_password : string
}.

(** A client instance: its two private fields, and the network it
    talks to. *)
Record Client (B : Type) : Type := mkClient {
  config : PayloadCMSConfig;
  authToken : JSValue;
  net : B
}.

Arguments mkClient {B} config authToken net.
Arguments config {B} c.
Arguments authToken {B} c.
Arguments net {B} c.

Module JsNumber.

(** The mathematical value of a numeric string, before it is rounded
    to a double: not a number, an infinity, or [m * 10 ^ k]. *)
Inductive Literal : Type :=
| NaN
| Infinite (negative : bool)
| Decimal (m k : Z).

Definition digit_value (c : ascii) : option Z :=
  let n := JsString.code c in
  if JsString.in_range 48 57 c then Some (Z.of_N n - 48)%Z
  else if JsString.in_range 97 102 c then Some (Z.of_N n - 87)%Z
  else if JsString.in_range 65 70 c then Some (Z.of_N n - 55)%Z
  else None.

(** The digits of [s] in [base], all of them, from the value [acc];
    [None] when a code unit is no digit of the base. *)
Fixpoint parse_digits (base : Z) (s : string) (acc : Z) : option Z :=
  match s with
  | EmptyString => Some acc
  | String c s' =>
      match digit_value c with
      | Some d =>
          if (d <? base)%Z then parse_digits base s' (base * acc + d)%Z
          else None
      | None => None
      end
  end.

(** The longest prefix of decimal digits, and what follows it. *)
Fixpoint span_digits (s : string) : string * string :=
  match s with
  | String c s' =>
      if JsString.is_digit c
      then let (ds, rest) := span_digits s' in (String c ds, rest)
      else (EmptyString, s)
  | EmptyString => (EmptyString, EmptyString)
  end.

Definition natural (s : string) : option Z :=
  match s with
  | EmptyString => None
  | _ => parse_digits 10 s 0
  end.

(** ExponentPart, or nothing: [e] or [E], a sign or none, digits. *)
Definition exponent (s : string) : option Z :=
  match s with
  | EmptyString => Some 0%Z
  | String c s' =>
      if Ascii.eqb c "e" || Ascii.eqb c "E" then
        match s' with
        | String "+"%char ds => natural ds
        | String "-"%char ds => option_map Z.opp (natural ds)
        | ds => natural ds
        end
      else None
  end.

(** StrUnsignedDecimalLiteral. *)
Definition unsigned_decimal (s : string) : Literal :=
  if String.eqb s "Infinity" then Infinite false
  else
    let (whole, rest) := span_digits s in
    let (fraction, rest) :=
      match rest with
      | String "."%char rest' => span_digits rest'
      | _ => (EmptyString, rest)
      end in
    match (whole ++ fraction)%string with
    | EmptyString => NaN
    | ds =>
        match parse_digits 10 ds 0, exponent rest with
        | Some m, Some e => Decimal m (e - Z.of_nat (String.length fraction))
        | _, _ => NaN
        end
    end.

Definition negate (l : Literal) : Literal :=
  match l with
  | NaN => NaN
  | Infinite negative => Infinite (negb negative)
  | Decimal m k => Decimal (- m) k
  end.

Definition prefixed (base : Z) (ds : string) : Literal :=
  match ds with
  | EmptyString => NaN
  | _ => match parse_digits base ds 0 with
         | Some m => Decimal m 0
         | None => NaN
         end
  end.

(** StringNumericLiteral: white space around nothing, around a
    decimal literal with its sign, or around a hexadecimal, octal or
    binary integer. *)
Definition of_string (s : string) : Literal :=
  match JsString.trim s with
  | EmptyString => Decimal 0 0
  | String "0"%char (String c ds) as d =>
      if Ascii.eqb c "x" || Ascii.eqb c "X" then prefixed 16 ds
      else if Ascii.eqb c "o" || Ascii.eqb c "O" then prefixed 8 ds
      else if Ascii.eqb c "b" || Ascii.eqb c "B" then prefixed 2 ds
      else unsigned_decimal d
  | String "+"%char d => unsigned_decimal d
  | String "-"%char d => negate (unsigned_decimal d)
  | d => unsigned_decimal d
  end.

(** ToNumber; the numbers of the embedding are the integers. *)
Definition of_value (v : JSValue) : Literal :=
  match v with
  | JUndefined => NaN
  | JNull => Decimal 0 0
  | JBool b => Decimal (if b then 1 else 0) 0
  | JNum z => Decimal z 0
  | JStr s => of_string s
  | JArr _ => of_string (Js.to_string v)
  | JObj _ => NaN
  end.

(** [v > n] for a number literal [n] from 1 to 2^53 - 1.  The value
    of [v] is rounded to the nearest double, ties to the even
    mantissa, before it is compared: it exceeds [n] when it lies
    beyond the midpoint between [n] and the next double, the midpoint
    itself going to [n] when the mantissa of [n] is even. *)
Definition gt (v : JSValue) (n : Z) : bool :=
  match of_value v with
  | NaN => false
  | Infinite negative => negb negative
  | Decimal m k =>
      let scale := (2 ^ (53 - Z.log2 n))%Z in
      let midpoint := (n * scale + 1)%Z in
      let even := Z.even (n * scale / 2) in
      let (value, bound) :=
        if (0 <=? k)%Z then (m * 10 ^ k * scale, midpoint)%Z
        else (m * scale, midpoint * 10 ^ (- k))%Z in
      if even then (bound <? value)%Z else (bound <=? value)%Z
  end.

End JsNumber.

(** [/^[0-9a-fA-F]{24}$/.test(id)] behind the guard
    [!id || typeof id !== 'string']. *)
Definition isValidObjectId (id : JSValue) : bool :=
  match id with
  | JStr s =>
      negb (JsString.is_empty s)
      && JsString.forallb JsString.is_hex_digit s
      && Nat.eqb (String.length s) 24
  | _ => false
  end.

(** [array.find(pred)] with a callback that may throw. *)
Fixpoint findM (pred : JSValue -> Res bool) (xs : list JSValue) : Res JSValue :=
  match xs with
  | [] => Val JUndefined
  | x :: rest =>
      (hit <- pred x ;;
       if (hit : bool) then Val x else findM pred rest)%res
  end.

(** [array.filter(pred)] with a callback that may throw. *)
Fixpoint filterM (pred : JSValue -> Res bool) (xs : list JSValue)
  : Res (list JSValue) :=
  match xs with
  | [] => Val []
  | x :: rest =>
      (hit <- pred x ;;
       kept <- filterM pred rest ;;
       Val (if (hit : bool) then x :: kept else kept))%res
  end.

(** The receiver of an array method: anything else has no such method. *)
Definition asArray (what : string) (v : JSValue) : Res (list JSValue) :=
  match v with
  | JArr xs => Val xs
  | _ => Throw (noSuchMethod what)
  end.

(** [s.toLowerCase()] on a value that need not be a string. *)
Definition toLowerCaseOf (v : JSValue) : Res string :=
  match v with
  | JStr s => Val (JsString.toLowerCase s)
  | _ => Throw (noSuchMethod "toLowerCase")
  end.

Definition is_alnum (c : ascii) : bool :=
  JsString.is_lower_alpha c || JsString.is_digit c.

(** [title.toLowerCase().replace(/[^a-z0-9]+/g, '-').replace(/^-|-$/g, '')] *)
Definition categorySlug (title : string) : string :=
  JsString.drop_trailing JsString.is_hyphen
    (JsString.drop_leading JsString.is_hyphen
       (JsString.replace_runs (fun c => negb (is_alnum c)) hyphen false
          (JsString.toLowerCase title))).

Module PayloadCMSClient.
Section Methods.
Context {B : Type} {H : Http B} {R : MathRandom B}.

Local Abbreviation C := (Client B).

(** [await fetch(url, init)] *)
Definition doFetch (req : HttpRequest) : M C Response :=
  fun c =>
    match fetch req (net c) with
    | (r, b') => (r, mkClient (config c) (authToken c) b')
    end.

Definition jsonHeaders : list (string * string) :=
  [("Content-Type", "application/json")].

Definition getAuthToken : M C JSValue :=
  (cached <- StateExn.gets authToken ;;
   if Js.truthy cached then StateExn.ret cached
   else
     StateExn.try_catch
       (cfg <- StateExn.gets config ;;
        response <- doFetch
          (mkRequest (base_url cfg ++ "/api/users/login") "POST" jsonHeaders
             (JObj [("email", JStr (admin_email cfg));
                    ("password", JStr (admin_password cfg))])) ;;
        if negb (ok response) then
          StateExn.throw
            (Error ("Authentication failed: " ++ JsString.of_Z (status response)
                      ++ " " ++ statusText response ++ " - " ++ text response))
        else
          data <- StateExn.lift (json response) ;;
          token <- StateExn.lift (Js.get data "token") ;;
          if negb (Js.truthy token) then
            StateExn.throw (Error "No token received from authentication")
          else
            StateExn.modify
              (fun c => mkClient (config c) token (net c)) ;;;
            StateExn.gets authToken)
       (fun error => StateExn.throw error))%M.

(** [makeRequest(endpoint, { method, body })] *)
Definition makeRequest (endpoint method : string) (body : JSValue)
  : M C Response :=
  (token <- getAuthToken ;;
   cfg <- StateExn.gets config ;;
   response <- doFetch
     (mkRequest (base_url cfg ++ "/api" ++ endpoint) method
        (jsonHeaders
           ++ [("Authorization", ("JWT " ++ Js.to_string token)%string)])%list
        body) ;;
   if negb (ok response) then
     StateExn.throw
       (Error ("API request failed: " ++ JsString.of_Z (status response)
                 ++ " " ++ statusText response ++ " - " ++ text response))
   else StateExn.ret response)%M.

Definition ensureAuthenticated : M C unit :=
  (cached <- StateExn.gets authToken ;;
   if negb (Js.truthy cached) then (getAuthToken ;;; StateExn.ret tt)
   else StateExn.ret tt)%M.

(** The shared body of [getMedia], [getUsers], [getCategories] and
    [getPosts]: [result.docs || []], and [[]] on any failure. *)
Definition listDocs (endpoint : string) : M C JSValue :=
  StateExn.try_catch
    (ensureAuthenticated ;;;
     response <- makeRequest endpoint "GET" JUndefined ;;
     result <- StateExn.lift (json response) ;;
     docs <- StateExn.lift (Js.get result "docs") ;;
     StateExn.ret (Js.or docs (JArr [])))%M
    (fun _ => StateExn.ret (JArr [])).

Definition getMedia : M C JSValue := listDocs "/media?limit=1000".
Definition getUsers : M C JSValue := listDocs "/users?limit=100".
Definition getCategories : M C JSValue := listDocs "/categories?limit=1000".
Definition getPosts : M C JSValue := listDocs "/posts?limit=1000".

Definition createCategory (title : string) : M C JSValue :=
  StateExn.try_catch
    (ensureAuthenticated ;;;
     let slug := categorySlug title in
     response <- makeRequest "/categories" "POST"
                   (JObj [("title", JStr title); ("slug", JStr slug)]) ;;
     category <- StateExn.lift (json response) ;;
     StateExn.ret category)%M
    (fun _ => StateExn.ret JNull).

(** [cat => cat.title.toLowerCase() === title.toLowerCase()] *)
Definition sameTitle (title : string) (cat : JSValue) : Res bool :=
  (t <- Js.get cat "title" ;;
   lowered <- toLowerCaseOf t ;;
   Val (String.eqb lowered (JsString.toLowerCase title)))%res.

(** The body of the loop of [getOrCreateCategories], over the titles
    that remain. *)
Fixpoint categoryLoop (existingCategories : JSValue) (titles : list string)
         (categoryIds : list JSValue) : M C (list JSValue) :=
  match titles with
  | [] => StateExn.ret categoryIds
  | title :: rest =>
      (existing <- StateExn.lift
                     (cats <- asArray "existingCategories.find" existingCategories ;;
                      findM (sameTitle title) cats)%res ;;
       if Js.truthy existing then
         categoryLoop existingCategories rest
           (categoryIds ++ [Js.prop existing "id"])%list
       else
         newCategory <- createCategory title ;;
         if Js.truthy newCategory then
           categoryLoop existingCategories rest
             (categoryIds ++ [Js.prop newCategory "id"])%list
         else categoryLoop existingCategories rest categoryIds)%M
  end.

Definition getOrCreateCategories (categoryTitles : list string)
  : M C (list JSValue) :=
  (existingCategories <- getCategories ;;
   categoryLoop existingCategories categoryTitles [])%M.

(** [user => user.email === email] *)
Definition hasEmail (email : string) (user : JSValue) : Res bool :=
  (e <- Js.get user "email" ;; Val (Js.eq_str e email))%res.

Definition getDefaultAuthor : M C JSValue :=
  (users <- getUsers ;;
   cfg <- StateExn.gets config ;;
   us <- StateExn.lift (asArray "users.find" users) ;;
   currentAdmin <- StateExn.lift (findM (hasEmail (admin_email cfg)) us) ;;
   if Js.truthy currentAdmin && isValidObjectId (Js.prop currentAdmin "id") then
     StateExn.ret (Js.prop currentAdmin "id")
   else
     demoAuthor <- StateExn.lift (findM (hasEmail "demo-author@example.com") us) ;;
     if Js.truthy demoAuthor && isValidObjectId (Js.prop demoAuthor "id") then
       StateExn.ret (Js.prop demoAuthor "id")
     else
       match us with
       | first :: _ =>
           id <- StateExn.lift (Js.get first "id") ;;
           StateExn.ret (if isValidObjectId id then id else JNull)
       | [] => StateExn.ret JNull
       end)%M.

(** [m => m.mimeType?.startsWith('image/') && (m.width || 0) > 800] *)
Definition isLargeImage (m : JSValue) : Res bool :=
  (mimeType <- Js.get m "mimeType" ;;
   match mimeType with
   | JUndefined | JNull => Val false
   | JStr s =>
       Val (String.prefix "image/" s
            && JsNumber.gt (Js.or (Js.prop m "width") (JNum 0)) 800)
   | _ => Throw (noSuchMethod "m.mimeType.startsWith")
   end)%res.

(** [Math.floor(Math.random() * n)] drawn from the host. *)
Definition drawIndex (n : nat) : M C nat :=
  fun c =>
    match random_index n (net c) with
    | (i, b') => (Val i, mkClient (config c) (authToken c) b')
    end.

Definition getRandomHeroImage : M C JSValue :=
  (media <- getMedia ;;
   ms <- StateExn.lift (asArray "media.filter" media) ;;
   images <- StateExn.lift (filterM isLargeImage ms) ;;
   selectedMedia <-
     match images with
     | [] => StateExn.ret (match ms with first :: _ => first | [] => JNull end)
     | _ => i <- drawIndex (List.length images) ;;
            StateExn.ret (nth i images JUndefined)
     end ;;
   if Js.truthy selectedMedia && isValidObjectId (Js.prop selectedMedia "id")
   then StateExn.ret (Js.prop selectedMedia "id")
   else StateExn.ret JNull)%M.

Definition createPost (postData : JSValue) : M C JSValue :=
  StateExn.try_catch
    (ensureAuthenticated ;;;
     response <- makeRequest "/posts" "POST" postData ;;
     responseData <- StateExn.lift (json response) ;;
     doc <- StateExn.lift (Js.get responseData "doc") ;;
     StateExn.ret (Js.or doc responseData))%M
    (fun error => StateExn.throw error).

Definition testConnection : M C JSValue :=
  StateExn.try_catch
    (ensureAuthenticated ;;;
     makeRequest "/posts?limit=1" "GET" JUndefined ;;;
     StateExn.ret (JBool true))%M
    (fun _ => StateExn.ret (JBool false)).

Definition getAdminUrl (postId : JSValue) : M C JSValue :=
  (cfg <- StateExn.gets config ;;
   StateExn.ret
     (JStr (base_url cfg ++ "/admin/collections/posts/" ++ Js.to_string postId)))%M.

Definition getPublicUrl (slug : JSValue) : M C JSValue :=
  (cfg <- StateExn.gets config ;;
   StateExn.ret (JStr (base_url cfg ++ "/posts/" ++ Js.to_string slug)))%M.

(** [authenticate(email, password)] *)
Definition authenticate (email password : string) : M C JSValue :=
  StateExn.try_catch
    (StateExn.modify
       (fun c => mkClient (mkConfig (base_url (config c)) email password)
                          JNull (net c)) ;;;
     getAuthToken ;;;
     StateExn.ret (JBool true))%M
    (fun _ => StateExn.ret (JBool false)).

(** [Math.random] reaches the tool through the same host. *)
#[global] Instance Client_MathRandom : MathRandom C.
Proof.
  refine {|
    random_token := fun c =>
      (fst (random_token (net c)),
       mkClient (config c) (authToken c) (snd (random_token (net c))));
    random_index := fun n c =>
      (fst (random_index n (net c)),
       mkClient (config c) (authToken c) (snd (random_index n (net c))))
  |}.
  intros n c Hn. simpl. apply random_index_lt. exact Hn.
Defined.

(** The client, as the tool sees it. *)
#[global] Instance Client_PayloadClient : PayloadClient C :=
  Build_PayloadClient testConnection getDefaultAuthor getRandomHeroImage
                      createPost getAdminUrl getPublicUrl.

End Methods.
End PayloadCMSClient.

(* ================================================================== *)
(** * Concrete inputs and an in-memory service *)
(* ================================================================== *)

(** The request built by [PayloadCMSContentGeneratorTool.test]. *)
Definition testRequest : JSValue :=
  JObj [("title", JStr "Test Post - PayloadCMS Content Generation");
        ("meta",
          JObj [("title", JStr "Test Post - PayloadCMS Content Generation");
                ("description",
                  JStr "A test post to verify the PayloadCMS content generator tool functionality")]);
        ("blocks",
          JArr [JObj [("type", JStr "heading");
                      ("content", JStr "Tool Functionality Test");
                      ("metadata", JObj [("level", JStr "h2")])];
                JObj [("type", JStr "paragraph");
                      ("content",
                        JStr "This is a test post created to verify that the PayloadCMS content generator tool is working correctly.")];
                JObj [("type", JStr "banner");
                      ("content",
                        JStr "This post was generated automatically as part of the tool testing process.");
                      ("metadata", JObj [("style", JStr "info")])]]);
        ("categories", JArr [JStr "Testing"; JStr "PayloadCMS"]);
        ("heroImage", JBool true)].

(** A service that keeps its collections in memory and answers the
    requests of the client: login, the four listings, and the creation
    of categories and posts.  It stands for the remote CMS when the
    client is run on concrete inputs.  While [postsDown] is set, the
    creation of a post is answered with status 500. *)
Record Service : Type := mkService {
  categories : list JSValue;
  mediaDocs : list JSValue;
  userDocs : list JSValue;
  postDocs : list JSValue;
  created : nat;
  draws : nat;
  postsDown : bool
}.

Module InMemory.

Definition origin : string := "http://localhost:3000".

Definition cfg : PayloadCMSConfig :=
  mkConfig origin "demo-author@example.com" "password".

Fixpoint zeros (n : nat) : string :=
  match n with
  | O => EmptyString
  | S n' => String "0"%char (zeros n')
  end.

(** The [n]-th identifier issued: 24 hexadecimal digits. *)
Definition objectId (n : nat) : string :=
  let d := JsString.of_nat n in
  zeros (24 - String.length d) ++ d.

Definition reply (v : JSValue) : Response :=
  mkResponse true 200 "OK" "" (Val v).

Definition notJson : Res JSValue :=
  Throw (mkExn true "Unexpected token" "SyntaxError: Unexpected token").

Definition notFound : Response :=
  mkResponse false 404 "Not Found" "Not Found" notJson.

Definition serverError : Response :=
  mkResponse false 500 "Internal Server Error" "Something went wrong." notJson.

Definition docs (xs : list JSValue) : Response :=
  reply (JObj [("docs", JArr xs); ("totalDocs", JNum (Z.of_nat (List.length xs)))]).

Definition route (path : string) (req : HttpRequest) : bool :=
  String.eqb (url req) (origin ++ path).

Definition addCategory (category : JSValue) (s : Service) : Service :=
  mkService (categories s ++ [category])%list (mediaDocs s) (userDocs s)
            (postDocs s) (S (created s)) (draws s) (postsDown s).

Definition addPost (post : JSValue) (s : Service) : Service :=
  mkService (categories s) (mediaDocs s) (userDocs s)
            (postDocs s ++ [post])%list (S (created s)) (draws s) (postsDown s).

Definition serve (req : HttpRequest) (s : Service) : Res Response * Service :=
  if route "/api/users/login" req then
    (Val (reply (JObj [("token", JStr "session-token")])), s)
  else if route "/api/categories?limit=1000" req then
    (Val (docs (categories s)), s)
  else if route "/api/media?limit=1000" req then
    (Val (docs (mediaDocs s)), s)
  else if route "/api/users?limit=100" req then
    (Val (docs (userDocs s)), s)
  else if route "/api/posts?limit=1" req then
    (Val (docs (firstn 1 (postDocs s))), s)
  else if route "/api/categories" req && String.eqb (method req) "POST" then
    let category :=
      JObj [("id", JStr (objectId (created s)));
            ("title", Js.prop (body req) "title");
            ("slug", Js.prop (body req) "slug")] in
    (Val (reply category), addCategory category s)
  else if route "/api/posts" req && String.eqb (method req) "POST" then
    if postsDown s then (Val serverError, s)
    else
      let post := Js.set (body req) "id" (JStr (objectId (created s))) in
      (Val (reply (JObj [("doc", post);
                         ("message", JStr "Post successfully created.")])),
       addPost post s)
  else (Val notFound, s).

#[global] Instance Service_Http : Http Service := {| fetch := serve |}.

Definition draw (s : Service) : Service :=
  mkService (categories s) (mediaDocs s) (userDocs s) (postDocs s)
            (created s) (S (draws s)) (postsDown s).

#[global] Instance Service_MathRandom : MathRandom Service.
Proof.
  refine {|
    random_token := fun s => ("r" ++ JsString.of_nat (draws s), draw s);
    random_index := fun n s => (Nat.modulo (draws s) n, draw s)
  |}.
  intros n s Hn. simpl. apply Nat.mod_upper_bound. exact Hn.
Defined.

Definition empty : Service := mkService [] [] [] [] 0 0 false.

(** The empty service with the creation of posts out of order. *)
Definition broken : Service := mkService [] [] [] [] 0 0 true.

(** A fresh client of the service [s]. *)
Definition client (s : Service) : Client Service := mkClient cfg JNull s.

(** The titles of the categories the service holds, in lower case. *)
Definition categoryTitles (s : Service) : list (Res string) :=
  map (fun c => toLowerCaseOf (Js.prop c "title")) (categories s).

End InMemory.

(** A request with one block of each known type and one of a type the
    contract does not know. *)
Definition mixedBlocks : list JSValue :=
  [JObj [("type", JStr "heading"); ("content", JStr "Setup")];
   JObj [("type", JStr "code"); ("content", JStr "fn main() {}");
         ("metadata", JObj [("language", JStr "rust")])];
   JObj [("type", JStr "mediaBlock"); ("content", JStr "")];
   JObj [("type", JStr "quote"); ("content", JStr "Less is more.")];
   JObj [("type", JStr "paragraph"); ("content", JStr "Done.")]].

(** A request that the validator accepts and that holds a media block. *)
Definition mediaRequest : JSValue :=
  JObj [("title", JStr "Docker Best Practices!");
        ("meta", JObj [("title", JStr "Docker"); ("description", JStr "Notes")]);
        ("blocks",
          JArr [JObj [("type", JStr "paragraph"); ("content", JStr "Hello")];
                JObj [("type", JStr "mediaBlock"); ("content", JStr "")]])].


(* ================================================================== *)
(** * Predicates used in the statements *)
(* ================================================================== *)

(** The code units of a finished slug: [[a-z0-9-]]. *)
Definition slug_char (c : ascii) : bool :=
  JsString.is_lower_alpha c || JsString.is_digit c || JsString.is_hyphen c.

Definition starts_with_hyphen (s : string) : bool :=
  match s with
  | String c _ => JsString.is_hyphen c
  | EmptyString => false
  end.

Fixpoint ends_with_hyphen (s : string) : bool :=
  match s with
  | EmptyString => false
  | String c EmptyString => JsString.is_hyphen c
  | String _ s' => ends_with_hyphen s'
  end.

Fixpoint no_double_hyphen (s : string) : bool :=
  match s with
  | EmptyString => true
  | String c s' =>
      negb (JsString.is_hyphen c && starts_with_hyphen s') && no_double_hyphen s'
  end.

(** A string that reads as a slug: words over [[a-z0-9]] joined by
    single hyphens. *)
Definition slug_like (s : string) : bool :=
  JsString.forallb slug_char s && no_double_hyphen s
  && negb (starts_with_hyphen s) && negb (ends_with_hyphen s).

(** ** The checks of the validator, one by one

    Each list below holds the violations of one check of the contract,
    computed from the input alone. *)

Definition nonblank_string (v : JSValue) : bool :=
  match v with
  | JStr s => negb (JsString.is_empty (JsString.trim s))
  | _ => false
  end.

Definition nonempty_string (v : JSValue) : bool :=
  match v with
  | JStr s => negb (JsString.is_empty s)
  | _ => false
  end.

Definition unless (c : bool) (msg : string) : list string :=
  if c then [] else [msg].

(** [f 0 x0 ++ f 1 x1 ++ ...], counting from [index]. *)
Fixpoint indexed {A : Type} (f : nat -> A -> list string) (index : nat)
         (xs : list A) : list string :=
  match xs with
  | [] => []
  | x :: rest => (f index x ++ indexed f (S index) rest)%list
  end.

Definition titleViolations (data : JSValue) : list string :=
  unless (nonblank_string (Js.prop data "title"))
         "title is required and must be a non-empty string".

Definition metaViolations (data : JSValue) : list string :=
  match Js.prop data "meta" with
  | (JObj _ | JArr _) as meta =>
      (unless (nonempty_string (Js.prop meta "title"))
              "meta.title is required and must be a string"
       ++ unless (nonempty_string (Js.prop meta "description"))
                 "meta.description is required and must be a string")%list
  | _ => ["meta is required and must be an object"]
  end.

(** The checks on one block.  The type is a non-empty string, and one
    of the five. *)
Definition typeViolations (index : nat) (block : JSValue) : list string :=
  match Js.prop block "type" with
  | JStr (String _ _ as type) =>
      unless (existsb (String.eqb type) blockTypes)
             (blk index ++ ".type must be one of: paragraph, heading, code, banner, mediaBlock")
  | _ => [blk index ++ ".type is required and must be a string"]
  end.

Definition isMediaBlock (block : JSValue) : bool :=
  match Js.prop block "type" with
  | JStr type => String.eqb type "mediaBlock"
  | _ => false
  end.

(** The content is a string, which only a media block may leave
    empty. *)
Definition contentViolations (index : nat) (block : JSValue) : list string :=
  match Js.prop block "content" with
  | JStr content =>
      unless (isMediaBlock block || negb (JsString.is_empty content))
             (blk index ++ ".content is required and must be a string")
  | _ =>
      if isMediaBlock block
      then [blk index ++ ".content must be a string (can be empty for mediaBlock)"]
      else [blk index ++ ".content is required and must be a string"]
  end.

(** A truthy value counts as provided, here and in the checks of the
    optional fields below; a provided [metadata] is an object. *)
Definition provided (v : JSValue) : bool := Js.truthy v.

Definition metadataViolations (index : nat) (block : JSValue) : list string :=
  let metadata := Js.prop block "metadata" in
  unless (negb (provided metadata) || Js.is_object metadata)
         (blk index ++ ".metadata must be an object if provided").

(** In a block of type [kind], a provided [metadata.key] is one of the
    [allowed] values, which the message lists as [choices]. *)
Definition enumViolations (kind key choices : string) (allowed : list string)
           (index : nat) (block : JSValue) : list string :=
  let metadata := Js.prop block "metadata" in
  let value := if Js.nullish metadata then JUndefined else Js.prop metadata key in
  match Js.prop block "type" with
  | JStr type =>
      if String.eqb type kind && provided value
      then unless (existsb (Js.eq_str value) allowed)
                  (blk index ++ ".metadata." ++ key ++ " must be one of: " ++ choices)
      else []
  | _ => []
  end.

Definition blockViolations (index : nat) (block : JSValue) : list string :=
  (typeViolations index block
   ++ contentViolations index block
   ++ metadataViolations index block
   ++ enumViolations "code" "language"
        "typescript, javascript, css, html, python, bash, json, yaml, dockerfile, sql, markdown, xml"
        allowedLanguages index block
   ++ enumViolations "heading" "level" "h2, h3" allowedLevels index block
   ++ enumViolations "banner" "style" "info, warning, error, success"
        allowedStyles index block)%list.

Definition blocksViolations (data : JSValue) : list string :=
  match Js.prop data "blocks" with
  | JArr items => indexed blockViolations 0 items
  | _ => ["blocks is required and must be an array"]
  end.

Definition slugViolations (data : JSValue) : list string :=
  let slug := Js.prop data "slug" in
  unless (negb (Js.truthy slug) || nonblank_string slug)
         "slug must be a non-empty string if provided".

Definition categoryViolations (index : nat) (category : JSValue) : list string :=
  unless (nonblank_string category)
         ("categories[" ++ JsString.of_nat index ++ "] must be a non-empty string").

Definition categoriesViolations (data : JSValue) : list string :=
  match Js.prop data "categories" with
  | JArr cats => indexed categoryViolations 0 cats
  | categories =>
      unless (negb (Js.truthy categories)) "categories must be an array if provided"
  end.

Definition heroImageViolations (data : JSValue) : list string :=
  let heroImage := Js.prop data "heroImage" in
  unless (negb (Js.truthy heroImage) || Js.is_boolean heroImage)
         "heroImage must be a boolean if provided".

Definition allViolations (data : JSValue) : list string :=
  (titleViolations data ++ metaViolations data ++ blocksViolations data
   ++ slugViolations data ++ categoriesViolations data
   ++ heroImageViolations data)%list.

(** The inputs the validator can inspect: a value other than [null]
    and [undefined] whose [blocks], when an array, holds neither. *)
Definition hasNullishBlock (data : JSValue) : bool :=
  match Js.prop data "blocks" with
  | JArr items => existsb Js.nullish items
  | _ => false
  end.

Definition inspectable (data : JSValue) : bool :=
  negb (Js.nullish data) && negb (hasNullishBlock data).

Definition isNil {A : Type} (xs : list A) : bool :=
  match xs with [] => true | _ => false end.

(** ** Compiled documents *)

(** [node] is what [convertBlock] makes of [block], under some state of
    the host. *)
Definition compiledFrom (W : Type) {R : MathRandom W} (block node : JSValue)
  : Prop :=
  exists w0 w1 : W, convertBlock block w0 = (Val node, w1).

Arguments compiledFrom W {R} block node.

(** The language field of a compiled code node. *)
Definition languageOf (node : JSValue) : JSValue :=
  Js.prop (Js.prop node "fields") "language".

(** ** The tool *)

(** The request passes validation. *)
Definition accepts (request : JSValue) : bool :=
  match validatePostCreationRequest request with
  | Val v => valid v
  | Throw _ => false
  end.

(** [{ success: true, post_id, slug, title, admin_url, public_url }] *)
Definition isSuccess (r : JSValue) : bool :=
  match r with
  | JObj fs =>
      match Js.assoc "success" fs with
      | JBool true =>
          String.eqb (JsString.join "," (map fst fs))
                     "success,post_id,slug,title,admin_url,public_url"
      | _ => false
      end
  | _ => false
  end.

(** [{ success: false, error, details }] with two strings. *)
Definition isFailure (r : JSValue) : bool :=
  match r with
  | JObj fs =>
      match Js.assoc "success" fs with
      | JBool false =>
          String.eqb (JsString.join "," (map fst fs)) "success,error,details"
          && Js.is_string (Js.assoc "error" fs)
          && Js.is_string (Js.assoc "details" fs)
      | _ => false
      end
  | _ => false
  end.

(** A media block node that still carries its placeholder. *)
Definition isMediaPlaceholder (node : JSValue) : bool :=
  Js.eq_str (Js.prop node "type") "block"
  && Js.eq_str (Js.prop (Js.prop node "fields") "blockType") "mediaBlock"
  && Js.eq_str (Js.prop (Js.prop node "fields") "media") "random".

Definition mediaOf (node : JSValue) : JSValue :=
  Js.prop (Js.prop node "fields") "media".

(** [postData.content?.root?.children], the nodes that the media pass
    walks. *)
Definition rootChildren (postData : JSValue) : JSValue :=
  Js.get_opt (Js.get_opt (Js.prop postData "content") "root") "children".

(** The client resolves no media: whenever [getRandomHeroImage]
    returns, what it returns is falsy. *)
Definition neverResolves {W : Type} (P : PayloadClient W) : Prop :=
  forall (w : W) v w', getRandomHeroImage w = (Val v, w') -> Js.truthy v = false.

(** The client [P] over a library without media: [getRandomHeroImage]
    finds nothing. *)
Definition withoutMedia {W : Type} (P : PayloadClient W) : PayloadClient W := {|
  testConnection := testConnection;
  getDefaultAuthor := getDefaultAuthor;
  getRandomHeroImage := StateExn.ret JNull;
  createPost := createPost;
  getAdminUrl := getAdminUrl;
  getPublicUrl := getPublicUrl
|}.

(** What [enhanceBody] does before the media pass: the author, and the
    hero image when the request asks for one. *)
Definition beforeMedia {W : Type} {P : PayloadClient W} (request : JSValue)
  : Mut JSValue W unit :=
  (authorId <- Mutation.call getDefaultAuthor ;;
   StateExn.when (Js.truthy authorId)
     (Mutation.update (fun e => Js.set e "authors" (JArr [authorId]))) ;;;
   heroRequested <- StateExn.lift (Js.get request "heroImage") ;;
   StateExn.when (Js.truthy heroRequested)
     (heroImageId <- Mutation.call getRandomHeroImage ;;
      StateExn.when (Js.truthy heroImageId)
        (Mutation.update (fun e => Js.set e "heroImage" heroImageId) ;;;
         setMetaImage heroImageId)))%M.

(** What [createPostFromJSON] does with the enriched post: it hands it
    to [createPost] and shapes the result from the answer. *)
Definition submit {W : Type} {P : PayloadClient W} (enhancedPostData : JSValue)
  : M W JSValue :=
  (createdPost <- createPost enhancedPostData ;;
   if negb (Js.truthy createdPost) then
     StateExn.ret
       (failure "Failed to create post"
          "Post creation returned null - check PayloadCMS logs for details")
   else
     admin_url <- getAdminUrl (Js.prop createdPost "id") ;;
     public_url <- getPublicUrl (Js.prop createdPost "slug") ;;
     StateExn.ret
       (JObj [("success", JBool true);
              ("post_id", Js.prop createdPost "id");
              ("slug", Js.prop createdPost "slug");
              ("title", Js.prop createdPost "title");
              ("admin_url", admin_url);
              ("public_url", public_url)]))%M.

(** The [catch] block of [createPostFromJSON]. *)
Definition reportError {W : Type} (error : Exn) : M W JSValue :=
  StateExn.ret
    (failure
       (if is_error error then message error else "Unknown error occurred")
       (if is_error error then stack error
        else "No additional details available")).

(** The computation [c] leaves the property [k] of the object under
    mutation as it found it, whatever its outcome. *)
Definition keeps {W A : Type} (k : string) (c : Mut JSValue W A) : Prop :=
  forall s w r s' w',
    c (s, w) = (r, (s', w')) -> Js.prop s' k = Js.prop s k.

(** The identifiers that [getOrCreateCategories] pushes for the answer
    of [createCategory]. *)
Definition pushedId (category : JSValue) : list JSValue :=
  if Js.truthy category then [Js.prop category "id"] else [].

(** From a state of the object that satisfies [P], every outcome of
    [c], a throw included, leaves a state that satisfies [Q]. *)
Definition leads {W A : Type} (P : JSValue -> Prop) (c : Mut JSValue W A)
           (Q : JSValue -> Prop) : Prop :=
  forall s w r s' w',
    P s -> c (s, w) = (r, (s', w')) -> Q s'.

(** The hero image of a post under enrichment is unresolved: [heroImage]
    and [meta] are as compilation left them. *)
Definition heroUnresolved (hero meta post : JSValue) : Prop :=
  Js.prop post "heroImage" = hero /\ Js.prop post "meta" = meta.

(** The hero image is resolved: [heroImage] and [meta.image] hold the
    same identifier. *)
Definition heroResolved (meta post : JSValue) : Prop :=
  exists id,
    Js.truthy id = true
    /\ Js.prop post "heroImage" = id
    /\ Js.prop post "meta" = Js.set meta "image" id.

(** A client that refuses to create anything but a draft, and is the
    client [P] otherwise. *)
Definition draftsOnly {W : Type} (P : PayloadClient W) : PayloadClient W := {|
  testConnection := testConnection;
  getDefaultAuthor := getDefaultAuthor;
  getRandomHeroImage := getRandomHeroImage;
  createPost := fun postData =>
    if Js.eq_str (Js.prop postData "_status") "draft"
    then createPost postData
    else StateExn.throw (Error "refused: the post is not a draft");
  getAdminUrl := getAdminUrl;
  getPublicUrl := getPublicUrl
|}.

(* ================================================================== *)
(** * Further inputs and predicates *)
(* ================================================================== *)

(** The request [POST /api/users/login] that [getAuthToken] sends for
    the configuration [cfg]. *)
Definition loginRequest (cfg : PayloadCMSConfig) : HttpRequest :=
  mkRequest (base_url cfg ++ "/api/users/login") "POST"
    PayloadCMSClient.jsonHeaders
    (JObj [("email", JStr (admin_email cfg));
           ("password", JStr (admin_password cfg))]).

(** The request that [makeRequest] sends once it holds [token]. *)
Definition apiRequest (cfg : PayloadCMSConfig) (token : JSValue)
           (endpoint method : string) (body : JSValue) : HttpRequest :=
  mkRequest (base_url cfg ++ "/api" ++ endpoint) method
    (PayloadCMSClient.jsonHeaders
       ++ [("Authorization", ("JWT " ++ Js.to_string token)%string)])%list
    body.

(** The client [c] with [b] for its network. *)
Definition onNet {B : Type} (c : Client B) (b : B) : Client B :=
  mkClient (config c) (authToken c) b.

(** The message of the error that [makeRequest] throws for a response
    that is not ok. *)
Definition requestFailed (response : Response) : string :=
  "API request failed: " ++ JsString.of_Z (status response)
    ++ " " ++ statusText response ++ " - " ++ text response.

(** The message of the error that [getAuthToken] throws for a response
    that is not ok. *)
Definition authenticationFailed (response : Response) : string :=
  "Authentication failed: " ++ JsString.of_Z (status response)
    ++ " " ++ statusText response ++ " - " ++ text response.

(** A service with one user, one large image and one category. *)
Definition stocked : Service :=
  mkService
    [JObj [("id", JStr "64b7f0c2a1d3e4f5a6b7c8d9"); ("title", JStr "Docker");
           ("slug", JStr "docker")]]
    [JObj [("id", JStr "64b7f0c2a1d3e4f5a6b7c8da");
           ("filename", JStr "hero.png"); ("mimeType", JStr "image/png");
           ("width", JNum 1920)]]
    [JObj [("id", JStr "64b7f0c2a1d3e4f5a6b7c8db");
           ("email", JStr "demo-author@example.com")]]
    [] 0 0 false.

(** [title] has a match in the list [cats] that [getOrCreateCategories]
    fetched: the callback of [find] returns [true] on some category
    before it throws on any. *)
Definition hasCategory (cats : list JSValue) (title : string) : bool :=
  match findM (PayloadCMSClient.sameTitle title) cats with
  | Val cat => Js.truthy cat
  | Throw _ => false
  end.

(** The identifier of that match. *)
Definition categoryIdOf (cats : list JSValue) (title : string) : JSValue :=
  match findM (PayloadCMSClient.sameTitle title) cats with
  | Val cat => Js.prop cat "id"
  | Throw _ => JUndefined
  end.

(** ** The contract, read as a predicate

    What [PostCreationRequest] and [ContentBlock] ask of a value, with
    the enumerations of the validator. *)

(** An optional field restricted to an enumeration: absent, or one of
    [allowed]. *)
Definition enumOk (allowed : list string) (v : JSValue) : bool :=
  negb (Js.truthy v) || Js.includes allowed v.

(** The field [key] of the metadata of a block of type [kind]. *)
Definition fieldOk (kind key : string) (allowed : list string)
           (type : string) (metadata : JSValue) : bool :=
  negb (String.eqb type kind) || enumOk allowed (Js.get_opt metadata key).

Definition conformingBlock (block : JSValue) : bool :=
  match Js.prop block "type", Js.prop block "content" with
  | JStr type, JStr content =>
      existsb (String.eqb type) blockTypes
      && (String.eqb type "mediaBlock" || negb (JsString.is_empty content))
      && (negb (Js.truthy (Js.prop block "metadata"))
          || Js.is_object (Js.prop block "metadata"))
      && fieldOk "code" "language" allowedLanguages type (Js.prop block "metadata")
      && fieldOk "heading" "level" allowedLevels type (Js.prop block "metadata")
      && fieldOk "banner" "style" allowedStyles type (Js.prop block "metadata")
  | _, _ => false
  end.

Definition conformingRequest (request : JSValue) : bool :=
  nonblank_string (Js.prop request "title")
  && nonempty_string (Js.prop (Js.prop request "meta") "title")
  && nonempty_string (Js.prop (Js.prop request "meta") "description")
  && match Js.prop request "blocks" with
     | JArr items => forallb conformingBlock items
     | _ => false
     end
  && (negb (Js.truthy (Js.prop request "slug"))
      || nonblank_string (Js.prop request "slug"))
  && match Js.prop request "categories" with
     | JArr cats => forallb nonblank_string cats
     | categories => negb (Js.truthy categories)
     end
  && (negb (Js.truthy (Js.prop request "heroImage"))
      || Js.is_boolean (Js.prop request "heroImage")).

(** What [enhanceBody] does once the author has been looked up: the
    hero image, then the media blocks. *)
Section AfterAuthor.
Context {W : Type} {R : MathRandom W} {P : PayloadClient W}.

Definition afterAuthor (request : JSValue) : Mut JSValue W unit :=
  (heroRequested <- StateExn.lift (Js.get request "heroImage") ;;
   StateExn.when (Js.truthy heroRequested)
     (heroImageId <- Mutation.call getRandomHeroImage ;;
      StateExn.when (Js.truthy heroImageId)
        (Mutation.update (fun e => Js.set e "heroImage" heroImageId) ;;;
         setMetaImage heroImageId)) ;;;
   processMediaBlocks)%M.

End AfterAuthor.

(* ================================================================== *)
(** * Configuration detection ([ConfigManager]) *)
(* ================================================================== *)

(** String operations of the configuration code. *)
Module Text.

(** The double quote, U+0022. *)
Definition quote : ascii := ascii_of_nat 34.

(** The line feed, U+000A. *)
Definition newline : ascii := ascii_of_nat 10.

(** [s.split(sep)] for a separator of one code unit. *)
Fixpoint split (sep : ascii) (s : string) : list string :=
  match s with
  | EmptyString => [EmptyString]
  | String c s' =>
      if Ascii.eqb c sep then EmptyString :: split sep s'
      else
        match split sep s' with
        | part :: parts => String c part :: parts
        | [] => [String c EmptyString]
        end
  end.

(** [s.startsWith(p)] *)
Definition startsWith (p s : string) : bool := String.prefix p s.

(** What follows the prefix [p] in [s]. *)
Fixpoint after (p s : string) : option string :=
  match p, s with
  | EmptyString, _ => Some s
  | String a p', String b s' => if Ascii.eqb a b then after p' s' else None
  | String _ _, EmptyString => None
  end.

(** The longest prefix of digits, and what follows it: [\d+] or
    nothing. *)
Fixpoint digits (s : string) : string * string :=
  match s with
  | String c s' =>
      if JsString.is_digit c
      then let (ds, rest) := digits s' in (String c ds, rest)
      else (EmptyString, s)
  | EmptyString => (EmptyString, EmptyString)
  end.

Definition truthy (s : string) : bool := negb (JsString.is_empty s).

End Text.

(** What the configuration code reads of its host: [process.env],
    [process.cwd()], the files [.env] and [docker-compose.yaml] of the
    working directory, and [execSync].  [process.cwd()] throws when the
    working directory is gone.  A file is absent ([None]), or there
    with its content, or there and unreadable ([readFileSync] throws).
    [execSync] is [None] where [require] is not defined. *)
Record Host : Type := mkHost {
  env : list (string * string);
  cwd : Res string;
  dotenv : option (Res string);
  compose : option (Res string);
  execSync : option (string -> Res string)
}.

Module ConfigManager.

(** [process.env[name]] *)
Fixpoint lookup (name : string) (vars : list (string * string)) : option string :=
  match vars with
  | [] => None
  | (k, v) :: rest => if String.eqb name k then Some v else lookup name rest
  end.

(** [if (v) return v; ...], where the rest returns [next]; also
    [v || next]. *)
Definition truthyOr (v : option string) (next : string) : string :=
  match v with
  | Some s => if Text.truthy s then s else next
  | None => next
  end.

(** [process.env[name] || fallback] *)
Definition envOr (h : Host) (name fallback : string) : string :=
  truthyOr (lookup name (env h)) fallback.

(** The body of the loop of [readEnvFile], on one line. *)
Definition urlOfLine (line : string) : option string :=
  if Text.startsWith "NEXT_PUBLIC_SERVER_URL=" line then
    match nth_error (Text.split "=" line) 1 with
    | Some part =>
        let url :=
          JsString.filter (fun c => negb (Ascii.eqb c Text.quote))
                          (JsString.trim part) in
        if Text.truthy url then Some url else None
    | None => None
    end
  else None.

Fixpoint firstUrl (lines : list string) : option string :=
  match lines with
  | [] => None
  | line :: rest =>
      match urlOfLine line with
      | Some url => Some url
      | None => firstUrl rest
      end
  end.

(** [readEnvFile()]; [None] is [null]. *)
Definition readEnvFile (h : Host) : option string :=
  match cwd h with
  | Throw _ => None
  | Val _ =>
      match dotenv h with
      | None => None
      | Some (Throw _) => None
      | Some (Val envContent) => firstUrl (Text.split Text.newline envContent)
      end
  end.

Definition routeCommand : string :=
  "ip route get 1.1.1.1 2>/dev/null | grep -oP 'src \K\S+' | head -1".

Definition hostnameCommand : string := "hostname -I 2>/dev/null".

Definition usableIp (ip : string) : bool :=
  Text.truthy ip && negb (String.eqb ip "127.0.0.1").

(** [detectServerIp()] *)
Definition detectServerIp (h : Host) : string :=
  match execSync h with
  | None => "localhost"
  | Some run =>
      let viaHostname :=
        match run hostnameCommand with
        | Val out =>
            let ip := hd EmptyString (Text.split " " (JsString.trim out)) in
            if usableIp ip then ip else "localhost"
        | Throw _ => "localhost"
        end in
      match run routeCommand with
      | Val out =>
          let ip := JsString.trim out in
          if usableIp ip then ip else viaHostname
      | Throw _ => viaHostname
      end
  end.

(** The regular expression [/- "(\d+):3000"/] tried at the start of
    [s]; the answer is the group. *)
Definition portHere (s : string) : option string :=
  match Text.after (String "-" (String " " (String Text.quote EmptyString))) s with
  | Some s1 =>
      let (port, s2) := Text.digits s1 in
      if Text.truthy port
         && Text.startsWith (":3000" ++ String Text.quote EmptyString) s2
      then Some port else None
  | None => None
  end.

(** [composeContent.match(/- "(\d+):3000"/)]: the leftmost match. *)
Fixpoint portMatch (s : string) : option string :=
  match portHere s with
  | Some port => Some port
  | None =>
      match s with
      | String _ s' => portMatch s'
      | EmptyString => None
      end
  end.

(** [detectFromDockerCompose()]; [None] is [null]. *)
Definition detectFromDockerCompose (h : Host) : option string :=
  match cwd h with
  | Throw _ => None
  | Val _ =>
      match compose h with
      | None => None
      | Some (Throw _) => None
      | Some (Val composeContent) =>
          match portMatch composeContent with
          | Some port => Some ("http://" ++ detectServerIp h ++ ":" ++ port)
          | None => None
          end
      end
  end.

(** [detectBaseUrl()] *)
Definition detectBaseUrl (h : Host) : string :=
  truthyOr (lookup "PAYLOADCMS_URL" (env h))
    (truthyOr (readEnvFile h)
       (truthyOr (detectFromDockerCompose h) "http://localhost:3000")).

(** [detectConfig()] *)
Definition detectConfig (h : Host) : PayloadCMSConfig :=
  let baseUrl := detectBaseUrl h in
  mkConfig baseUrl
    (envOr h "PAYLOADCMS_TOOL_EMAIL" "demo-author@example.com")
    (envOr h "PAYLOADCMS_TOOL_PASSWORD" "password").

(** [getDefaultCredentials()]: [{ email, password }]. *)
Definition getDefaultCredentials (h : Host) : JSValue :=
  JObj [("email", JStr (envOr h "PAYLOADCMS_TOOL_EMAIL" "demo-author@example.com"));
        ("password", JStr (envOr h "PAYLOADCMS_TOOL_PASSWORD" "password"))].

(** [getEnvironmentInfo()]; its calls of [process.cwd()] stand
    outside any [try]. *)
Definition getEnvironmentInfo (h : Host) : Res JSValue :=
  let exists_ (f : option (Res string)) :=
    match f with Some _ => true | None => false end in
  (dir <- cwd h ;;
   Val (JObj [("cwd", JStr dir);
              ("env_vars",
                JObj [("PAYLOADCMS_URL", JStr (envOr h "PAYLOADCMS_URL" "not set"));
                      ("PAYLOADCMS_TOOL_EMAIL",
                        JStr (envOr h "PAYLOADCMS_TOOL_EMAIL" "not set"));
                      ("PAYLOADCMS_TOOL_PASSWORD",
                        JStr (match lookup "PAYLOADCMS_TOOL_PASSWORD" (env h) with
                              | Some v => if Text.truthy v then "***" else "not set"
                              | None => "not set"
                              end));
                      ("NEXT_PUBLIC_SERVER_URL",
                        JStr (envOr h "NEXT_PUBLIC_SERVER_URL" "not set"))]);
              ("files",
                JObj [("env_exists", JBool (exists_ (dotenv h)));
                      ("docker_compose_exists", JBool (exists_ (compose h)))])]))%res.

Record ConfigValidation : Type := mkConfigValidation {
  valid : bool;
  errors : list string;
  warnings : list string
}.

Section Probe.
Context {B : Type} {H : Http B}.

(** The request of [fetch(url)]. *)
Definition probe (testUrl : string) : HttpRequest :=
  mkRequest (testUrl ++ "/api/posts?limit=1") "GET" [] JUndefined.

(** [testPayloadCMSConnection(baseUrl)] *)
Definition testPayloadCMSConnection (h : Host) (baseUrl : string) : M B bool :=
  StateExn.try_catch
    (let testUrl := if Text.truthy baseUrl then baseUrl else detectBaseUrl h in
     response <- fetch (probe testUrl) ;;
     StateExn.ret ((status response =? 401)%Z || (status response =? 200)%Z))%M
    (fun _ => StateExn.ret false).

(** [validateConfig(config)] *)
Definition validateConfig (h : Host) (config : PayloadCMSConfig)
  : M B ConfigValidation :=
  (isAccessible <- testPayloadCMSConnection h (base_url config) ;;
   let errors :=
     if negb isAccessible
     then ["PayloadCMS HTTP API not accessible - ensure PayloadCMS is running and URL is correct"]
     else [] in
   let warnings :=
     if String.eqb (admin_email config) "demo-author@example.com"
     then ["Using default demo credentials - consider setting PAYLOADCMS_TOOL_EMAIL and PAYLOADCMS_TOOL_PASSWORD"]
     else [] in
   StateExn.ret
     (mkConfigValidation
        (match errors with [] => true | _ => false end) errors warnings))%M.
End Probe.

End ConfigManager.

(* ================================================================== *)
(** * Construction and status of the tool *)
(* ================================================================== *)

(** [a || b] on strings. *)
Definition orElse (a b : string) : string :=
  if Text.truthy a then a else b.

Module Construction.
Section Ops.
Context {B : Type} {H : Http B}.

(** [new PayloadCMSClient(config)]; [None] is the call without a
    configuration. *)
Definition newClient (h : Host) (config : option PayloadCMSConfig) (b : B)
  : Client B :=
  let given (field : PayloadCMSConfig -> string) : string :=
    match config with Some cfg => field cfg | None => EmptyString end in
  mkClient
    (mkConfig
       (orElse (given base_url)
          (ConfigManager.envOr h "NEXT_PUBLIC_SERVER_URL" "http://localhost:3000"))
       (orElse (given admin_email)
          (ConfigManager.envOr h "PAYLOADCMS_TOOL_EMAIL" "demo-author@example.com"))
       (orElse (given admin_password)
          (ConfigManager.envOr h "PAYLOADCMS_TOOL_PASSWORD" "password")))
    JNull b.

(** The configuration that [new PayloadCMSContentGeneratorTool(config)]
    keeps: [config || ConfigManager.detectConfig()]. *)
Definition toolConfig (h : Host) (config : option PayloadCMSConfig)
  : PayloadCMSConfig :=
  match config with
  | Some cfg => cfg
  | None => ConfigManager.detectConfig h
  end.

(** The client of [new PayloadCMSContentGeneratorTool(config)]. *)
Definition toolClient (h : Host) (config : option PayloadCMSConfig) (b : B)
  : Client B :=
  newClient h (Some (toolConfig h config)) b.

(** A computation on the network, run by a holder of the client. *)
Definition onNetwork {A : Type} (c : M B A) : M (Client B) A :=
  fun client =>
    match c (net client) with
    | (r, b') => (r, mkClient (config client) (authToken client) b')
    end.

Definition validationObject (v : ConfigManager.ConfigValidation) : JSValue :=
  JObj [("valid", JBool (ConfigManager.valid v));
        ("errors", JArr (map JStr (ConfigManager.errors v)));
        ("warnings", JArr (map JStr (ConfigManager.warnings v)))].

(** [getStatus()] of the tool whose configuration is [config]. *)
Definition getStatus (h : Host) (config : PayloadCMSConfig)
  : M (Client B) JSValue :=
  (configValidation <- onNetwork (ConfigManager.validateConfig h config) ;;
   envInfo <- StateExn.lift (ConfigManager.getEnvironmentInfo h) ;;
   connection <- PayloadCMSClient.testConnection ;;
   StateExn.ret
     (JObj [("config",
              JObj [("base_url", JStr (base_url config));
                    ("admin_email", JStr (admin_email config))]);
            ("validation", validationObject configValidation);
            ("environment", envInfo);
            ("connection", connection)]))%M.
End Ops.
End Construction.
(* ================================================================== *)
(** * Hosts and predicates for the configuration *)
(* ================================================================== *)

(** The code units that a URL read from [.env] cannot hold. *)
Definition plain (c : ascii) : bool :=
  negb (Ascii.eqb c Text.quote) && negb (Ascii.eqb c "=")
  && negb (Ascii.eqb c Text.newline).

(** Lines of a file. *)
Definition unlines (lines : list string) : string :=
  JsString.join (String Text.newline EmptyString) lines.

Definition quoted (s : string) : string :=
  String Text.quote (s ++ String Text.quote EmptyString).

(** A host whose [.env] names the server. *)
Definition dotenvHost : Host :=
  mkHost [] (Val "/app")
    (Some (Val (unlines ["NODE_ENV=production";
                         "NEXT_PUBLIC_SERVER_URL=" ++ quoted "http://cms.local:3000/?a=b"])))
    None None.

(** A host with a compose file that publishes port 3000 as 8080, and
    whose address is known to [hostname] only. *)
Definition composeHost : Host :=
  mkHost [("PAYLOADCMS_URL", EmptyString)] (Val "/app") None
    (Some (Val (unlines ["services:"; "  payload:"; "    ports:";
                         "      - " ++ quoted "8080:3000"])))
    (Some (fun command =>
             if String.eqb command ConfigManager.hostnameCommand
             then Val ("10.0.0.5 172.17.0.1 " ++ String Text.newline EmptyString)
             else Throw (Error "Command failed"))).

(** A host whose working directory has been removed. *)
Definition strandedHost : Host :=
  mkHost [] (Throw (Error "ENOENT: no such file or directory, uv_cwd"))
    None None None.

(* ================================================================== *)
(** * Properties *)
(* ================================================================== *)

Unset Implicit Arguments.
Local Open Scope list_scope.

(** ** Slug derivation *)

Ltac each_char c :=
  destruct c as [[|] [|] [|] [|] [|] [|] [|] [|]];
  vm_compute; try reflexivity; try discriminate; auto.

Ltac split_andb H :=
  repeat match type of H with
         | (_ && _)%bool = true =>
             let H1 := fresh H in
             apply andb_true_iff in H; destruct H as [H1 H]
         end.

Lemma slug_char_keep : forall c, slug_char c = true -> slug_keep c = true.
Proof. intro c. each_char c. Qed.

Lemma slug_char_not_space :
  forall c, slug_char c = true -> negb (JsString.is_space c) = true.
Proof. intro c. each_char c. Qed.

Lemma slug_char_lower : forall c, slug_char c = true -> JsString.lower_char c = c.
Proof. intro c. each_char c. Qed.

Lemma keep_not_space_slug_char :
  forall c, slug_keep c = true -> JsString.is_space c = false -> slug_char c = true.
Proof. intro c. each_char c. Qed.

Lemma filter_forallb : forall p s, JsString.forallb p (JsString.filter p s) = true.
Proof.
  intros p s. induction s as [|c s IH]; simpl; [reflexivity|].
  destruct (p c) eqn:E; simpl; [rewrite E|]; exact IH.
Qed.

Lemma filter_id :
  forall p s, JsString.forallb p s = true -> JsString.filter p s = s.
Proof.
  intros p s. induction s as [|c s IH]; simpl; [reflexivity|].
  intro Hs. split_andb Hs. rewrite Hs0, (IH Hs). reflexivity.
Qed.

Lemma lower_id :
  forall s, JsString.forallb slug_char s = true -> JsString.toLowerCase s = s.
Proof.
  induction s as [|c s IH]; simpl; [reflexivity|].
  intro Hs. split_andb Hs.
  rewrite (slug_char_lower _ Hs0), (IH Hs). reflexivity.
Qed.

Lemma forallb_weaken :
  forall (p q : ascii -> bool) s,
    (forall c, p c = true -> q c = true) ->
    JsString.forallb p s = true -> JsString.forallb q s = true.
Proof.
  intros p q s Hpq. induction s as [|c s IH]; simpl; [reflexivity|].
  intro Hs. split_andb Hs. rewrite (Hpq _ Hs0), (IH Hs). reflexivity.
Qed.

(** Replacing the runs of a class that does not occur changes nothing. *)
Lemma replace_runs_absent :
  forall p r s b,
    JsString.forallb (fun c => negb (p c)) s = true ->
    JsString.replace_runs p r b s = s.
Proof.
  intros p r s. induction s as [|c s IH]; intros b Hs; simpl; [reflexivity|].
  simpl in Hs. split_andb Hs.
  apply negb_true_iff in Hs0. rewrite Hs0, (IH false Hs). reflexivity.
Qed.

(** Collapsing hyphens changes nothing where no two hyphens meet. *)
Lemma replace_runs_single :
  forall s b,
    no_double_hyphen s = true ->
    (b = true -> starts_with_hyphen s = false) ->
    JsString.replace_runs JsString.is_hyphen hyphen b s = s.
Proof.
  induction s as [|c s IH]; intros b Hd Hb; simpl; [reflexivity|].
  simpl in Hd. split_andb Hd.
  destruct (JsString.is_hyphen c) eqn:Ehy.
  - destruct b; [simpl in Hb; rewrite Ehy in Hb; discriminate (Hb eq_refl)|].
    simpl in Hd0. apply negb_true_iff in Hd0.
    rewrite (IH true Hd (fun _ => Hd0)).
    f_equal. symmetry. revert Ehy. each_char c.
  - rewrite (IH false Hd); [reflexivity | discriminate].
Qed.

(** After [/\s+/g -> '-'] only [[a-z0-9-]] is left. *)
Lemma spaces_replaced :
  forall s b,
    JsString.forallb slug_keep s = true ->
    JsString.forallb slug_char
      (JsString.replace_runs JsString.is_space hyphen b s) = true.
Proof.
  induction s as [|c s IH]; intros b Hs; simpl; [reflexivity|].
  simpl in Hs. split_andb Hs.
  destruct (JsString.is_space c) eqn:Esp.
  - destruct b; simpl; auto.
  - simpl. rewrite (keep_not_space_slug_char _ Hs0 Esp). simpl. auto.
Qed.

(** [/-+/g -> '-'] keeps the alphabet and leaves no two hyphens in a row. *)
Lemma hyphens_collapsed :
  forall s b,
    JsString.forallb slug_char s = true ->
    JsString.forallb slug_char
      (JsString.replace_runs JsString.is_hyphen hyphen b s) = true
    /\ no_double_hyphen
         (JsString.replace_runs JsString.is_hyphen hyphen b s) = true
    /\ (b = true ->
        starts_with_hyphen
          (JsString.replace_runs JsString.is_hyphen hyphen b s) = false).
Proof.
  induction s as [|c s IH]; intros b Hs.
  - simpl. repeat split; reflexivity.
  - simpl in Hs. split_andb Hs. simpl.
    destruct (JsString.is_hyphen c) eqn:Ehy.
    + destruct b.
      * exact (IH true Hs).
      * destruct (IH true Hs) as (Ha & Hd & Hst).
        cbn [JsString.forallb no_double_hyphen starts_with_hyphen].
        rewrite Ha, Hd, (Hst eq_refl). repeat split. discriminate.
    + destruct (IH false Hs) as (Ha & Hd & _).
      cbn [JsString.forallb no_double_hyphen starts_with_hyphen].
      rewrite Hs0, Ehy, Ha, Hd. repeat split.
Qed.

Lemma drop_leading_shape :
  forall s,
    JsString.forallb slug_char s = true -> no_double_hyphen s = true ->
    JsString.forallb slug_char (JsString.drop_leading JsString.is_hyphen s) = true
    /\ no_double_hyphen (JsString.drop_leading JsString.is_hyphen s) = true
    /\ starts_with_hyphen (JsString.drop_leading JsString.is_hyphen s) = false.
Proof.
  intros [|c s] Ha Hd; simpl; [repeat split|].
  simpl in Ha, Hd. split_andb Ha. split_andb Hd.
  destruct (JsString.is_hyphen c) eqn:Ehy.
  - simpl in Hd0. apply negb_true_iff in Hd0. repeat split; assumption.
  - simpl. rewrite Ha0, Ha, Ehy, Hd. repeat split.
Qed.

Lemma drop_trailing_cons :
  forall p c d s,
    JsString.drop_trailing p (String c (String d s))
    = String c (JsString.drop_trailing p (String d s)).
Proof. reflexivity. Qed.

Lemma drop_trailing_forallb :
  forall p q s,
    JsString.forallb q s = true ->
    JsString.forallb q (JsString.drop_trailing p s) = true.
Proof.
  intros p q. induction s as [|c s IH]; intro Hs; [reflexivity|].
  simpl in Hs. split_andb Hs.
  destruct s as [|d s].
  - simpl. destruct (p c); simpl; [reflexivity | rewrite Hs0; reflexivity].
  - rewrite drop_trailing_cons. simpl. rewrite Hs0. exact (IH Hs).
Qed.

Lemma drop_trailing_start :
  forall p s,
    starts_with_hyphen s = false ->
    starts_with_hyphen (JsString.drop_trailing p s) = false.
Proof.
  intros p [|c [|d s]] Hs; simpl; auto.
  destruct (p c); auto.
Qed.

Lemma drop_trailing_no_double :
  forall p s,
    no_double_hyphen s = true ->
    no_double_hyphen (JsString.drop_trailing p s) = true.
Proof.
  intros p. induction s as [|c s IH]; intro Hd; [reflexivity|].
  simpl in Hd. split_andb Hd.
  destruct s as [|d s].
  - simpl. destruct (p c); simpl; [reflexivity|].
    rewrite andb_false_r. reflexivity.
  - rewrite drop_trailing_cons.
    cbn [no_double_hyphen]. rewrite (IH Hd), andb_true_r.
    destruct (JsString.is_hyphen c) eqn:Ehy; [|reflexivity].
    simpl in Hd0. apply negb_true_iff in Hd0.
    rewrite (drop_trailing_start p (String d s) Hd0). reflexivity.
Qed.

Lemma drop_trailing_end :
  forall s,
    no_double_hyphen s = true ->
    ends_with_hyphen (JsString.drop_trailing JsString.is_hyphen s) = false.
Proof.
  induction s as [|c s IH]; intro Hd; [reflexivity|].
  simpl in Hd. split_andb Hd.
  destruct s as [|d s].
  - simpl. destruct (JsString.is_hyphen c) eqn:Ehy; simpl; auto.
  - rewrite drop_trailing_cons. specialize (IH Hd).
    destruct (JsString.drop_trailing JsString.is_hyphen (String d s))
      as [|e t] eqn:Et.
    + (* the tail was a single hyphen, so [c] is not one *)
      destruct s as [|e s]; [|rewrite drop_trailing_cons in Et; discriminate].
      simpl in Et. destruct (JsString.is_hyphen d) eqn:Ed; [|discriminate].
      simpl in Hd0. rewrite Ed, andb_true_r in Hd0.
      apply negb_true_iff in Hd0. simpl. exact Hd0.
    + exact IH.
Qed.

Lemma generateSlug_slug_like : forall title, slug_like (generateSlug title) = true.
Proof.
  intro title. unfold generateSlug.
  pose proof (filter_forallb slug_keep (JsString.toLowerCase title)) as H2.
  pose proof (spaces_replaced _ false H2) as H3.
  destruct (hyphens_collapsed _ false H3) as (H4a & H4d & _).
  destruct (drop_leading_shape _ H4a H4d) as (H5a & H5d & H5s).
  unfold slug_like.
  rewrite (drop_trailing_forallb _ _ _ H5a), (drop_trailing_no_double _ _ H5d),
    (drop_trailing_start _ _ H5s), (drop_trailing_end _ H5d).
  reflexivity.
Qed.

Lemma drop_trailing_id :
  forall s, ends_with_hyphen s = false ->
            JsString.drop_trailing JsString.is_hyphen s = s.
Proof.
  induction s as [|c s IH]; intro He; [reflexivity|].
  destruct s as [|d s].
  - simpl in *. rewrite He. reflexivity.
  - rewrite drop_trailing_cons. f_equal. apply IH. exact He.
Qed.

Lemma drop_leading_id :
  forall s, starts_with_hyphen s = false ->
            JsString.drop_leading JsString.is_hyphen s = s.
Proof. intros [|c s] Hs; simpl in *; [|rewrite Hs]; reflexivity. Qed.

Lemma generateSlug_fixes_slug_like :
  forall s, slug_like s = true -> generateSlug s = s.
Proof.
  intros s Hs. unfold slug_like in Hs.
  apply andb_true_iff in Hs. destruct Hs as [Hs He].
  apply andb_true_iff in Hs. destruct Hs as [Hs Hst].
  apply andb_true_iff in Hs. destruct Hs as [Ha Hd].
  apply negb_true_iff in He, Hst.
  unfold generateSlug.
  rewrite (lower_id _ Ha).
  rewrite (filter_id _ _ (forallb_weaken _ _ _ slug_char_keep Ha)).
  rewrite (replace_runs_absent _ _ _ _
             (forallb_weaken _ _ _ slug_char_not_space Ha)).
  rewrite (replace_runs_single s false Hd) by discriminate.
  rewrite (drop_leading_id _ Hst).
  apply drop_trailing_id. exact He.
Qed.

(** C7: slug derivation is idempotent -- a string that already reads as
    a slug is returned unchanged, and so is every derived slug when it
    is fed back -- and the title "Docker Best Practices!" derives the
    slug "docker-best-practices". *)
Theorem generateSlug_idempotent :
  (forall title, generateSlug (generateSlug title) = generateSlug title)
  /\ (forall s, slug_like s = true -> generateSlug s = s)
  /\ generateSlug "Docker Best Practices!" = "docker-best-practices".
Proof.
  split; [|split].
  - intro title. apply generateSlug_fixes_slug_like, generateSlug_slug_like.
  - exact generateSlug_fixes_slug_like.
  - reflexivity.
Qed.

(** The slug ["docker-best-practices"] is its own slug. *)
Lemma generateSlug_idempotent_witness :
  slug_like "docker-best-practices" = true
  /\ generateSlug "docker-best-practices" = "docker-best-practices".
Proof.
  split; [reflexivity|].
  apply (proj1 (proj2 generateSlug_idempotent)). reflexivity.
Defined.

(** ** Validation *)

Ltac split_ifs :=
  repeat match goal with
         | |- context [if ?c then _ else _] => destruct c
         end.

(** The checks of the callback, one by one. *)
Lemma type_step :
  forall index block errs,
    (if negb (Js.truthy (Js.prop block "type"))
        || negb (Js.is_string (Js.prop block "type"))
     then push errs (blk index ++ ".type is required and must be a string")
     else if negb (Js.includes blockTypes (Js.prop block "type"))
          then push errs (blk index ++ ".type must be one of: paragraph, heading, code, banner, mediaBlock")
          else errs)
    = errs ++ typeViolations index block.
Proof.
  intros index block errs. unfold typeViolations, unless, push.
  destruct (Js.prop block "type") as [| |[|]|z|[|c s]| |];
    cbn [Js.truthy Js.is_string Js.typeof negb orb JsString.is_empty];
    try reflexivity.
  - destruct (z =? 0)%Z; reflexivity.
  - unfold Js.includes, Js.eq_str.
    destruct (existsb (String.eqb (String c s)) blockTypes);
      cbn [negb]; rewrite ?app_nil_r; reflexivity.
Qed.

Lemma isMediaBlock_eq_str :
  forall block, Js.eq_str (Js.prop block "type") "mediaBlock" = isMediaBlock block.
Proof. intro block. unfold isMediaBlock, Js.eq_str. reflexivity. Qed.

Lemma content_step :
  forall index block errs,
    (if negb (Js.eq_str (Js.prop block "type") "mediaBlock")
        && (negb (Js.truthy (Js.prop block "content"))
            || negb (Js.is_string (Js.prop block "content")))
     then push errs (blk index ++ ".content is required and must be a string")
     else if Js.eq_str (Js.prop block "type") "mediaBlock"
             && negb (Js.is_string (Js.prop block "content"))
          then push errs (blk index ++ ".content must be a string (can be empty for mediaBlock)")
          else errs)
    = errs ++ contentViolations index block.
Proof.
  intros index block errs. rewrite isMediaBlock_eq_str.
  unfold contentViolations, unless, push.
  destruct (isMediaBlock block);
    destruct (Js.prop block "content") as [| |[|]|z|[|c s]| |];
    cbn [Js.truthy Js.is_string Js.typeof negb orb andb JsString.is_empty];
    rewrite ?app_nil_r; try reflexivity;
    destruct (z =? 0)%Z; reflexivity.
Qed.

Lemma metadata_step :
  forall index block errs,
    push_if (Js.truthy (Js.prop block "metadata")
             && negb (Js.is_object (Js.prop block "metadata")))
            (blk index ++ ".metadata must be an object if provided") errs
    = errs ++ metadataViolations index block.
Proof.
  intros index block errs. unfold metadataViolations, provided, unless, push_if, push.
  destruct (Js.truthy (Js.prop block "metadata"));
    destruct (Js.is_object (Js.prop block "metadata"));
    cbn [negb orb andb]; rewrite ?app_nil_r; reflexivity.
Qed.

Lemma enum_step :
  forall kind key choices allowed index block errs,
    (if Js.eq_str (Js.prop block "type") kind
        && Js.truthy (Js.get_opt (Js.prop block "metadata") key)
     then push_if (negb (Js.includes allowed (Js.prop (Js.prop block "metadata") key)))
                  (blk index ++ ".metadata." ++ key ++ " must be one of: " ++ choices)
                  errs
     else errs)
    = errs ++ enumViolations kind key choices allowed index block.
Proof.
  intros kind key choices allowed index block errs.
  unfold enumViolations, provided, Js.get_opt, Js.eq_str, Js.includes,
    unless, push_if, push.
  destruct (Js.prop block "type") as [| | | |type| |];
    cbn [andb]; rewrite ?app_nil_r; try reflexivity.
  destruct (String.eqb type kind); cbn [andb]; rewrite ?app_nil_r;
    [|reflexivity].
  destruct (Js.nullish (Js.prop block "metadata")) eqn:Hn.
  - cbn [Js.truthy]. rewrite app_nil_r. reflexivity.
  - destruct (Js.truthy (Js.prop (Js.prop block "metadata") key));
      [|rewrite app_nil_r; reflexivity].
    destruct (existsb _ allowed); cbn [negb]; rewrite ?app_nil_r; reflexivity.
Qed.

(** The callback appends the violations of its block to the list it is
    given: no check hides another. *)
Lemma validateBlock_appends :
  forall block index errs,
    Js.nullish block = false ->
    validateBlock block index errs = Val (errs ++ blockViolations index block).
Proof.
  intros block index errs Hb.
  unfold validateBlock, Js.get. rewrite Hb.
  cbn [ResMonad.bind]. cbv zeta.
  rewrite type_step, content_step, metadata_step.
  change (".metadata.language must be one of: " ++ JsString.join ", " allowedLanguages)%string
    with (".metadata." ++ "language" ++ " must be one of: "
            ++ "typescript, javascript, css, html, python, bash, json, yaml, dockerfile, sql, markdown, xml")%string.
  change (".metadata.level must be one of: " ++ JsString.join ", " allowedLevels)%string
    with (".metadata." ++ "level" ++ " must be one of: " ++ "h2, h3")%string.
  change (".metadata.style must be one of: " ++ JsString.join ", " allowedStyles)%string
    with (".metadata." ++ "style" ++ " must be one of: "
            ++ "info, warning, error, success")%string.
  rewrite (enum_step "code" "language"), (enum_step "heading" "level"),
    (enum_step "banner" "style").
  unfold blockViolations. rewrite <- !app_assoc. reflexivity.
Qed.

Lemma validateBlock_throws :
  forall block index errs,
    Js.nullish block = true ->
    exists e, validateBlock block index errs = Throw e /\ is_error e = true.
Proof.
  intros block index errs Hb. unfold validateBlock, Js.get. rewrite Hb.
  eexists. split; reflexivity.
Qed.

Lemma validateBlocks_appends :
  forall blocks index errs,
    existsb Js.nullish blocks = false ->
    validateBlocks blocks index errs
    = Val (errs ++ indexed blockViolations index blocks).
Proof.
  induction blocks as [|b rest IH]; intros index errs Hn; simpl.
  - rewrite app_nil_r. reflexivity.
  - simpl in Hn. apply orb_false_iff in Hn. destruct Hn as [Hb Hrest].
    rewrite (validateBlock_appends b index errs Hb). cbn [ResMonad.bind].
    rewrite (IH (S index) _ Hrest), app_assoc. reflexivity.
Qed.

Lemma validateBlocks_throws :
  forall blocks index errs,
    existsb Js.nullish blocks = true ->
    exists e, validateBlocks blocks index errs = Throw e /\ is_error e = true.
Proof.
  induction blocks as [|b rest IH]; intros index errs Hn; simpl in Hn.
  - discriminate.
  - simpl. destruct (Js.nullish b) eqn:Hb.
    + destruct (validateBlock_throws b index errs Hb) as (e & He & Herr).
      rewrite He. exists e. split; [reflexivity | exact Herr].
    + rewrite (validateBlock_appends b index errs Hb). cbn [ResMonad.bind].
      apply IH. exact Hn.
Qed.

Lemma validateCategories_appends :
  forall cats index errs,
    validateCategories cats index errs
    = errs ++ indexed categoryViolations index cats.
Proof.
  induction cats as [|c rest IH]; intros index errs; simpl.
  - rewrite app_nil_r. reflexivity.
  - rewrite IH. unfold categoryViolations at 2, unless, push_if, push, not_nonblank_string, nonblank_string.
    destruct c as [| | | |s| |]; simpl; rewrite <- ?app_assoc; try reflexivity.
    destruct (JsString.is_empty (JsString.trim s)); simpl;
      rewrite <- ?app_assoc; reflexivity.
Qed.

Lemma trim_nonempty :
  forall s, JsString.is_empty (JsString.trim s) = false -> JsString.is_empty s = false.
Proof. intros [|c s]; [vm_compute; auto | reflexivity]. Qed.

Lemma isNil_length : forall (A : Type) (xs : list A),
    Nat.eqb (List.length xs) 0 = isNil xs.
Proof. intros A [|x xs]; reflexivity. Qed.

Ltac by_value v :=
  destruct v as [| |[|]|[| |]|[|]| |]; simpl; rewrite ?app_nil_r;
  try reflexivity.

Lemma title_step :
  forall t msg errs,
    push_if (negb (Js.truthy t) || not_nonblank_string t) msg errs
    = errs ++ unless (nonblank_string t) msg.
Proof.
  intros t msg errs.
  unfold unless, push_if, push, not_nonblank_string, nonblank_string.
  destruct t as [| |[|]|[| |]|s| |]; simpl; rewrite ?app_nil_r;
    try reflexivity.
  destruct (JsString.is_empty (JsString.trim s)) eqn:Et.
  - rewrite orb_true_r. reflexivity.
  - rewrite (trim_nonempty _ Et). simpl. rewrite app_nil_r. reflexivity.
Qed.

Lemma string_step :
  forall v msg errs,
    push_if (negb (Js.truthy v) || negb (Js.is_string v)) msg errs
    = errs ++ unless (nonempty_string v) msg.
Proof.
  intros v msg errs. unfold unless, push_if, push, nonempty_string.
  by_value v.
Qed.

Lemma meta_step :
  forall data errs,
    (if negb (Js.truthy (Js.prop data "meta"))
        || negb (Js.is_object (Js.prop data "meta"))
     then push errs "meta is required and must be an object"
     else
       push_if (negb (Js.truthy (Js.prop (Js.prop data "meta") "description"))
                || negb (Js.is_string (Js.prop (Js.prop data "meta") "description")))
               "meta.description is required and must be a string"
         (push_if (negb (Js.truthy (Js.prop (Js.prop data "meta") "title"))
                   || negb (Js.is_string (Js.prop (Js.prop data "meta") "title")))
                  "meta.title is required and must be a string" errs))
    = errs ++ metaViolations data.
Proof.
  intros data errs. unfold metaViolations.
  destruct (Js.prop data "meta") as [| |[|]|[| |]|[|]|items|fs];
    try reflexivity;
    cbn [Js.truthy Js.is_object Js.typeof negb orb];
    rewrite !string_step, app_assoc; reflexivity.
Qed.

Lemma slug_step :
  forall slug msg errs,
    push_if (Js.truthy slug && not_nonblank_string slug) msg errs
    = errs ++ unless (negb (Js.truthy slug) || nonblank_string slug) msg.
Proof.
  intros slug msg errs.
  unfold unless, push_if, push, not_nonblank_string, nonblank_string.
  destruct slug as [| |[|]|[| |]|[|c s]| |]; simpl; rewrite ?app_nil_r;
    try reflexivity.
  destruct (JsString.is_empty (JsString.trim (String c s)));
    simpl; rewrite ?app_nil_r; reflexivity.
Qed.

Lemma categories_step :
  forall data errs,
    (if Js.truthy (Js.prop data "categories")
        && negb (Js.isArray (Js.prop data "categories"))
     then push errs "categories must be an array if provided"
     else match Js.prop data "categories" with
          | JArr cats => validateCategories cats 0 errs
          | _ => errs
          end)
    = errs ++ categoriesViolations data.
Proof.
  intros data errs. unfold categoriesViolations, unless, push.
  destruct (Js.prop data "categories") as [| |[|]|[| |]|[|]|cats|];
    simpl; rewrite ?app_nil_r; try reflexivity.
  apply validateCategories_appends.
Qed.

Lemma heroImage_step :
  forall h msg errs,
    push_if (Js.truthy h && negb (Js.is_boolean h)) msg errs
    = errs ++ unless (negb (Js.truthy h) || Js.is_boolean h) msg.
Proof.
  intros h msg errs. unfold unless, push_if, push. by_value h.
Qed.

(** On an inspectable input the validator returns the violations of
    every check, in the order of the checks. *)
Lemma validate_inspectable :
  forall data,
    inspectable data = true ->
    validatePostCreationRequest data
    = Val (mkValidation (isNil (allViolations data)) (allViolations data)).
Proof.
  intros data Hi. unfold inspectable in Hi.
  apply andb_true_iff in Hi. destruct Hi as [Hd Hb].
  apply negb_true_iff in Hd, Hb.
  unfold validatePostCreationRequest, Js.get. rewrite Hd.
  cbn [ResMonad.bind]. cbv zeta.
  rewrite title_step, meta_step.
  unfold allViolations, blocksViolations, titleViolations, slugViolations,
    heroImageViolations.
  unfold hasNullishBlock in Hb.
  destruct (Js.prop data "blocks") as [| | | | |items|];
    try rewrite (validateBlocks_appends items 0 _ Hb);
    cbn [ResMonad.bind];
    rewrite slug_step, categories_step, heroImage_step, isNil_length;
    unfold push; rewrite <- ?app_assoc; reflexivity.
Qed.

(** The validator throws on every other input. *)
Lemma validate_not_inspectable :
  forall data,
    inspectable data = false ->
    exists e, validatePostCreationRequest data = Throw e /\ is_error e = true.
Proof.
  intros data Hi. unfold inspectable in Hi.
  unfold validatePostCreationRequest, Js.get.
  destruct (Js.nullish data) eqn:Hd.
  - eexists. split; reflexivity.
  - simpl in Hi. apply negb_false_iff in Hi. unfold hasNullishBlock in Hi.
    cbn [ResMonad.bind]. cbv zeta.
    destruct (Js.prop data "blocks") as [| | | | |items|]; try discriminate.
    match goal with
    | |- context [validateBlocks items 0 ?errs] =>
        destruct (validateBlocks_throws items 0 errs Hi)
          as (e & He & Herr)
    end.
    rewrite He. exists e. split; [reflexivity | exact Herr].
Qed.

(** ** Compilation *)

Section CompilerFacts.
Context {W : Type} `{MathRandom W}.

Lemma generateBlockId_returns :
  forall w : W, exists id w', generateBlockId w = (Val id, w').
Proof.
  intro w. unfold generateBlockId.
  destruct (random_token w) as [a w1]. destruct (random_token w1) as [b w2].
  eauto.
Qed.

(** A node made by one of the three block constructors. *)
Ltac run_id w :=
  let id := fresh "id" in
  let w' := fresh "w" in
  let E := fresh "E" in
  destruct (generateBlockId_returns w) as (id & w' & E);
  unfold StateExn.bind, StateExn.ret; rewrite E.

Lemma createCodeBlock_returns :
  forall code language blockName (w : W),
  exists id w',
    createCodeBlock code language blockName w
    = (Val (JObj [("type", JStr "block");
                  ("fields", JObj [("blockType", JStr "code");
                                   ("language", validLanguage language);
                                   ("code", code);
                                   ("id", JStr id)]);
                  ("format", JStr ""); ("version", JNum 2)]), w').
Proof.
  intros. unfold createCodeBlock. run_id w. eauto.
Qed.

Lemma convertBlock_returns :
  forall block (w : W),
    Js.nullish block = false ->
    exists node w', convertBlock block w = (Val node, w').
Proof.
  intros block w Hb. unfold convertBlock, StateExn.lift, Js.get.
  rewrite Hb. unfold StateExn.bind at 1.
  repeat match goal with
         | |- context [if ?c then _ else _] => destruct c
         end;
    try (unfold StateExn.ret; eauto; fail);
    unfold createCodeBlock, createBannerBlock, createMediaBlock;
    run_id w; eauto.
Qed.

Lemma convertBlock_throws :
  forall block (w : W),
    Js.nullish block = true ->
    exists e, convertBlock block w = (Throw e, w).
Proof.
  intros block w Hb. unfold convertBlock, StateExn.lift, Js.get.
  rewrite Hb. unfold StateExn.bind. eauto.
Qed.

(** A block of unknown type becomes a paragraph around its content,
    and draws nothing from the host. *)
Lemma convertBlock_unknown :
  forall block (w : W),
    Js.nullish block = false ->
    Js.includes blockTypes (Js.prop block "type") = false ->
    convertBlock block w = (Val (createParagraph (Js.prop block "content")), w).
Proof.
  intros block w Hb Ht. unfold convertBlock, StateExn.lift, Js.get.
  rewrite Hb. unfold StateExn.bind at 1.
  unfold Js.includes, blockTypes in Ht. simpl in Ht.
  repeat (apply orb_false_iff in Ht; destruct Ht as [? Ht]).
  repeat match goal with
         | E : Js.eq_str _ _ = false |- _ => rewrite E; clear E
         end.
  reflexivity.
Qed.

(** The node at each position comes from the block at that position. *)
Lemma convertEach_in_order :
  forall blocks children (w : W),
    existsb Js.nullish blocks = false ->
    exists nodes w',
      convertEach blocks children w = (Val (children ++ nodes), w')
      /\ Forall2 (compiledFrom W) blocks nodes.
Proof.
  induction blocks as [|b rest IH]; intros children w Hn.
  - exists [], w. simpl. unfold StateExn.ret. rewrite app_nil_r.
    split; [reflexivity | constructor].
  - simpl in Hn. apply orb_false_iff in Hn. destruct Hn as [Hb Hrest].
    destruct (convertBlock_returns b w Hb) as (node & w1 & Eb).
    destruct (IH (children ++ [node]) w1 Hrest) as (nodes & w' & Er & Hall).
    exists (node :: nodes), w'. split.
    + cbn [convertEach]. unfold StateExn.bind. rewrite Eb, Er.
      rewrite <- app_assoc. reflexivity.
    + constructor; [exists w, w1; exact Eb | exact Hall].
Qed.

Lemma convertBlocksToLexical_children :
  forall blocks (w : W),
    existsb Js.nullish blocks = false ->
    exists doc children w',
      convertBlocksToLexical (JArr blocks) w = (Val doc, w')
      /\ Js.prop (Js.prop doc "root") "children" = JArr children
      /\ Forall2 (compiledFrom W) blocks children.
Proof.
  intros blocks w Hn.
  destruct (convertEach_in_order blocks [] w Hn) as (nodes & w' & E & Hall).
  unfold convertBlocksToLexical, StateExn.bind. rewrite E.
  eexists. exists nodes, w'. split; [reflexivity|]. split; [reflexivity | exact Hall].
Qed.

End CompilerFacts.

Lemma Forall2_nth_error :
  forall (A B : Type) (R : A -> B -> Prop) xs ys,
    Forall2 R xs ys ->
    forall i x, nth_error xs i = Some x ->
                exists y, nth_error ys i = Some y /\ R x y.
Proof.
  intros A B R xs ys Hall. induction Hall as [|x0 y0 xs ys Hxy Hall IH];
    intros i x Hi.
  - destruct i; discriminate.
  - destruct i as [|i]; simpl in *.
    + injection Hi as <-. eauto.
    + eauto.
Qed.

Lemma Forall2_same_length :
  forall (A B : Type) (R : A -> B -> Prop) xs ys,
    Forall2 R xs ys -> List.length ys = List.length xs.
Proof.
  intros A B R xs ys Hall. induction Hall; simpl; congruence.
Qed.

(** C4: a list of N blocks compiles to a document whose root has N
    children, and the child at each position is the node compiled from
    the block at the same position. *)
Theorem convertBlocksToLexical_one_node_per_block :
  forall (W : Type) (R : MathRandom W) (blocks : list JSValue) (w : W),
    existsb Js.nullish blocks = false ->
    exists doc children w',
      convertBlocksToLexical (JArr blocks) w = (Val doc, w')
      /\ Js.prop (Js.prop doc "root") "children" = JArr children
      /\ List.length children = List.length blocks
      /\ forall i block,
           nth_error blocks i = Some block ->
           exists node,
             nth_error children i = Some node
             /\ exists w0 w1 : W, convertBlock block w0 = (Val node, w1).
Proof.
  intros W R blocks w Hn.
  destruct (convertBlocksToLexical_children blocks w Hn)
    as (doc & children & w' & E & Hc & Hall).
  exists doc, children, w'. repeat split; try assumption.
  - exact (Forall2_same_length _ _ _ _ _ Hall).
  - intros i block Hi.
    destruct (Forall2_nth_error _ _ _ _ _ Hall i _ Hi) as (node & Hnode & Hfrom).
    exists node. split; assumption.
Qed.

(** C10: a block whose type is none of the five known ones is neither
    rejected nor dropped: the document gets, at the position of the
    block, a paragraph node that wraps the content of the block. *)
Theorem convertBlocksToLexical_unknown_type :
  forall (W : Type) (R : MathRandom W) (blocks : list JSValue) (w : W),
    existsb Js.nullish blocks = false ->
    exists doc children w',
      convertBlocksToLexical (JArr blocks) w = (Val doc, w')
      /\ Js.prop (Js.prop doc "root") "children" = JArr children
      /\ List.length children = List.length blocks
      /\ forall i block,
           nth_error blocks i = Some block ->
           Js.includes blockTypes (Js.prop block "type") = false ->
           nth_error children i
           = Some (createParagraph (Js.prop block "content"))
           /\ Js.prop (createParagraph (Js.prop block "content")) "type"
              = JStr "paragraph"
           /\ Js.prop (createParagraph (Js.prop block "content")) "children"
              = JArr [textNode (Js.prop block "content")]
           /\ Js.prop (textNode (Js.prop block "content")) "text"
              = Js.prop block "content".
Proof.
  intros W R blocks w Hn.
  destruct (convertBlocksToLexical_children blocks w Hn)
    as (doc & children & w' & E & Hc & Hall).
  exists doc, children, w'. repeat split; try assumption.
  - exact (Forall2_same_length _ _ _ _ _ Hall).
  - destruct (Forall2_nth_error _ _ _ _ _ Hall i _ H) as (node & Hnode & w0 & w1 & Hfrom).
    assert (Hb : Js.nullish block = false).
    { destruct (Js.nullish block) eqn:Hb; [|reflexivity].
      destruct (convertBlock_throws block w0 Hb) as (e & He).
      rewrite He in Hfrom. discriminate. }
    rewrite (convertBlock_unknown block w0 Hb H0) in Hfrom.
    injection Hfrom as <- _. exact Hnode.
Qed.

(** C8: the code node of a code block carries the requested language
    when the compiler supports it; otherwise it carries the default
    language and not the requested value. *)
Theorem convertBlock_code_language :
  forall (W : Type) (R : MathRandom W) (block : JSValue) (w : W),
    Js.prop block "type" = JStr "code" ->
    exists node w',
      convertBlock block w = (Val node, w')
      /\ Js.prop (Js.prop node "fields") "blockType" = JStr "code"
      /\ (Js.includes allowedLanguages
            (Js.prop (Js.prop block "metadata") "language") = true ->
          languageOf node = Js.prop (Js.prop block "metadata") "language")
      /\ (Js.includes allowedLanguages
            (Js.prop (Js.prop block "metadata") "language") = false ->
          languageOf node = JStr defaultLanguage
          /\ languageOf node <> Js.prop (Js.prop block "metadata") "language").
Proof.
  intros W R block w Ht.
  assert (Hb : Js.nullish block = false) by (destruct block; simpl in *; congruence).
  unfold convertBlock, StateExn.lift, Js.get. rewrite Hb, Ht.
  unfold StateExn.bind at 1.
  change (Js.eq_str (JStr "code") "heading") with false.
  change (Js.eq_str (JStr "code") "paragraph") with false.
  change (Js.eq_str (JStr "code") "code") with true.
  cbv iota.
  set (requested := Js.prop (Js.prop block "metadata") "language").
  assert (Hopt : Js.get_opt (Js.prop block "metadata") "language" = requested).
  { unfold Js.get_opt, requested.
    destruct (Js.prop block "metadata"); reflexivity. }
  rewrite Hopt.
  destruct (createCodeBlock_returns (Js.prop block "content")
              (Js.or requested (JStr "javascript"))
              (Js.or (Js.get_opt (Js.prop block "metadata") "blockName")
                     (JStr "Code Example")) w) as (id & w' & E).
  rewrite E. do 2 eexists. split; [reflexivity|].
  split; [reflexivity|].
  unfold languageOf.
  match goal with
  | |- context [Js.prop (Js.prop (JObj ?fs) "fields") "language"] =>
      change (Js.prop (Js.prop (JObj fs) "fields") "language")
        with (validLanguage (Js.or requested (JStr "javascript")))
  end.
  unfold validLanguage, Js.or.
  split.
  - intro Hin.
    assert (Htr : Js.truthy requested = true).
    { destruct requested as [| | | |[|c s]| |]; simpl in Hin |- *;
        try discriminate; reflexivity. }
    rewrite Htr, Hin. reflexivity.
  - intro Hout.
    assert (Hdef : (if Js.includes allowedLanguages
                         (if Js.truthy requested then requested else JStr "javascript")
                    then (if Js.truthy requested then requested else JStr "javascript")
                    else JStr defaultLanguage) = JStr defaultLanguage).
    { destruct (Js.truthy requested); [rewrite Hout|]; reflexivity. }
    rewrite Hdef. split; [reflexivity|].
    intro Heq. rewrite <- Heq in Hout. discriminate.
Qed.

(** ** Accepted requests *)

Lemma accepts_inv :
  forall request,
    accepts request = true ->
    inspectable request = true /\ allViolations request = [].
Proof.
  intros request Ha. unfold accepts in Ha.
  destruct (inspectable request) eqn:Hi.
  - rewrite (validate_inspectable request Hi) in Ha. simpl in Ha.
    split; [reflexivity|]. destruct (allViolations request); [reflexivity | discriminate].
  - destruct (validate_not_inspectable request Hi) as (e & He & _).
    rewrite He in Ha. discriminate.
Qed.

Lemma app_nil_inv :
  forall (A : Type) (xs ys : list A), xs ++ ys = [] -> xs = [] /\ ys = [].
Proof. intros A [|x xs] ys H; [auto | discriminate]. Qed.

Lemma unless_nil : forall c msg, unless c msg = [] -> c = true.
Proof. intros [|] msg H; [reflexivity | discriminate]. Qed.

(** What an accepted request is known to hold. *)
Lemma accepts_shape :
  forall request,
    accepts request = true ->
    Js.nullish request = false
    /\ (exists title, Js.prop request "title" = JStr title)
    /\ (exists fs, Js.prop request "meta" = JObj fs)
    /\ (exists items, Js.prop request "blocks" = JArr items
                      /\ existsb Js.nullish items = false)
    /\ (Js.truthy (Js.prop request "heroImage") = true ->
        Js.prop request "heroImage" = JBool true).
Proof.
  intros request Ha. destruct (accepts_inv request Ha) as [Hi Hall].
  unfold inspectable in Hi. apply andb_true_iff in Hi. destruct Hi as [Hn Hb].
  apply negb_true_iff in Hn, Hb.
  unfold allViolations in Hall.
  apply app_nil_inv in Hall. destruct Hall as [Ht Hall].
  apply app_nil_inv in Hall. destruct Hall as [Hm Hall].
  apply app_nil_inv in Hall. destruct Hall as [Hbl Hall].
  apply app_nil_inv in Hall. destruct Hall as [_ Hall].
  apply app_nil_inv in Hall. destruct Hall as [_ Hh].
  split; [exact Hn|]. split; [|split; [|split]].
  - apply unless_nil in Ht. unfold nonblank_string in Ht.
    destruct (Js.prop request "title"); try discriminate. eauto.
  - unfold metaViolations in Hm.
    destruct (Js.prop request "meta") as [| | | | |items|fs]; try discriminate.
    eauto.
  - unfold blocksViolations in Hbl. unfold hasNullishBlock in Hb.
    destruct (Js.prop request "blocks"); try discriminate. eauto.
  - intro Htr. apply unless_nil in Hh. rewrite Htr in Hh. simpl in Hh.
    destruct (Js.prop request "heroImage") as [| |[|]| | | |]; try discriminate.
    reflexivity.
Qed.

Section ToolFacts.
Context {W : Type} `{MathRandom W} `{PayloadClient W}.

(** The submission compiled from an accepted request. *)
Lemma process_accepted :
  forall request (w : W),
    accepts request = true ->
    exists slug content w',
      processPostCreationRequest request w
      = (Val (JObj [("slug", slug);
                    ("_status", JStr "draft");
                    ("title", Js.prop request "title");
                    ("content", content);
                    ("meta",
                      JObj [("title", Js.prop (Js.prop request "meta") "title");
                            ("description",
                              Js.prop (Js.prop request "meta") "description")]);
                    ("heroImage",
                      if Js.truthy (Js.prop request "heroImage")
                      then JStr "random" else JUndefined);
                    ("relatedPosts", JArr [])]), w').
Proof.
  intros request w Ha.
  destruct (accepts_shape request Ha)
    as (Hn & (title & Ht) & (fs & Hm) & (items & Hb & Hitems) & _).
  unfold processPostCreationRequest, StateExn.lift, Js.get.
  rewrite Hn, Ht, Hm, Hb. unfold StateExn.bind at 1.
  assert (Hslug : exists slug,
             (if Js.truthy (Js.prop request "slug")
              then Val (Js.prop request "slug")
              else generateSlugOf (JStr title)) = Val slug)
    by (destruct (Js.truthy (Js.prop request "slug")); simpl; eauto).
  destruct Hslug as (slug & Hslug). rewrite Hslug.
  unfold StateExn.bind at 1.
  destruct (convertBlocksToLexical_children items w Hitems)
    as (doc & children & w' & E & _ & _).
  unfold StateExn.bind at 1. rewrite E.
  exists slug, doc, w'. reflexivity.
Qed.

(** *** Assignments leave the other properties alone *)

Lemma assoc_set_assoc_other :
  forall k k' x fs,
    String.eqb k k' = false ->
    Js.assoc k (Js.set_assoc k' x fs) = Js.assoc k fs.
Proof.
  intros k k' x fs Hk. induction fs as [|[k0 v0] fs IH]; simpl.
  - rewrite Hk. reflexivity.
  - destruct (String.eqb k' k0) eqn:E0; simpl.
    + destruct (String.eqb k k0) eqn:E1; [|reflexivity].
      apply String.eqb_eq in E0, E1. subst.
      rewrite String.eqb_refl in Hk. discriminate.
    + destruct (String.eqb k k0); [reflexivity | exact IH].
Qed.

Lemma assoc_set_assoc_same :
  forall k x fs, Js.assoc k (Js.set_assoc k x fs) = x.
Proof.
  intros k x fs. induction fs as [|[k0 v0] fs IH]; simpl.
  - rewrite String.eqb_refl. reflexivity.
  - destruct (String.eqb k k0) eqn:E0; simpl; rewrite E0; [reflexivity | exact IH].
Qed.

Lemma prop_set_other :
  forall k k' x o,
    String.eqb k k' = false -> Js.prop (Js.set o k' x) k = Js.prop o k.
Proof.
  intros k k' x o Hk. destruct o; try reflexivity.
  simpl. apply assoc_set_assoc_other. exact Hk.
Qed.

Lemma keeps_ret : forall (A : Type) k (a : A), keeps (W:=W) k (StateExn.ret a).
Proof. intros A k a s w r s' w' E. unfold StateExn.ret in E. congruence. Qed.

Lemma keeps_throw : forall (A : Type) k e, keeps (W:=W) (A:=A) k (StateExn.throw e).
Proof. intros A k e s w r s' w' E. unfold StateExn.throw in E. congruence. Qed.

Lemma keeps_lift : forall (A : Type) k (c : Res A), keeps (W:=W) k (StateExn.lift c).
Proof. intros A k c s w r s' w' E. unfold StateExn.lift in E. congruence. Qed.

Lemma keeps_call : forall (A : Type) k (c : M W A), keeps k (Mutation.call c).
Proof.
  intros A k c s w r s' w' E. unfold Mutation.call in E. simpl in E.
  destruct (c w). congruence.
Qed.

Lemma keeps_read : forall k, keeps (W:=W) k Mutation.read.
Proof. intros k s w r s' w' E. unfold Mutation.read in E. simpl in E. congruence. Qed.

Lemma keeps_update :
  forall k (f : JSValue -> JSValue),
    (forall s, Js.prop (f s) k = Js.prop s k) ->
    keeps (W:=W) k (Mutation.update f).
Proof.
  intros k f Hf s w r s' w' E. unfold Mutation.update in E. simpl in E.
  injection E as _ <- _. apply Hf.
Qed.

Lemma keeps_bind :
  forall (A B : Type) k (c : Mut JSValue W A) (f : A -> Mut JSValue W B),
    keeps k c -> (forall a, keeps k (f a)) -> keeps k (StateExn.bind c f).
Proof.
  intros A B k c f Hc Hf s w r s' w' E. unfold StateExn.bind in E.
  destruct (c (s, w)) as [[a|e] [s1 w1]] eqn:Ec.
  - rewrite (Hf a _ _ _ _ _ E). exact (Hc _ _ _ _ _ Ec).
  - injection E as _ <- _. exact (Hc _ _ _ _ _ Ec).
Qed.

Lemma keeps_when :
  forall k b (c : Mut JSValue W unit), keeps k c -> keeps k (StateExn.when b c).
Proof.
  intros k [|] c Hc; simpl; [exact Hc | apply keeps_ret].
Qed.

Lemma keeps_try_catch :
  forall (A : Type) k (c : Mut JSValue W A) h,
    keeps k c -> (forall e, keeps k (h e)) -> keeps k (StateExn.try_catch c h).
Proof.
  intros A k c h Hc Hh s w r s' w' E. unfold StateExn.try_catch in E.
  destruct (c (s, w)) as [[a|e] [s1 w1]] eqn:Ec.
  - injection E as _ <- _. exact (Hc _ _ _ _ _ Ec).
  - rewrite (Hh e _ _ _ _ _ E). exact (Hc _ _ _ _ _ Ec).
Qed.

Lemma keeps_processMediaBlocks :
  forall k, String.eqb k "content" = false -> keeps k processMediaBlocks.
Proof.
  intros k Hk s w r s' w' E. unfold processMediaBlocks in E. simpl in E.
  destruct (Js.truthy _); [|congruence].
  destruct (Js.get_opt _ "children"); try congruence.
  destruct (processBlocks items w) as [r0 [cs' w0]].
  injection E as _ <- _. unfold setRootChildren.
  apply prop_set_other. exact Hk.
Qed.

Lemma keeps_setMetaImage :
  forall k id, String.eqb k "meta" = false -> keeps k (setMetaImage (W:=W) id).
Proof.
  intros k id Hk. unfold setMetaImage.
  apply keeps_bind; [apply keeps_read|]. intro e.
  destruct (Js.prop e "meta");
    try apply keeps_throw; try apply keeps_ret.
  apply keeps_update. intro s. apply prop_set_other. exact Hk.
Qed.

(** Enrichment assigns to [authors], [heroImage], [meta] and
    [content], and to nothing else. *)
Lemma keeps_enhanceBody :
  forall k request,
    String.eqb k "authors" = false -> String.eqb k "heroImage" = false ->
    String.eqb k "meta" = false -> String.eqb k "content" = false ->
    keeps k (enhanceBody request).
Proof.
  intros k request Ha Hh Hm Hc. unfold enhanceBody.
  apply keeps_bind; [apply keeps_call|]. intro authorId.
  apply keeps_bind.
  { apply keeps_when, keeps_update. intro s. apply prop_set_other. exact Ha. }
  intros _. apply keeps_bind; [apply keeps_lift|]. intro heroRequested.
  apply keeps_bind.
  { apply keeps_when, keeps_bind; [apply keeps_call|]. intro heroImageId.
    apply keeps_when, keeps_bind.
    - apply keeps_update. intro s. apply prop_set_other. exact Hh.
    - intros _. apply keeps_setMetaImage. exact Hm. }
  intros _. apply keeps_processMediaBlocks. exact Hc.
Qed.

(** Enrichment always hands a post back. *)
Lemma enhance_returns :
  forall postData request (w : W),
  exists enhanced w',
    enhancePostDataFromJSON postData request w = (Val enhanced, w').
Proof.
  intros postData request w. unfold enhancePostDataFromJSON, StateExn.try_catch.
  destruct (enhanceBody request (spread postData, w)) as [[[]|e] [s1 w1]];
    unfold StateExn.ret; eauto.
Qed.

Lemma enhance_keeps :
  forall k postData request (w : W) enhanced w',
    String.eqb k "authors" = false -> String.eqb k "heroImage" = false ->
    String.eqb k "meta" = false -> String.eqb k "content" = false ->
    enhancePostDataFromJSON postData request w = (Val enhanced, w') ->
    Js.prop enhanced k = Js.prop (spread postData) k.
Proof.
  intros k postData request w enhanced w' Ha Hh Hm Hc E.
  unfold enhancePostDataFromJSON in E.
  destruct (StateExn.try_catch (enhanceBody request)
              (fun _ => StateExn.ret tt) (spread postData, w))
    as [[[]|e] [s1 w1]] eqn:Et; [|discriminate].
  injection E as <- _.
  assert (Hk : keeps k (StateExn.try_catch (enhanceBody request)
                          (fun _ => StateExn.ret tt))).
  { apply keeps_try_catch;
      [apply keeps_enhanceBody; assumption | intro; apply keeps_ret]. }
  exact (Hk _ _ _ _ _ Et).
Qed.

End ToolFacts.

(** ** The result of the tool *)

Lemma failure_isFailure : forall error details, isFailure (failure error details) = true.
Proof. reflexivity. Qed.

Ltac step_call E :=
  match type of E with
  | context [StateExn.bind ?c ?k ?w] =>
      unfold StateExn.bind at 1 in E;
      let r := fresh "r" in
      let w' := fresh "w" in
      let e := fresh "e" in
      destruct (c w) as [[r|e] w']; [|discriminate]
  end.

Section ResultFacts.
Context {W : Type} `{MathRandom W} `{PayloadClient W}.

(** Whatever the [try] block of [createPostFromJSON] returns is a
    result object. *)
Lemma createPostBody_result :
  forall request (w : W) r w',
    createPostBody request w = (Val r, w') ->
    isSuccess r = true \/ isFailure r = true.
Proof.
  intros request w r w' E. unfold createPostBody in E.
  step_call E.
  destruct (negb (valid r0)).
  { injection E as <- _. right. reflexivity. }
  step_call E.
  destruct (negb (Js.truthy r1)).
  { injection E as <- _. right. reflexivity. }
  step_call E. step_call E. step_call E.
  destruct (negb (Js.truthy r4)).
  { injection E as <- _. right. reflexivity. }
  step_call E. step_call E.
  injection E as <- _. left. reflexivity.
Qed.

End ResultFacts.

(** C2: on every input and under every behaviour of the client, throwing
    included, [createPostFromJSON] returns -- it does not throw -- and
    what it returns is either the success object or the object
    [{ success: false, error, details }]. *)
Theorem createPostFromJSON_never_throws :
  forall (W : Type) (R : MathRandom W) (P : PayloadClient W)
         (request : JSValue) (w : W),
  exists result w',
    createPostFromJSON request w = (Val result, w')
    /\ (isSuccess result = true \/ isFailure result = true).
Proof.
  intros W R P request w. unfold createPostFromJSON, StateExn.try_catch.
  destruct (createPostBody request w) as [[r|e] w'] eqn:E.
  - exists r, w'. split; [reflexivity|].
    exact (createPostBody_result request w r w' E).
  - unfold StateExn.ret. eexists. exists w'. split; [reflexivity|].
    right. apply failure_isFailure.
Qed.

(** When the service refuses the creation of the post, [createPost]
    throws and the tool reports the error of the client. *)
Example createPostFromJSON_post_refused :
  fst (PayloadCMSClient.createPost (JObj []) (InMemory.client InMemory.broken))
  = Throw (Error "API request failed: 500 Internal Server Error - Something went wrong.")
  /\ fst (createPostFromJSON testRequest (InMemory.client InMemory.broken))
     = Val (failure
              "API request failed: 500 Internal Server Error - Something went wrong."
              "Error: API request failed: 500 Internal Server Error - Something went wrong.").
Proof. split; vm_compute; reflexivity. Qed.

(** ** Media blocks *)

Section MediaFacts.
Context {W : Type} `{MathRandom W} `{PayloadClient W}.

Lemma forEachBlock_length :
  forall callback blocks (w : W) r blocks' w',
    forEachBlock callback blocks w = (r, (blocks', w')) ->
    List.length blocks' = List.length blocks.
Proof.
  intros callback. induction blocks as [|b rest IH]; intros w r blocks' w' E.
  - simpl in E. injection E as _ <- _. reflexivity.
  - simpl in E. destruct (callback b w) as [r1 [b1 w1]].
    destruct (forEachBlock callback rest w1) as [r2 [rest2 w2]] eqn:Er.
    injection E as _ <- _. simpl. rewrite (IH _ _ _ _ Er). reflexivity.
Qed.

Lemma walkChildren_none :
  forall callback fs (w : W),
    Js.isArray (Js.assoc "children" fs) = false ->
    walkChildren callback fs w = (Val tt, (None, w)).
Proof.
  intros callback fs w.
  induction fs as [|[k v] fs IH]; intro Hc; cbn [walkChildren].
  - reflexivity.
  - cbn [Js.assoc] in Hc. destruct (String.eqb "children" k).
    + destruct v; try reflexivity. discriminate.
    + exact (IH Hc).
Qed.

(** The placeholder whose resolution gives nothing stays in place. *)
Lemma resolveMedia_unresolved :
  forall fs (w : W) v w1,
    isMediaPlaceholder (JObj fs) = true ->
    getRandomHeroImage w = (Val v, w1) ->
    Js.truthy v = false ->
    resolveMedia (fs, w) = (Val tt, (fs, w1)).
Proof.
  intros fs w v w1 Hp Eg Hv. unfold isMediaPlaceholder in Hp.
  apply andb_true_iff in Hp. destruct Hp as [Hp Hmedia].
  apply andb_true_iff in Hp. destruct Hp as [Htype Hkind].
  cbn [Js.prop] in Htype, Hkind, Hmedia.
  unfold resolveMedia, Mutation.read. unfold StateExn.bind at 1.
  cbn [fst snd].
  assert (Hopt : Js.get_opt (Js.assoc "fields" fs) "blockType"
                 = Js.prop (Js.assoc "fields" fs) "blockType")
    by (destruct (Js.assoc "fields" fs); try reflexivity; discriminate).
  rewrite Hopt, Htype, Hkind, Hmedia. cbn [andb].
  unfold StateExn.bind, Mutation.call. cbn [fst snd]. rewrite Eg, Hv.
  reflexivity.
Qed.

End MediaFacts.

(** On a service without media every resolution gives [null]: the post
    that reaches the service still holds the media block with its
    placeholder, and the tool reports success. *)
Example createPostFromJSON_unresolved_media :
  let run := createPostFromJSON mediaRequest (InMemory.client InMemory.empty) in
  fst (PayloadCMSClient.getRandomHeroImage (InMemory.client InMemory.empty)) = Val JNull
  /\ isSuccess (match fst run with Val r => r | Throw _ => JNull end) = true
  /\ map (fun post =>
            map mediaOf
                (match Js.prop (Js.prop (Js.prop post "content") "root") "children" with
                 | JArr nodes => nodes
                 | _ => []
                 end))
         (postDocs (net (snd run)))
     = [[JUndefined; JStr "random"]].
Proof. vm_compute. repeat split. Qed.

(** ** Categories *)

(** C6, on the code: asked for ["Docker"] and ["docker"] on a service
    without categories, [getOrCreateCategories] looks both titles up in
    the list it fetched before the loop, finds neither, and creates two
    categories whose titles are equal up to case. *)
Theorem getOrCreateCategories_creates_duplicates :
  let run := PayloadCMSClient.getOrCreateCategories ["Docker"; "docker"]
               (InMemory.client InMemory.empty) in
  categories InMemory.empty = []
  /\ fst run = Val [JStr (InMemory.objectId 0); JStr (InMemory.objectId 1)]
  /\ InMemory.categoryTitles (net (snd run)) = [Val "docker"; Val "docker"].
Proof. vm_compute. repeat split. Qed.

(** ** The client against any service *)

Section ClientFacts.
Context {B : Type} `{Http B} `{MathRandom B}.

Lemma createCategory_returns :
  forall title (c : Client B),
  exists category c', PayloadCMSClient.createCategory title c = (Val category, c').
Proof.
  intros title c. unfold PayloadCMSClient.createCategory, StateExn.try_catch.
  match goal with
  | |- context [match ?body c with _ => _ end] =>
      destruct (body c) as [[v|e] c']
  end; unfold StateExn.ret; eauto.
Qed.

(** With nothing in the list fetched before the loop, both titles are
    sent for creation, whatever the service answered to the first. *)
Lemma categoryLoop_creates_each_title :
  forall first second (c : Client B),
  exists v1 c1 v2 c2,
    PayloadCMSClient.createCategory first c = (Val v1, c1)
    /\ PayloadCMSClient.createCategory second c1 = (Val v2, c2)
    /\ PayloadCMSClient.categoryLoop (JArr []) [first; second] [] c
       = (Val (pushedId v1 ++ pushedId v2), c2).
Proof.
  intros first second c.
  destruct (createCategory_returns first c) as (v1 & c1 & E1).
  destruct (createCategory_returns second c1) as (v2 & c2 & E2).
  exists v1, c1, v2, c2. split; [exact E1|]. split; [exact E2|].
  cbn [PayloadCMSClient.categoryLoop asArray findM ResMonad.bind].
  unfold StateExn.bind, StateExn.lift. cbn [Js.truthy]. cbv iota.
  rewrite E1. unfold pushedId.
  destruct (Js.truthy v1); rewrite E2; destruct (Js.truthy v2); reflexivity.
Qed.

(** A resolved hero image is a well-formed identifier; anything else
    comes back as [null]. *)
Lemma getRandomHeroImage_null_or_valid :
  forall (c : Client B) id c',
    PayloadCMSClient.getRandomHeroImage c = (Val id, c') ->
    id = JNull \/ isValidObjectId id = true.
Proof.
  intros c id c' E. unfold PayloadCMSClient.getRandomHeroImage in E.
  repeat step_call E.
  match type of E with
  | context [if ?b then _ else _] => destruct b eqn:Hb
  end; unfold StateExn.ret in E; injection E as <- _.
  - right. apply andb_true_iff in Hb. exact (proj2 Hb).
  - left. reflexivity.
Qed.

End ClientFacts.

(** ** What enrichment does to the hero image *)

Section HeroFacts.
Context {W : Type} `{MathRandom W} `{PayloadClient W}.

Lemma leads_bind :
  forall (A B : Type) (P Q R : JSValue -> Prop)
         (c : Mut JSValue W A) (f : A -> Mut JSValue W B),
    leads P c Q -> (forall a, leads Q (f a) R) -> (forall s, Q s -> R s) ->
    leads P (StateExn.bind c f) R.
Proof.
  intros A B P Q R c f Hc Hf HQR s w r s' w' Hs E. unfold StateExn.bind in E.
  destruct (c (s, w)) as [[a|e] [s1 w1]] eqn:Ec.
  - exact (Hf a _ _ _ _ _ (Hc _ _ _ _ _ Hs Ec) E).
  - injection E as _ <- _. exact (HQR _ (Hc _ _ _ _ _ Hs Ec)).
Qed.

(** A computation that keeps two properties keeps whatever is said of
    them. *)
Lemma leads_of_keeps :
  forall (A : Type) (c : Mut JSValue W A) k1 k2 (J : JSValue -> JSValue -> Prop),
    keeps k1 c -> keeps k2 c ->
    leads (fun s => J (Js.prop s k1) (Js.prop s k2)) c
          (fun s => J (Js.prop s k1) (Js.prop s k2)).
Proof.
  intros A c k1 k2 J H1 H2 s w r s' w' Hs E.
  rewrite (H1 _ _ _ _ _ E), (H2 _ _ _ _ _ E). exact Hs.
Qed.

Lemma prop_set_same :
  forall k x fs, Js.prop (Js.set (JObj fs) k x) k = x.
Proof. intros. simpl. apply assoc_set_assoc_same. Qed.

(** [if (request.heroImage) { ... }]: the two assignments come
    together or not at all. *)
Lemma hero_step :
  forall hero fs (s : JSValue) (w : W) r s' w',
    heroUnresolved hero (JObj fs) s ->
    (heroImageId <- Mutation.call getRandomHeroImage ;;
     StateExn.when (Js.truthy heroImageId)
       (Mutation.update (fun e => Js.set e "heroImage" heroImageId) ;;;
        setMetaImage heroImageId))%M (s, w) = (r, (s', w')) ->
    heroUnresolved hero (JObj fs) s' \/ heroResolved (JObj fs) s'.
Proof.
  intros hero fs s w r s' w' [Hh Hm] E.
  unfold StateExn.bind at 1, Mutation.call in E. cbn [fst snd] in E.
  destruct (getRandomHeroImage w) as [[id|e] w1].
  - destruct (Js.truthy id) eqn:Hid; cbn [StateExn.when] in E.
    + unfold StateExn.bind, Mutation.update, setMetaImage, Mutation.read in E.
      cbn [fst snd] in E.
      assert (Hm' : Js.prop (Js.set s "heroImage" id) "meta" = JObj fs)
        by (rewrite prop_set_other; [exact Hm | reflexivity]).
      unfold StateExn.bind in E. cbn [fst snd] in E.
      rewrite Hm' in E. unfold Mutation.update in E. cbn [fst snd] in E. injection E as _ <- _.
      right. exists id. split; [exact Hid|].
      assert (Hobj : exists fs0, s = JObj fs0)
        by (destruct s; try discriminate; eauto).
      destruct Hobj as (fs0 & ->).
      split.
      * rewrite prop_set_other by reflexivity. apply prop_set_same.
      * change (Js.set (JObj fs0) "heroImage" id)
          with (JObj (Js.set_assoc "heroImage" id fs0)).
        apply prop_set_same.
    + unfold StateExn.ret in E. injection E as _ <- _. left. split; assumption.
  - injection E as _ <- _. left. split; assumption.
Qed.

Lemma enhanceBody_hero :
  forall request hero fs,
    leads (heroUnresolved hero (JObj fs)) (enhanceBody request)
          (fun s => heroUnresolved hero (JObj fs) s \/ heroResolved (JObj fs) s).
Proof.
  intros request hero fs. unfold enhanceBody.
  pose (U := heroUnresolved hero (JObj fs)).
  pose (I := fun s => heroUnresolved hero (JObj fs) s \/ heroResolved (JObj fs) s).
  assert (HU : forall (A : Type) (c : Mut JSValue W A),
             keeps "heroImage" c -> keeps "meta" c -> leads U c U).
  { intros A c H1 H2.
    exact (leads_of_keeps A c "heroImage" "meta"
             (fun h m => h = hero /\ m = JObj fs) H1 H2). }
  assert (HI : forall (A : Type) (c : Mut JSValue W A),
             keeps "heroImage" c -> keeps "meta" c -> leads I c I).
  { intros A c H1 H2.
    exact (leads_of_keeps A c "heroImage" "meta"
             (fun h m => (h = hero /\ m = JObj fs)
                         \/ exists id, Js.truthy id = true /\ h = id
                                       /\ m = Js.set (JObj fs) "image" id)
             H1 H2). }
  apply (leads_bind _ _ U U I); [apply HU; apply keeps_call | | left; assumption].
  intro authorId.
  apply (leads_bind _ _ U U I); [ | | left; assumption].
  { apply HU; apply keeps_when, keeps_update; intro s;
      apply prop_set_other; reflexivity. }
  intros _.
  apply (leads_bind _ _ U U I); [apply HU; apply keeps_lift | | left; assumption].
  intro heroRequested.
  apply (leads_bind _ _ U I I); [ | | auto].
  { destruct (Js.truthy heroRequested); cbn [StateExn.when].
    - intros s w r s' w' Hs E. exact (hero_step hero fs s w r s' w' Hs E).
    - intros s w r s' w' Hs E. unfold StateExn.ret in E.
      injection E as _ <- _. left. exact Hs. }
  intros _. apply HI; apply keeps_processMediaBlocks; reflexivity.
Qed.

(** After enrichment, [heroImage] and [meta.image] of the post
    compiled from an accepted request are either as compilation left
    them -- no [meta.image] -- or both the identifier that the client
    resolved. *)
Lemma enhance_hero_image :
  forall request (w : W) postData w1 (w2 : W) enhanced w3,
    accepts request = true ->
    processPostCreationRequest request w = (Val postData, w1) ->
    enhancePostDataFromJSON postData request w2 = (Val enhanced, w3) ->
    (Js.prop enhanced "heroImage" = Js.prop postData "heroImage"
     /\ Js.prop (Js.prop enhanced "meta") "image" = JUndefined)
    \/ (exists id,
          Js.truthy id = true
          /\ Js.prop enhanced "heroImage" = id
          /\ Js.prop (Js.prop enhanced "meta") "image" = id).
Proof.
  intros request w postData w1 w2 enhanced w3 Ha Ep Ee.
  destruct (process_accepted request w Ha) as (slug & content & w1' & Ep').
  rewrite Ep' in Ep. injection Ep as <- _.
  unfold enhancePostDataFromJSON, StateExn.try_catch in Ee.
  cbn [spread] in Ee.
  match type of Ee with
  | context [enhanceBody request (?s0, w2)] =>
      destruct (enhanceBody request (s0, w2)) as [r [s1 w']] eqn:Eb;
      assert (Hinv := enhanceBody_hero request
                        (Js.prop s0 "heroImage")
                        [("title", Js.prop (Js.prop request "meta") "title");
                         ("description",
                           Js.prop (Js.prop request "meta") "description")]
                        s0 w2 r s1 w' (conj eq_refl eq_refl) Eb)
  end.
  assert (Hs1 : s1 = enhanced).
  { destruct r as [[]|e]; unfold StateExn.ret in Ee; congruence. }
  subst s1.
  destruct Hinv as [[Hh Hm] | (id & Hid & Hh & Hm)].
  - left. split; [exact Hh|]. rewrite Hm. reflexivity.
  - right. exists id. split; [exact Hid|]. split; [exact Hh|].
    rewrite Hm. apply prop_set_same.
Qed.

End HeroFacts.

(** ** Only drafts are submitted *)

Section DraftFacts.
Context {W : Type} `{MathRandom W}.

Lemma bind_same_on :
  forall (A B : Type) (c : M W A) (f g : A -> M W B) (w : W),
    (forall a w', c w = (Val a, w') -> f a w' = g a w') ->
    StateExn.bind c f w = StateExn.bind c g w.
Proof.
  intros A B c f g w Hfg. unfold StateExn.bind.
  destruct (c w) as [[a|e] w'] eqn:E; [apply Hfg; reflexivity | reflexivity].
Qed.

(** The tool behaves the same with a client that refuses everything
    but drafts: no other post ever reaches [createPost]. *)
Lemma createPostFromJSON_submits_drafts_only :
  forall (P : PayloadClient W) request (w : W),
    createPostFromJSON (P := draftsOnly P) request w
    = createPostFromJSON (P := P) request w.
Proof.
  intros P request w. unfold createPostFromJSON, StateExn.try_catch.
  assert (E : createPostBody (P := draftsOnly P) request w
              = createPostBody (P := P) request w);
    [|rewrite E; reflexivity].
  unfold createPostBody.
  apply bind_same_on. intros v w0 Ev.
  assert (Ev' : validatePostCreationRequest request = Val v)
    by (unfold StateExn.lift in Ev; congruence).
  destruct (valid v) eqn:Hv; cbn [negb]; [|reflexivity].
  assert (Ha : accepts request = true) by (unfold accepts; rewrite Ev'; exact Hv).
  change (@testConnection W (draftsOnly P)) with (@testConnection W P).
  apply bind_same_on. intros c w1 _.
  destruct (negb (Js.truthy c)); [reflexivity|].
  apply bind_same_on. intros postData w2 Ep.
  change (enhancePostDataFromJSON (P := draftsOnly P) postData request)
    with (enhancePostDataFromJSON (P := P) postData request).
  apply bind_same_on. intros enhanced w3 Ee.
  assert (Hd : Js.prop enhanced "_status" = JStr "draft").
  { rewrite (enhance_keeps "_status" postData request w2 enhanced w3
               eq_refl eq_refl eq_refl eq_refl Ee).
    destruct (process_accepted request w1 Ha) as (slug & content & w2' & Ep').
    rewrite Ep' in Ep. injection Ep as <- _. reflexivity. }
  change (@createPost W (draftsOnly P) enhanced)
    with (if Js.eq_str (Js.prop enhanced "_status") "draft"
          then @createPost W P enhanced
          else StateExn.throw (Error "refused: the post is not a draft")).
  rewrite Hd. change (Js.eq_str (JStr "draft") "draft") with true. cbv iota.
  reflexivity.
Qed.

End DraftFacts.
(** Whatever compilation returns is an object with the status "draft". *)
Lemma process_returns_draft :
  forall (W : Type) (R : MathRandom W) (request : JSValue) (w : W) postData w1,
    processPostCreationRequest request w = (Val postData, w1) ->
    Js.prop postData "_status" = JStr "draft" /\ spread postData = postData.
Proof.
  intros W R request w postData w1 E. unfold processPostCreationRequest in E.
  do 5 step_call E.
  unfold StateExn.ret in E. injection E as <- _. split; reflexivity.
Qed.

(** C1: whenever compilation returns a submission -- and on every
    accepted request it does -- the status of the submission is "draft";
    the post that enrichment hands on for submission still has that
    status, whatever the client answers; and the tool runs the same
    against a client that refuses everything but drafts, so that
    nothing else is ever submitted. *)
Theorem pipeline_status_is_draft :
  forall (W : Type) (R : MathRandom W) (P : PayloadClient W)
         (request : JSValue) (w : W),
    (accepts request = true ->
     exists postData w1,
       processPostCreationRequest request w = (Val postData, w1))
    /\ (forall postData w1,
          processPostCreationRequest request w = (Val postData, w1) ->
          Js.prop postData "_status" = JStr "draft"
          /\ forall w2 : W,
               exists enhanced w3,
                 enhancePostDataFromJSON postData request w2 = (Val enhanced, w3)
                 /\ Js.prop enhanced "_status" = JStr "draft")
    /\ createPostFromJSON (P := draftsOnly P) request w
       = createPostFromJSON (P := P) request w.
Proof.
  intros W R P request w. split; [|split].
  - intro Ha.
    destruct (process_accepted request w Ha) as (slug & content & w1 & E).
    eauto.
  - intros postData w1 E.
    destruct (process_returns_draft W R request w postData w1 E) as [Hd Hs].
    split; [exact Hd|]. intro w2.
    destruct (enhance_returns postData request w2) as (enhanced & w3 & Ee).
    exists enhanced, w3. split; [exact Ee|].
    rewrite (enhance_keeps "_status" postData request w2 enhanced w3
               eq_refl eq_refl eq_refl eq_refl Ee).
    rewrite Hs. exact Hd.
  - apply createPostFromJSON_submits_drafts_only.
Qed.

(** C5, as the code has it: the submission compiled from an accepted
    request carries the placeholder in [heroImage] when the request asks
    for a hero image and leaves [heroImage] undefined otherwise; in both
    cases compilation sets no [meta.image].  Enrichment then either
    leaves the two fields as they are or writes the identifier it
    resolved to both. *)
Theorem process_heroImage_placeholder :
  forall (W : Type) (R : MathRandom W) (P : PayloadClient W)
         (request : JSValue) (w : W),
    accepts request = true ->
    exists postData w1,
      processPostCreationRequest request w = (Val postData, w1)
      /\ Js.prop (Js.prop postData "meta") "image" = JUndefined
      /\ (Js.truthy (Js.prop request "heroImage") = true ->
          Js.prop postData "heroImage" = JStr "random")
      /\ (Js.truthy (Js.prop request "heroImage") = false ->
          Js.prop postData "heroImage" = JUndefined)
      /\ (forall (w2 : W) enhanced w3,
             enhancePostDataFromJSON postData request w2 = (Val enhanced, w3) ->
             (Js.prop enhanced "heroImage" = Js.prop postData "heroImage"
              /\ Js.prop (Js.prop enhanced "meta") "image" = JUndefined)
             \/ (exists id,
                   Js.truthy id = true
                   /\ Js.prop enhanced "heroImage" = id
                   /\ Js.prop (Js.prop enhanced "meta") "image" = id)).
Proof.
  intros W R P request w Ha.
  destruct (process_accepted request w Ha) as (slug & content & w1 & E).
  eexists. exists w1. split; [exact E|]. split; [reflexivity|].
  split; [|split].
  - intro Hh.
    change (Js.prop (JObj ?fs) "heroImage") with
      (if Js.truthy (Js.prop request "heroImage") then JStr "random" else JUndefined).
    rewrite Hh. reflexivity.
  - intro Hh.
    change (Js.prop (JObj ?fs) "heroImage") with
      (if Js.truthy (Js.prop request "heroImage") then JStr "random" else JUndefined).
    rewrite Hh. reflexivity.
  - intros w2 enhanced w3 Ee.
    exact (enhance_hero_image request w _ w1 w2 enhanced w3 Ha E Ee).
Qed.

(** ** What compilation makes of an accepted request *)

Section CompiledFacts.
Context {W : Type} {R : MathRandom W}.

Lemma process_accepted_fields :
  forall request (w : W),
    accepts request = true ->
    exists title content w',
      Js.prop request "title" = JStr title
      /\ processPostCreationRequest request w
         = (Val (JObj [("slug",
                         if Js.truthy (Js.prop request "slug")
                         then Js.prop request "slug"
                         else JStr (generateSlug title));
                       ("_status", JStr "draft");
                       ("title", JStr title);
                       ("content", content);
                       ("meta",
                         JObj [("title", Js.prop (Js.prop request "meta") "title");
                               ("description",
                                 Js.prop (Js.prop request "meta") "description")]);
                       ("heroImage",
                         if Js.truthy (Js.prop request "heroImage")
                         then JStr "random" else JUndefined);
                       ("relatedPosts", JArr [])]), w').
Proof.
  intros request w Ha.
  destruct (accepts_shape request Ha)
    as (Hn & (title & Ht) & (fs & Hm) & (items & Hb & Hitems) & _).
  unfold processPostCreationRequest, StateExn.lift, Js.get.
  rewrite Hn, Ht, Hm, Hb. unfold StateExn.bind at 1.
  destruct (convertBlocksToLexical_children items w Hitems)
    as (doc & children & w' & E & _ & _).
  exists title, doc, w'. split; [reflexivity|].
  destruct (Js.truthy (Js.prop request "slug"));
    cbn [generateSlugOf]; unfold StateExn.bind at 1;
    unfold StateExn.bind at 1; rewrite E; reflexivity.
Qed.

Lemma createBannerBlock_returns :
  forall text style blockName (w : W),
  exists id w',
    createBannerBlock text style blockName w
    = (Val (JObj [("type", JStr "block");
                  ("fields",
                    JObj [("blockType", JStr "banner");
                          ("style", style);
                          ("content",
                            JObj [("root",
                              JObj [("type", JStr "root");
                                    ("children", JArr [createParagraph text]);
                                    ("direction", JStr "ltr"); ("format", JStr "");
                                    ("indent", JNum 0); ("version", JNum 1)])]);
                          ("id", JStr id)]);
                  ("format", JStr ""); ("version", JNum 2)]), w').
Proof.
  intros. unfold createBannerBlock.
  destruct (generateBlockId_returns w) as (id & w' & E).
  unfold StateExn.bind, StateExn.ret. rewrite E. eauto.
Qed.

Lemma createMediaBlock_returns :
  forall blockName (w : W),
  exists id w',
    createMediaBlock blockName w
    = (Val (JObj [("type", JStr "block");
                  ("fields", JObj [("blockType", JStr "mediaBlock");
                                   ("media", JStr "random");
                                   ("id", JStr id)]);
                  ("format", JStr ""); ("version", JNum 2)]), w').
Proof.
  intros. unfold createMediaBlock.
  destruct (generateBlockId_returns w) as (id & w' & E).
  unfold StateExn.bind, StateExn.ret. rewrite E. eauto.
Qed.

End CompiledFacts.

(** ** Placeholders that stay *)

Lemma set_assoc_same_value :
  forall k x fs,
    Js.assoc k fs = x -> x <> JUndefined -> Js.set_assoc k x fs = fs.
Proof.
  intros k x fs. induction fs as [|[k0 v0] fs IH]; intros Ha Hx; cbn in *.
  - congruence.
  - destruct (String.eqb k k0); [congruence|].
    rewrite (IH Ha Hx). reflexivity.
Qed.

Section PlaceholderFacts.
Context {W : Type} {R : MathRandom W} {P : PayloadClient W}.

Lemma firstFailure_assoc :
  forall r1 r2 r3 : Res unit,
    firstFailure r1 (firstFailure r2 r3) = firstFailure (firstFailure r1 r2) r3.
Proof. intros [[]|e1] r2 r3; reflexivity. Qed.

(** A walk over two runs of siblings is the walk over the first run
    followed by the walk over the second. *)
Lemma forEachBlock_app :
  forall callback xs ys (w : W),
    forEachBlock callback (xs ++ ys) w
    = match forEachBlock callback xs w with
      | (r1, (xs', w1)) =>
          match forEachBlock callback ys w1 with
          | (r2, (ys', w2)) => (firstFailure r1 r2, (xs' ++ ys', w2))
          end
      end.
Proof.
  intros callback xs ys. induction xs as [|x xs IH]; intro w.
  - cbn. destruct (forEachBlock callback ys w) as [r2 [ys' w2]]. reflexivity.
  - cbn [app forEachBlock]. destruct (callback x w) as [r [x' w0]].
    rewrite IH.
    destruct (forEachBlock callback xs w0) as [r1 [xs' w1]].
    destruct (forEachBlock callback ys w1) as [r2 [ys' w2]].
    rewrite firstFailure_assoc. reflexivity.
Qed.

(** A walk whose callback hands every block back hands the blocks
    back. *)
Lemma forEachBlock_fixed :
  forall callback blocks,
    Forall (fun b => forall w : W, exists r w', callback b w = (r, (b, w')))
           blocks ->
    forall w : W, exists r w', forEachBlock callback blocks w = (r, (blocks, w')).
Proof.
  intros callback blocks Hall. induction Hall as [|b rest Hb _ IH]; intro w.
  - cbn. eauto.
  - cbn [forEachBlock]. destruct (Hb w) as (r & w1 & E). rewrite E.
    destruct (IH w1) as (r' & w2 & E'). rewrite E'. eauto.
Qed.

Lemma placeholder_fields :
  forall fs,
    isMediaPlaceholder (JObj fs) = true ->
    Js.eq_str (Js.assoc "type" fs) "block" = true
    /\ Js.eq_str (Js.get_opt (Js.assoc "fields" fs) "blockType") "mediaBlock" = true
    /\ Js.eq_str (Js.prop (Js.assoc "fields" fs) "media") "random" = true.
Proof.
  intros fs Hp. unfold isMediaPlaceholder in Hp.
  apply andb_true_iff in Hp. destruct Hp as [Hp Hmedia].
  apply andb_true_iff in Hp. destruct Hp as [Htype Hkind].
  cbn [Js.prop] in Htype, Hkind, Hmedia.
  repeat split; try assumption.
  destruct (Js.assoc "fields" fs); try discriminate; exact Hkind.
Qed.

(** A resolution that fails leaves the node alone as well. *)
Lemma resolveMedia_throws :
  forall fs (w : W) e w1,
    isMediaPlaceholder (JObj fs) = true ->
    getRandomHeroImage w = (Throw e, w1) ->
    resolveMedia (fs, w) = (Throw e, (fs, w1)).
Proof.
  intros fs w e w1 Hp Eg.
  destruct (placeholder_fields fs Hp) as (Htype & Hkind & Hmedia).
  unfold resolveMedia, Mutation.read. unfold StateExn.bind at 1.
  cbn [fst snd]. rewrite Htype, Hkind, Hmedia. cbn [andb].
  unfold StateExn.bind, Mutation.call. cbn [fst snd]. rewrite Eg.
  reflexivity.
Qed.

Lemma processBlock_unresolved :
  forall node (w : W) v w1,
    isMediaPlaceholder node = true ->
    Js.isArray (Js.prop node "children") = false ->
    getRandomHeroImage w = (Val v, w1) ->
    Js.truthy v = false ->
    processBlock node w = (Val tt, (node, w1)).
Proof.
  intros node w v w1 Hp Hc Eg Hv.
  destruct node as [| | | | | |fs]; try discriminate.
  cbn [processBlock Js.prop] in *.
  rewrite (resolveMedia_unresolved fs w v w1 Hp Eg Hv).
  rewrite (walkChildren_none processBlock fs w1 Hc). reflexivity.
Qed.

(** The node of a block that is no media block goes through the media
    pass untouched, and no call is made for it. *)
Lemma processBlock_compiled_other :
  forall block node,
    compiledFrom W block node ->
    Js.eq_str (Js.prop block "type") "mediaBlock" = false ->
    forall w : W, processBlock node w = (Val tt, (node, w)).
Proof.
  intros block node (w0 & w1 & E) Hm w.
  destruct (Js.nullish block) eqn:Hnn.
  { destruct (convertBlock_throws block w0 Hnn) as (e & He).
    rewrite He in E. discriminate. }
  unfold convertBlock, StateExn.lift, Js.get in E. rewrite Hnn in E.
  unfold StateExn.bind at 1 in E. rewrite Hm in E.
  destruct (Js.eq_str (Js.prop block "type") "heading").
  { unfold StateExn.ret in E. injection E as <- _. reflexivity. }
  destruct (Js.eq_str (Js.prop block "type") "paragraph").
  { unfold StateExn.ret in E. injection E as <- _. reflexivity. }
  destruct (Js.eq_str (Js.prop block "type") "code").
  { match type of E with
    | createCodeBlock ?c ?l ?n w0 = _ =>
        destruct (createCodeBlock_returns c l n w0) as (id & w' & E')
    end.
    rewrite E' in E. injection E as <- _. reflexivity. }
  destruct (Js.eq_str (Js.prop block "type") "banner").
  { match type of E with
    | createBannerBlock ?c ?l ?n w0 = _ =>
        destruct (createBannerBlock_returns c l n w0) as (id & w' & E')
    end.
    rewrite E' in E. injection E as <- _. reflexivity. }
  unfold StateExn.ret in E. injection E as <- _. reflexivity.
Qed.

(** The node of a media block is a placeholder without children. *)
Lemma compiled_media_node :
  forall block node,
    compiledFrom W block node ->
    Js.eq_str (Js.prop block "type") "mediaBlock" = true ->
    isMediaPlaceholder node = true
    /\ Js.isArray (Js.prop node "children") = false.
Proof.
  intros block node (w0 & w1 & E) Hm.
  destruct (Js.nullish block) eqn:Hnn.
  { destruct (convertBlock_throws block w0 Hnn) as (e & He).
    rewrite He in E. discriminate. }
  unfold convertBlock, StateExn.lift, Js.get in E. rewrite Hnn in E.
  unfold StateExn.bind at 1 in E.
  destruct (Js.prop block "type") as [| | | |type| |]; try discriminate.
  cbn [Js.eq_str] in Hm. apply String.eqb_eq in Hm. subst type.
  change (Js.eq_str (JStr "mediaBlock") "heading") with false in E.
  change (Js.eq_str (JStr "mediaBlock") "paragraph") with false in E.
  change (Js.eq_str (JStr "mediaBlock") "code") with false in E.
  change (Js.eq_str (JStr "mediaBlock") "banner") with false in E.
  change (Js.eq_str (JStr "mediaBlock") "mediaBlock") with true in E.
  cbv iota in E.
  match type of E with
  | createMediaBlock ?n w0 = _ =>
      destruct (createMediaBlock_returns n w0) as (id & w' & E')
  end.
  rewrite E' in E. injection E as <- _. split; reflexivity.
Qed.

(** Under a client that resolves nothing, the media pass hands every
    compiled node back. *)
Lemma processBlock_compiled_unresolved :
  neverResolves P ->
  forall block node,
    compiledFrom W block node ->
    forall w : W, exists r w', processBlock node w = (r, (node, w')).
Proof.
  intros Hnever block node Hc w.
  destruct (Js.eq_str (Js.prop block "type") "mediaBlock") eqn:Hm.
  - destruct (compiled_media_node block node Hc Hm) as [Hp Hch].
    destruct (getRandomHeroImage w) as [[v|e] w1] eqn:Eg.
    + rewrite (processBlock_unresolved node w v w1 Hp Hch Eg (Hnever _ _ _ Eg)).
      eauto.
    + destruct node as [| | | | | |fs]; try discriminate.
      cbn [processBlock]. rewrite (resolveMedia_throws fs w e w1 Hp Eg). eauto.
  - rewrite (processBlock_compiled_other block node Hc Hm w). eauto.
Qed.

Lemma rootChildren_shape :
  forall post nodes,
    rootChildren post = JArr nodes ->
    exists fs cfs rfs,
      post = JObj fs /\ Js.assoc "content" fs = JObj cfs
      /\ Js.assoc "root" cfs = JObj rfs
      /\ Js.assoc "children" rfs = JArr nodes.
Proof.
  intros post nodes Hr. unfold rootChildren in Hr.
  destruct post as [| | | | | |fs]; try discriminate.
  cbn [Js.prop] in Hr.
  destruct (Js.assoc "content" fs) as [| | | | | |cfs] eqn:Hc;
    try discriminate.
  cbn [Js.get_opt Js.nullish Js.prop] in Hr.
  destruct (Js.assoc "root" cfs) as [| | | | | |rfs] eqn:Hroot;
    try discriminate.
  cbn [Js.get_opt Js.nullish Js.prop] in Hr.
  exists fs, cfs, rfs. auto.
Qed.

Lemma rootChildren_set :
  forall post nodes nodes',
    rootChildren post = JArr nodes ->
    rootChildren (setRootChildren nodes' post) = JArr nodes'.
Proof.
  intros post nodes nodes' Hr.
  destruct (rootChildren_shape post nodes Hr)
    as (fs & cfs & rfs & -> & Hc & Hroot & _).
  unfold rootChildren, setRootChildren. cbn [Js.prop Js.set].
  rewrite Hc. cbn [Js.prop Js.set]. rewrite Hroot. cbn [Js.set].
  rewrite assoc_set_assoc_same. cbn [Js.get_opt Js.nullish Js.prop].
  rewrite assoc_set_assoc_same. cbn [Js.get_opt Js.nullish Js.prop].
  apply assoc_set_assoc_same.
Qed.

Lemma setRootChildren_same :
  forall post nodes,
    rootChildren post = JArr nodes -> setRootChildren nodes post = post.
Proof.
  intros post nodes Hr.
  destruct (rootChildren_shape post nodes Hr)
    as (fs & cfs & rfs & -> & Hc & Hroot & Hch).
  unfold setRootChildren. cbn [Js.prop Js.set].
  rewrite Hc. cbn [Js.prop Js.set]. rewrite Hroot. cbn [Js.set].
  rewrite (set_assoc_same_value "children" (JArr nodes) rfs Hch)
    by discriminate.
  rewrite (set_assoc_same_value "root" (JObj rfs) cfs Hroot) by discriminate.
  rewrite (set_assoc_same_value "content" (JObj cfs) fs Hc) by discriminate.
  reflexivity.
Qed.

(** The media pass on a post: the walk over its nodes. *)
Lemma processMediaBlocks_walk :
  forall post nodes (w : W),
    rootChildren post = JArr nodes ->
    processMediaBlocks (post, w)
    = match processBlocks nodes w with
      | (r, (nodes', w')) => (r, (setRootChildren nodes' post, w'))
      end.
Proof.
  intros post nodes w Hr. unfold processMediaBlocks. cbn [fst snd].
  change (Js.get_opt (Js.get_opt (Js.prop post "content") "root") "children")
    with (rootChildren post).
  rewrite Hr. reflexivity.
Qed.

(** The post that the media pass returns still holds, at its place,
    the placeholder whose resolution gave nothing. *)
Lemma processMediaBlocks_holds_node :
  forall post nodes i node (w : W) ri pre wi v wi' r post' w',
    rootChildren post = JArr nodes ->
    nth_error nodes i = Some node ->
    isMediaPlaceholder node = true ->
    Js.isArray (Js.prop node "children") = false ->
    processBlocks (firstn i nodes) w = (ri, (pre, wi)) ->
    getRandomHeroImage wi = (Val v, wi') ->
    Js.truthy v = false ->
    processMediaBlocks (post, w) = (r, (post', w')) ->
    exists nodes',
      rootChildren post' = JArr nodes'
      /\ List.length nodes' = List.length nodes
      /\ nth_error nodes' i = Some node.
Proof.
  intros post nodes i node w ri pre wi v wi' r post' w'
         Hr Hi Hp Hc Epre Eg Hv E.
  rewrite (processMediaBlocks_walk post nodes w Hr) in E.
  destruct (processBlocks nodes w) as [r0 [nodes' w0]] eqn:Ew.
  injection E as _ <- _.
  exists nodes'. split; [exact (rootChildren_set post nodes nodes' Hr)|].
  split; [exact (forEachBlock_length processBlock nodes w r0 nodes' w0 Ew)|].
  destruct (nth_error_split nodes i Hi) as (l1 & l2 & Hn & Hl).
  assert (Hfirst : firstn i nodes = l1).
  { subst nodes i. rewrite firstn_app, firstn_all, Nat.sub_diag.
    cbn [firstn]. apply app_nil_r. }
  rewrite Hfirst in Epre. unfold processBlocks in *.
  rewrite Hn, forEachBlock_app, Epre in Ew. cbn [forEachBlock] in Ew.
  rewrite (processBlock_unresolved node wi v wi' Hp Hc Eg Hv) in Ew.
  destruct (forEachBlock processBlock l2 wi') as [r2 [l2' w2]].
  injection Ew as _ <- _.
  pose proof (forEachBlock_length processBlock l1 w ri pre wi Epre) as Hlen.
  rewrite nth_error_app2 by lia.
  replace (i - List.length pre) with 0 by lia. reflexivity.
Qed.

(** Under a client that resolves nothing, the media pass hands a
    compiled post back as it was. *)
Lemma processMediaBlocks_compiled_unresolved :
  neverResolves P ->
  forall post blocks nodes (w : W) r post' w',
    rootChildren post = JArr nodes ->
    Forall2 (compiledFrom W) blocks nodes ->
    processMediaBlocks (post, w) = (r, (post', w')) ->
    post' = post.
Proof.
  intros Hnever post blocks nodes w r post' w' Hr Hall E.
  rewrite (processMediaBlocks_walk post nodes w Hr) in E.
  assert (Hfixed : Forall (fun b => forall w : W,
                              exists r w', processBlock b w = (r, (b, w')))
                          nodes).
  { clear -Hnever Hall. induction Hall as [|b n bs ns Hbn _ IH]; constructor.
    - exact (processBlock_compiled_unresolved Hnever b n Hbn).
    - exact IH. }
  destruct (forEachBlock_fixed processBlock nodes Hfixed w) as (r0 & w0 & Ew).
  unfold processBlocks in E. rewrite Ew in E. injection E as _ <- _.
  apply setRootChildren_same. exact Hr.
Qed.

(** Enrichment under such a client leaves the nodes of a compiled
    post as compilation made them. *)
Lemma enhanceBody_compiled_unresolved :
  neverResolves P ->
  forall request blocks nodes s (w : W) r s' w',
    rootChildren s = JArr nodes ->
    Forall2 (compiledFrom W) blocks nodes ->
    enhanceBody request (s, w) = (r, (s', w')) ->
    Js.prop s' "content" = Js.prop s "content".
Proof.
  intros Hnever request blocks nodes s w r s' w' Hr Hall E.
  set (content := Js.prop s "content") in *.
  assert (Hlead : leads (fun p => Js.prop p "content" = content)
                        (enhanceBody request)
                        (fun p => Js.prop p "content" = content)).
  { unfold enhanceBody.
    apply leads_bind with (Q := fun p => Js.prop p "content" = content);
      [| |auto].
    { intros p w0 r0 p' w0' Hp E0.
      rewrite (keeps_call _ "content" _ _ _ _ _ _ E0). exact Hp. }
    intro authorId.
    apply leads_bind with (Q := fun p => Js.prop p "content" = content);
      [| |auto].
    { intros p w0 r0 p' w0' Hp E0.
      assert (Hk : keeps (W:=W) "content"
                     (StateExn.when (Js.truthy authorId)
                        (Mutation.update
                           (fun e => Js.set e "authors" (JArr [authorId])))))
        by (apply keeps_when, keeps_update; intro p0;
            apply prop_set_other; reflexivity).
      rewrite (Hk _ _ _ _ _ E0). exact Hp. }
    intros _.
    apply leads_bind with (Q := fun p => Js.prop p "content" = content);
      [| |auto].
    { intros p w0 r0 p' w0' Hp E0.
      rewrite (keeps_lift _ "content" _ _ _ _ _ _ E0). exact Hp. }
    intro heroRequested.
    apply leads_bind with (Q := fun p => Js.prop p "content" = content);
      [| |auto].
    { intros p w0 r0 p' w0' Hp E0.
      assert (Hk : keeps (W:=W) "content"
                     (StateExn.when (Js.truthy heroRequested)
                        (StateExn.bind (Mutation.call getRandomHeroImage)
                           (fun heroImageId =>
                              StateExn.when (Js.truthy heroImageId)
                                (StateExn.bind
                                   (Mutation.update
                                      (fun e => Js.set e "heroImage" heroImageId))
                                   (fun _ => setMetaImage heroImageId)))))).
      { apply keeps_when, keeps_bind; [apply keeps_call|]. intro heroImageId.
        apply keeps_when, keeps_bind.
        - apply keeps_update. intro p0. apply prop_set_other. reflexivity.
        - intros _. apply keeps_setMetaImage. reflexivity. }
      rewrite (Hk _ _ _ _ _ E0). exact Hp. }
    intros _ p w0 r0 p' w0' Hp E0.
    assert (Hrp : rootChildren p = JArr nodes).
    { unfold rootChildren in *. rewrite Hp. exact Hr. }
    rewrite (processMediaBlocks_compiled_unresolved Hnever p blocks nodes
               w0 r0 p' w0' Hrp Hall E0).
    exact Hp. }
  exact (Hlead s w r s' w' eq_refl E).
Qed.

End PlaceholderFacts.
Section SubmissionFacts.
Context {W : Type} {R : MathRandom W} {P : PayloadClient W}.

(** The nodes of the post compiled from an accepted request. *)
Lemma process_accepted_nodes :
  forall request (w : W),
    accepts request = true ->
    exists items fs nodes w',
      Js.prop request "blocks" = JArr items
      /\ processPostCreationRequest request w = (Val (JObj fs), w')
      /\ rootChildren (JObj fs) = JArr nodes
      /\ Forall2 (compiledFrom W) items nodes.
Proof.
  intros request w Ha.
  destruct (accepts_shape request Ha)
    as (Hn & (title & Ht) & (mfs & Hm) & (items & Hb & Hitems) & _).
  unfold processPostCreationRequest, StateExn.lift, Js.get.
  rewrite Hn, Ht, Hm, Hb. unfold StateExn.bind at 1.
  destruct (Js.truthy (Js.prop request "slug"));
    cbn [generateSlugOf]; unfold StateExn.bind at 1;
    unfold StateExn.bind at 1;
    unfold convertBlocksToLexical, StateExn.bind;
    destruct (convertEach_in_order items [] w Hitems)
      as (nodes & w' & E & Hall);
    rewrite E; unfold StateExn.ret;
    exists items; eexists; exists nodes, w';
    (split; [reflexivity|]); (split; [reflexivity|]);
    (split; [reflexivity | exact Hall]).
Qed.

(** An accepted request that passes the connection test is compiled,
    enriched and handed to [createPost]. *)
Lemma createPostFromJSON_submits :
  forall request (w : W) isConnected w1 postData w2 enhanced w3,
    accepts request = true ->
    testConnection w = (Val isConnected, w1) ->
    Js.truthy isConnected = true ->
    processPostCreationRequest request w1 = (Val postData, w2) ->
    enhancePostDataFromJSON postData request w2 = (Val enhanced, w3) ->
    createPostFromJSON request w
    = StateExn.try_catch (submit enhanced) reportError w3.
Proof.
  intros request w isConnected w1 postData w2 enhanced w3 Ha Et Hc Ep Ee.
  destruct (accepts_inv request Ha) as [Hi Hv].
  unfold createPostFromJSON, StateExn.try_catch, createPostBody.
  unfold StateExn.bind at 1. unfold StateExn.lift.
  rewrite (validate_inspectable request Hi), Hv. cbn [valid isNil negb].
  unfold StateExn.bind at 1. rewrite Et, Hc. cbn [negb].
  unfold StateExn.bind at 1. rewrite Ep.
  unfold StateExn.bind at 1. rewrite Ee.
  reflexivity.
Qed.

(** Enrichment is what comes before the media pass, then the media
    pass. *)
Lemma enhanceBody_steps :
  forall request (sw : JSValue * W),
    enhanceBody request sw
    = match beforeMedia request sw with
      | (Val _, sw') => processMediaBlocks sw'
      | (Throw e, sw') => (Throw e, sw')
      end.
Proof.
  intros request sw. unfold enhanceBody, beforeMedia, StateExn.bind.
  destruct (Mutation.call getDefaultAuthor sw) as [[authorId|e] sw1];
    [|reflexivity].
  destruct (StateExn.when (Js.truthy authorId) _ sw1) as [[[]|e] sw2];
    [|reflexivity].
  destruct (StateExn.lift (Js.get request "heroImage") sw2)
    as [[heroRequested|e] sw3]; [|reflexivity].
  destruct (StateExn.when (Js.truthy heroRequested) _ sw3) as [[[]|e] sw4];
    reflexivity.
Qed.

(** The post that enrichment returns is the one the media pass
    leaves. *)
Lemma enhance_after_media :
  forall postData request (w : W) post wm r post' w',
    beforeMedia request (spread postData, w) = (Val tt, (post, wm)) ->
    processMediaBlocks (post, wm) = (r, (post', w')) ->
    enhancePostDataFromJSON postData request w = (Val post', w').
Proof.
  intros postData request w post wm r post' w' Eb Em.
  unfold enhancePostDataFromJSON, StateExn.try_catch.
  rewrite enhanceBody_steps, Eb, Em.
  destruct r as [[]|e]; reflexivity.
Qed.

End SubmissionFacts.

(** A client over a library without media resolves nothing. *)
Lemma withoutMedia_neverResolves :
  forall (W : Type) (P : PayloadClient W), neverResolves (withoutMedia P).
Proof.
  intros W P w v w' E. cbn in E. unfold StateExn.ret in E.
  injection E as <- _. reflexivity.
Qed.

(** C9: a placeholder whose resolution gives no id stays, and is
    submitted.  First, the callback of the media pass leaves the
    placeholder in such a node, reports no error of its own and, for a
    node without children as compilation makes it, returns the very
    node it was given.  Second, the post that the media pass returns
    holds the node at its place, among as many nodes as before,
    whatever happens to the other nodes.  Third, enrichment always
    hands a post on to submission.  Fourth, in a run of the tool on an
    accepted request that passes the connection test, when enrichment
    reaches the media pass and the resolution made for a node gives no
    id, the post handed to [createPost] holds that node at its place,
    and the result of the tool is the one made of the answer of
    [createPost].  Fifth, under a client that resolves no media at all,
    the post handed to [createPost] has the very nodes that compilation
    made, placeholders included. *)
Theorem processMediaBlocks_keeps_unresolved_placeholder :
  forall (W : Type) (R : MathRandom W) (P : PayloadClient W),
    (forall node (w : W) v w1,
        isMediaPlaceholder node = true ->
        getRandomHeroImage w = (Val v, w1) ->
        Js.truthy v = false ->
        exists r node' w',
          processBlock node w = (r, (node', w'))
          /\ mediaOf node' = JStr "random"
          /\ (Js.isArray (Js.prop node "children") = false ->
              r = Val tt /\ node' = node /\ w' = w1))
    /\ (forall post nodes i node (w : W) ri pre wi v wi' r post' w',
           rootChildren post = JArr nodes ->
           nth_error nodes i = Some node ->
           isMediaPlaceholder node = true ->
           Js.isArray (Js.prop node "children") = false ->
           processBlocks (firstn i nodes) w = (ri, (pre, wi)) ->
           getRandomHeroImage wi = (Val v, wi') ->
           Js.truthy v = false ->
           processMediaBlocks (post, w) = (r, (post', w')) ->
           exists nodes',
             rootChildren post' = JArr nodes'
             /\ List.length nodes' = List.length nodes
             /\ nth_error nodes' i = Some node)
    /\ (forall postData request (w : W),
           exists enhanced w',
             enhancePostDataFromJSON postData request w = (Val enhanced, w'))
    /\ (forall request (w : W) isConnected w1 postData w2 post wm
               nodes i node ri pre wi v wi',
           accepts request = true ->
           testConnection w = (Val isConnected, w1) ->
           Js.truthy isConnected = true ->
           processPostCreationRequest request w1 = (Val postData, w2) ->
           beforeMedia request (spread postData, w2) = (Val tt, (post, wm)) ->
           rootChildren post = JArr nodes ->
           nth_error nodes i = Some node ->
           isMediaPlaceholder node = true ->
           Js.isArray (Js.prop node "children") = false ->
           processBlocks (firstn i nodes) wm = (ri, (pre, wi)) ->
           getRandomHeroImage wi = (Val v, wi') ->
           Js.truthy v = false ->
           exists enhanced w3 nodes',
             enhancePostDataFromJSON postData request w2 = (Val enhanced, w3)
             /\ rootChildren enhanced = JArr nodes'
             /\ List.length nodes' = List.length nodes
             /\ nth_error nodes' i = Some node
             /\ createPostFromJSON request w
                = StateExn.try_catch (submit enhanced) reportError w3)
    /\ (neverResolves P ->
        forall request (w : W) isConnected w1,
          accepts request = true ->
          testConnection w = (Val isConnected, w1) ->
          Js.truthy isConnected = true ->
          exists items nodes postData w2 enhanced w3,
            Js.prop request "blocks" = JArr items
            /\ Forall2 (compiledFrom W) items nodes
            /\ processPostCreationRequest request w1 = (Val postData, w2)
            /\ rootChildren postData = JArr nodes
            /\ enhancePostDataFromJSON postData request w2 = (Val enhanced, w3)
            /\ rootChildren enhanced = JArr nodes
            /\ createPostFromJSON request w
               = StateExn.try_catch (submit enhanced) reportError w3).
Proof.
  intros W R P. split; [|split; [|split; [|split]]].
  - intros node w v w1 Hp Eg Hv.
    destruct node as [| | | | | |fs]; try discriminate.
    assert (Hmedia : mediaOf (JObj fs) = JStr "random").
    { unfold isMediaPlaceholder in Hp.
      apply andb_true_iff in Hp. destruct Hp as [_ Hmedia].
      unfold mediaOf. destruct (Js.prop (Js.prop (JObj fs) "fields") "media");
        try discriminate.
      simpl in Hmedia. apply String.eqb_eq in Hmedia. congruence. }
    cbn [processBlock].
    rewrite (resolveMedia_unresolved fs w v w1 Hp Eg Hv).
    destruct (walkChildren processBlock fs w1) as [r [[cs'|] w2]] eqn:Ew.
    + eexists r, _, w2. split; [reflexivity|]. split.
      * unfold mediaOf in *. cbn [Js.prop] in *.
        rewrite assoc_set_assoc_other by reflexivity. exact Hmedia.
      * intro Hc. rewrite (walkChildren_none processBlock fs w1 Hc) in Ew.
        discriminate.
    + eexists r, _, w2. split; [reflexivity|]. split; [exact Hmedia|].
      intro Hc. rewrite (walkChildren_none processBlock fs w1 Hc) in Ew.
      injection Ew as <- <-. repeat split.
  - exact processMediaBlocks_holds_node.
  - intros. apply enhance_returns.
  - intros request w isConnected w1 postData w2 post wm nodes i node
           ri pre wi v wi' Ha Et Hc Ep Eb Hr Hi Hp Hch Epre Eg Hv.
    destruct (processMediaBlocks (post, wm)) as [r [post' w3]] eqn:Em.
    destruct (processMediaBlocks_holds_node post nodes i node wm ri pre wi
                v wi' r post' w3 Hr Hi Hp Hch Epre Eg Hv Em)
      as (nodes' & Hr' & Hlen & Hi').
    pose proof (enhance_after_media postData request w2 post wm r post' w3
                  Eb Em) as Ee.
    exists post', w3, nodes'.
    repeat (split; [assumption|]).
    exact (createPostFromJSON_submits request w isConnected w1
             postData w2 post' w3 Ha Et Hc Ep Ee).
  - intros Hnever request w isConnected w1 Ha Et Hc.
    destruct (process_accepted_nodes request w1 Ha)
      as (items & fs & nodes & w2 & Hb & Ep & Hr & Hall).
    destruct (enhance_returns (JObj fs) request w2) as (enhanced & w3 & Ee).
    exists items, nodes, (JObj fs), w2, enhanced, w3.
    repeat (split; [assumption|]).
    split; [|exact (createPostFromJSON_submits request w isConnected w1
                      (JObj fs) w2 enhanced w3 Ha Et Hc Ep Ee)].
    assert (Hcontent : Js.prop enhanced "content" = Js.prop (JObj fs) "content").
    { unfold enhancePostDataFromJSON, StateExn.try_catch in Ee.
      cbn [spread] in Ee.
      destruct (enhanceBody request (JObj fs, w2)) as [r [s' w']] eqn:Eb.
      pose proof (enhanceBody_compiled_unresolved Hnever request items nodes
                    (JObj fs) w2 r s' w' Hr Hall Eb) as Hk.
      destruct r as [[]|e]; unfold StateExn.ret in Ee;
        injection Ee as <- _; exact Hk. }
    unfold rootChildren in *. rewrite Hcontent. exact Hr.
Qed.

(** The request ["Docker Best Practices!"], with its media block, run
    by a client of the service that holds no media: the resolution
    made for the media node gives [null], and the post handed to
    [createPost] holds the node with its placeholder. *)
Lemma processMediaBlocks_keeps_unresolved_placeholder_witness :
  let w := InMemory.client InMemory.empty in
  accepts mediaRequest = true
  /\ fst (testConnection w) = Val (JBool true)
  /\ exists enhanced w3 nodes' node,
       rootChildren enhanced = JArr nodes'
       /\ nth_error nodes' 1 = Some node
       /\ isMediaPlaceholder node = true
       /\ createPostFromJSON mediaRequest w
          = StateExn.try_catch (submit enhanced) reportError w3.
Proof.
  intro w. split; [reflexivity|]. split; [reflexivity|].
  set (w1 := snd (testConnection w)).
  set (compiled := processPostCreationRequest mediaRequest w1).
  set (postData := match fst compiled with Val p => p | Throw _ => JNull end).
  set (before := beforeMedia mediaRequest (spread postData, snd compiled)).
  set (post := fst (snd before)).
  set (wm := snd (snd before)).
  set (nodes := match rootChildren post with JArr ns => ns | _ => [] end).
  set (node := nth 1 nodes JNull).
  set (walk := processBlocks (firstn 1 nodes) wm).
  set (wi := snd (snd walk)).
  assert (Et : testConnection w = (Val (JBool true), w1))
    by (vm_compute; reflexivity).
  assert (Ep : processPostCreationRequest mediaRequest w1
               = (Val postData, snd compiled)) by (vm_compute; reflexivity).
  assert (Eb : beforeMedia mediaRequest (spread postData, snd compiled)
               = (Val tt, (post, wm))) by (vm_compute; reflexivity).
  assert (Hr : rootChildren post = JArr nodes) by (vm_compute; reflexivity).
  assert (Hi : nth_error nodes 1 = Some node) by (vm_compute; reflexivity).
  assert (Hp : isMediaPlaceholder node = true) by (vm_compute; reflexivity).
  assert (Hch : Js.isArray (Js.prop node "children") = false)
    by (vm_compute; reflexivity).
  assert (Epre : processBlocks (firstn 1 nodes) wm
                 = (fst walk, (fst (snd walk), wi))) by (vm_compute; reflexivity).
  assert (Eg : getRandomHeroImage wi = (Val JNull, snd (getRandomHeroImage wi)))
    by (vm_compute; reflexivity).
  destruct (proj1 (proj2 (proj2 (proj2
              (processMediaBlocks_keeps_unresolved_placeholder
                 (Client Service) _ _))))
              mediaRequest w (JBool true) w1 postData (snd compiled) post wm
              nodes 1 node _ _ wi JNull _
              eq_refl Et eq_refl Ep Eb Hr Hi Hp Hch Epre Eg eq_refl)
    as (enhanced & w3 & nodes' & Ee & Hr' & Hlen & Hi' & Erun).
  exists enhanced, w3, nodes', node.
  split; [exact Hr'|]. split; [exact Hi'|]. split; [exact Hp | exact Erun].
Defined.

(** ** The validator as a whole *)




(** The same happens on [undefined] and on a [null] among the blocks. *)
Example validate_throws_on_undefined_and_null_block :
  returns (validatePostCreationRequest JUndefined) = false
  /\ returns (validatePostCreationRequest
                (JObj [("title", JStr "T"); ("blocks", JArr [JNull])])) = false.
Proof. split; reflexivity. Qed.

(** An input that breaks four checks gets the message of each. *)
Example validate_reports_every_violation :
  validatePostCreationRequest
    (JObj [("blocks",
             JArr [JNum 1;
                   JObj [("type", JStr "code"); ("content", JStr "x");
                         ("metadata", JObj [("language", JStr "rust")])]]);
           ("heroImage", JStr "yes")])
  = Val (mkValidation false
           ["title is required and must be a non-empty string";
            "meta is required and must be an object";
            "blocks[0].type is required and must be a string";
            "blocks[0].content is required and must be a string";
            "blocks[1].metadata.language must be one of: typescript, javascript, css, html, python, bash, json, yaml, dockerfile, sql, markdown, xml";
            "heroImage must be a boolean if provided"]).
Proof. reflexivity. Qed.

(** Falsy values of the optional fields count as not provided: the
    empty slug, the empty string for the categories, the number 0 for
    the hero image and for the level of a heading are all accepted. *)
Example validate_takes_falsy_for_absent :
  validatePostCreationRequest
    (JObj [("title", JStr "T");
           ("meta", JObj [("title", JStr "T"); ("description", JStr "D")]);
           ("blocks",
             JArr [JObj [("type", JStr "heading"); ("content", JStr "H");
                         ("metadata", JObj [("level", JNum 0)])]]);
           ("slug", JStr EmptyString);
           ("categories", JStr EmptyString);
           ("heroImage", JNum 0)])
  = Val (mkValidation true []).
Proof. reflexivity. Qed.

(** ** Witnesses and counterexamples on the in-memory service *)

(** The request of [test], compiled and enriched by a client of the
    empty service. *)
Lemma pipeline_status_is_draft_witness :
  accepts testRequest = true
  /\ exists postData w1,
       processPostCreationRequest testRequest (InMemory.client InMemory.empty)
       = (Val postData, w1)
       /\ Js.prop postData "_status" = JStr "draft"
       /\ forall w2 : Client Service,
            exists enhanced w3,
              enhancePostDataFromJSON postData testRequest w2 = (Val enhanced, w3)
              /\ Js.prop enhanced "_status" = JStr "draft".
Proof.
  split; [reflexivity|].
  destruct (pipeline_status_is_draft (Client Service) _ _ testRequest
              (InMemory.client InMemory.empty))
    as (Hreturns & Hdraft & _).
  destruct (Hreturns eq_refl) as (postData & w1 & E).
  exists postData, w1. split; [exact E|]. exact (Hdraft postData w1 E).
Defined.

(** Five blocks, five nodes. *)
Lemma convertBlocksToLexical_one_node_per_block_witness :
  existsb Js.nullish mixedBlocks = false
  /\ exists doc children w',
       convertBlocksToLexical (JArr mixedBlocks) InMemory.empty = (Val doc, w')
       /\ Js.prop (Js.prop doc "root") "children" = JArr children
       /\ List.length children = List.length mixedBlocks
       /\ forall i block,
            nth_error mixedBlocks i = Some block ->
            exists node,
              nth_error children i = Some node
              /\ exists w0 w1 : Service, convertBlock block w0 = (Val node, w1).
Proof.
  split; [reflexivity|].
  apply (convertBlocksToLexical_one_node_per_block Service _ mixedBlocks
           InMemory.empty).
  reflexivity.
Defined.

(** The block of type ["quote"] becomes the fourth node, a paragraph. *)
Lemma convertBlocksToLexical_unknown_type_witness :
  existsb Js.nullish mixedBlocks = false
  /\ nth_error mixedBlocks 3
     = Some (JObj [("type", JStr "quote"); ("content", JStr "Less is more.")])
  /\ Js.includes blockTypes (JStr "quote") = false
  /\ exists doc children w',
       convertBlocksToLexical (JArr mixedBlocks) InMemory.empty = (Val doc, w')
       /\ Js.prop (Js.prop doc "root") "children" = JArr children
       /\ nth_error children 3 = Some (createParagraph (JStr "Less is more.")).
Proof.
  split; [reflexivity|]. split; [reflexivity|]. split; [reflexivity|].
  destruct (convertBlocksToLexical_unknown_type Service _ mixedBlocks
              InMemory.empty eq_refl)
    as (doc & children & w' & E & Hc & _ & Hat).
  exists doc, children, w'. split; [exact E|]. split; [exact Hc|].
  exact (proj1 (Hat 3 _ eq_refl eq_refl)).
Defined.

(** A code block in ["rust"] is compiled with the default language. *)
Lemma convertBlock_code_language_witness :
  let block := JObj [("type", JStr "code"); ("content", JStr "fn main() {}");
                     ("metadata", JObj [("language", JStr "rust")])] in
  Js.prop block "type" = JStr "code"
  /\ Js.includes allowedLanguages (JStr "rust") = false
  /\ exists node w',
       convertBlock block InMemory.empty = (Val node, w')
       /\ languageOf node = JStr "javascript"
       /\ languageOf node <> JStr "rust".
Proof.
  intro block. split; [reflexivity|]. split; [reflexivity|].
  destruct (convertBlock_code_language Service _ block InMemory.empty eq_refl)
    as (node & w' & E & _ & _ & Hout).
  exists node, w'. split; [exact E|]. exact (Hout eq_refl).
Defined.

(** C5, as stated, fails on the request of [test]: the request asks for
    a hero image and is accepted, the compiled submission carries the
    placeholder in [heroImage], and its [meta] has no [image]. *)
Lemma process_meta_image_not_populated :
  accepts testRequest = true
  /\ Js.prop testRequest "heroImage" = JBool true
  /\ exists postData w',
       processPostCreationRequest testRequest InMemory.empty = (Val postData, w')
       /\ Js.prop postData "heroImage" = JStr "random"
       /\ Js.prop (Js.prop postData "meta") "image" = JUndefined
       /\ Js.prop (Js.prop postData "meta") "image" <> Js.prop postData "heroImage".
Proof.
  split; [reflexivity|]. split; [reflexivity|].
  destruct (processPostCreationRequest testRequest InMemory.empty)
    as [r w'] eqn:E.
  vm_compute in E. injection E as <- <-.
  do 2 eexists. split; [reflexivity|].
  split; [reflexivity|]. split; [reflexivity | discriminate].
Qed.

(** The request of [test] asks for a hero image. *)
Lemma process_heroImage_placeholder_witness :
  accepts testRequest = true
  /\ exists postData w1,
       processPostCreationRequest testRequest (InMemory.client InMemory.empty)
       = (Val postData, w1)
       /\ Js.prop (Js.prop postData "meta") "image" = JUndefined
       /\ (Js.truthy (Js.prop testRequest "heroImage") = true ->
           Js.prop postData "heroImage" = JStr "random")
       /\ (Js.truthy (Js.prop testRequest "heroImage") = false ->
           Js.prop postData "heroImage" = JUndefined).
Proof.
  split; [reflexivity|].
  destruct (process_heroImage_placeholder (Client Service) _ _ testRequest
              (InMemory.client InMemory.empty) eq_refl)
    as (postData & w1 & E & Hm & Ht & Hf & _).
  exists postData, w1. split; [exact E|]. split; [exact Hm|].
  split; [exact Ht | exact Hf].
Defined.

(** ** The session of the client *)

(** Case analysis on every call and test that a run went through. *)
Ltac run_cases E :=
  repeat (cbv beta iota zeta in E;
          match type of E with
          | context [match ?x with _ => _ end] =>
              lazymatch x with
              | context [match _ with _ => _ end] => fail
              | _ => let Hx := fresh "Hx" in destruct x eqn:Hx
              end
          end).

Ltac unfold_monad_in E :=
  unfold StateExn.bind, StateExn.gets, StateExn.try_catch, StateExn.ret,
    StateExn.throw, StateExn.lift, StateExn.modify, StateExn.when,
    PayloadCMSClient.doFetch in E;
  cbn [config authToken net fst snd] in E.

Section SessionFacts.
Context {B : Type} {H : Http B} {R : MathRandom B}.

Lemma getAuthToken_outcome :
  forall (c : Client B) r c',
    PayloadCMSClient.getAuthToken c = (r, c') ->
    config c' = config c
    /\ match r with
       | Val token => Js.truthy token = true /\ authToken c' = token
       | Throw _ => authToken c' = authToken c
       end.
Proof.
  intros c r c' E. unfold PayloadCMSClient.getAuthToken in E.
  unfold_monad_in E. run_cases E;
    injection E as <- <-; cbn [config authToken]; auto.
  repeat split. apply negb_false_iff. assumption.
Qed.

Lemma ensureAuthenticated_outcome :
  forall (c : Client B) r c',
    PayloadCMSClient.ensureAuthenticated c = (r, c') ->
    config c' = config c
    /\ match r with
       | Val _ => Js.truthy (authToken c') = true
       | Throw _ => authToken c' = authToken c
       end.
Proof.
  intros c r c' E. unfold PayloadCMSClient.ensureAuthenticated in E.
  unfold StateExn.bind at 1, StateExn.gets in E.
  destruct (Js.truthy (authToken c)) eqn:Ht; cbn [negb] in E.
  - unfold StateExn.ret in E. injection E as <- <-. auto.
  - unfold StateExn.bind in E.
    destruct (PayloadCMSClient.getAuthToken c) as [[t|e] c1] eqn:Eg;
      destruct (getAuthToken_outcome c _ _ Eg) as [Hc Ho].
    + unfold StateExn.ret in E. injection E as <- <-.
      destruct Ho as [Ho1 Ho2]. rewrite Ho2. auto.
    + injection E as <- <-. auto.
Qed.

Lemma getAuthToken_cached :
  forall c : Client B,
    Js.truthy (authToken c) = true ->
    PayloadCMSClient.getAuthToken c = (Val (authToken c), c).
Proof.
  intros c Ht.
  unfold PayloadCMSClient.getAuthToken, StateExn.bind, StateExn.gets.
  rewrite Ht. reflexivity.
Qed.

(** What [makeRequest] does once the token is there. *)
Lemma makeRequest_authenticated :
  forall endpoint method body (c : Client B),
    Js.truthy (authToken c) = true ->
    PayloadCMSClient.makeRequest endpoint method body c
    = match fetch (apiRequest (config c) (authToken c) endpoint method body)
                  (net c) with
      | (Val response, b') =>
          if ok response then (Val response, onNet c b')
          else (Throw (Error (requestFailed response)), onNet c b')
      | (Throw e, b') => (Throw e, onNet c b')
      end.
Proof.
  intros endpoint method body c Ht.
  unfold PayloadCMSClient.makeRequest. unfold StateExn.bind at 1.
  rewrite (getAuthToken_cached c Ht).
  unfold StateExn.bind, StateExn.gets, PayloadCMSClient.doFetch,
    StateExn.throw, StateExn.ret, apiRequest, onNet, requestFailed.
  destruct (fetch _ (net c)) as [[response|e] b']; [|reflexivity].
  destruct (ok response); reflexivity.
Qed.

Lemma makeRequest_outcome :
  forall endpoint method body (c : Client B) r c',
    PayloadCMSClient.makeRequest endpoint method body c = (r, c') ->
    config c' = config c
    /\ match r with
       | Val response => Js.truthy (authToken c') = true /\ ok response = true
       | Throw _ => Js.truthy (authToken c) = true ->
                    authToken c' = authToken c
       end.
Proof.
  intros endpoint method body c r c' E.
  destruct (Js.truthy (authToken c)) eqn:Ht.
  - rewrite (makeRequest_authenticated endpoint method body c Ht) in E.
    destruct (fetch _ (net c)) as [[response|e] b'].
    + destruct (ok response) eqn:Hok; injection E as <- <-;
        cbn [onNet config authToken]; auto.
    + injection E as <- <-. cbn [onNet config authToken]. auto.
  - unfold PayloadCMSClient.makeRequest in E. unfold StateExn.bind at 1 in E.
    destruct (PayloadCMSClient.getAuthToken c) as [[t|e] c1] eqn:Eg;
      destruct (getAuthToken_outcome c _ _ Eg) as [Hc Ho].
    + destruct Ho as [Htok Ha].
      assert (Ht1 : Js.truthy (authToken c1) = true) by (rewrite Ha; exact Htok).
      assert (E' : PayloadCMSClient.makeRequest endpoint method body c1 = (r, c')).
      { unfold PayloadCMSClient.makeRequest. unfold StateExn.bind at 1.
        rewrite (getAuthToken_cached c1 Ht1), Ha. exact E. }
      rewrite (makeRequest_authenticated endpoint method body c1 Ht1) in E'.
      destruct (fetch _ (net c1)) as [[response|e] b'].
      * destruct (ok response) eqn:Hok; injection E' as <- <-;
          cbn [onNet config authToken]; split; auto; discriminate.
      * injection E' as <- <-. cbn [onNet config authToken].
        split; [exact Hc | discriminate].
    + injection E as <- <-. split; [exact Hc | discriminate].
Qed.

(** A login answered with a status that is not ok. *)
Lemma getAuthToken_refused :
  forall (c : Client B) response b',
    Js.truthy (authToken c) = false ->
    fetch (loginRequest (config c)) (net c) = (Val response, b') ->
    ok response = false ->
    PayloadCMSClient.getAuthToken c
    = (Throw (Error (authenticationFailed response)), onNet c b').
Proof.
  intros c response b' Ht Ef Hok.
  unfold PayloadCMSClient.getAuthToken, StateExn.bind, StateExn.gets,
    StateExn.try_catch, PayloadCMSClient.doFetch, StateExn.throw.
  rewrite Ht. cbn [config net authToken].
  unfold loginRequest in Ef. rewrite Ef. cbn [config net authToken].
  rewrite Hok. reflexivity.
Qed.

End SessionFacts.

(** X1: a token is fetched once.  When [getAuthToken] returns a token,
    the client holds it, and the next call returns the same token and
    leaves the client and the network as they are. *)
Theorem getAuthToken_caches :
  forall (B : Type) (H : Http B) (c : Client B) token c',
    PayloadCMSClient.getAuthToken c = (Val token, c') ->
    authToken c' = token
    /\ Js.truthy token = true
    /\ PayloadCMSClient.getAuthToken c' = (Val token, c').
Proof.
  intros B H c token c' E.
  destruct (getAuthToken_outcome c _ _ E) as [_ [Ht Ha]].
  split; [exact Ha|]. split; [exact Ht|].
  unfold PayloadCMSClient.getAuthToken, StateExn.bind, StateExn.gets.
  rewrite Ha, Ht. reflexivity.
Qed.

Lemma getAuthToken_caches_witness :
  let c := InMemory.client InMemory.empty in
  PayloadCMSClient.getAuthToken c
  = (Val (JStr "session-token"), mkClient InMemory.cfg (JStr "session-token") InMemory.empty)
  /\ PayloadCMSClient.getAuthToken
       (mkClient InMemory.cfg (JStr "session-token") InMemory.empty)
     = (Val (JStr "session-token"),
        mkClient InMemory.cfg (JStr "session-token") InMemory.empty).
Proof.
  intro c.
  assert (E : PayloadCMSClient.getAuthToken c
              = (Val (JStr "session-token"),
                 mkClient InMemory.cfg (JStr "session-token") InMemory.empty))
    by (vm_compute; reflexivity).
  split; [exact E|].
  exact (proj2 (proj2 (getAuthToken_caches Service _ c _ _ E))).
Defined.

(** X2: a login that fails caches nothing.  When [getAuthToken] throws,
    the token and the configuration of the client are what they were;
    and a login answered with a status that is not ok throws the error
    "Authentication failed: <status> <statusText> - <body>". *)
Theorem getAuthToken_failure_keeps_state :
  forall (B : Type) (H : Http B) (c : Client B),
    (forall e c',
        PayloadCMSClient.getAuthToken c = (Throw e, c') ->
        authToken c' = authToken c /\ config c' = config c)
    /\ (forall response b',
           Js.truthy (authToken c) = false ->
           fetch (loginRequest (config c)) (net c) = (Val response, b') ->
           ok response = false ->
           PayloadCMSClient.getAuthToken c
           = (Throw (Error (authenticationFailed response)), onNet c b')).
Proof.
  intros B H c. split.
  - intros e c' E. destruct (getAuthToken_outcome c _ _ E) as [Hc Ha]. auto.
  - intros response b' Ht Ef Hok.
    exact (getAuthToken_refused c response b' Ht Ef Hok).
Qed.

Lemma getAuthToken_failure_keeps_state_witness :
  let c := mkClient (mkConfig "http://elsewhere:3000" "demo-author@example.com" "password")
                    JNull stocked in
  fetch (loginRequest (config c)) (net c) = (Val InMemory.notFound, stocked)
  /\ PayloadCMSClient.getAuthToken c
     = (Throw (Error (authenticationFailed InMemory.notFound)), c)
  /\ forall e c',
       PayloadCMSClient.getAuthToken c = (Throw e, c') ->
       authToken c' = authToken c /\ config c' = config c.
Proof.
  intro c.
  assert (Ef : fetch (loginRequest (config c)) (net c)
               = (Val InMemory.notFound, stocked)) by (vm_compute; reflexivity).
  destruct (getAuthToken_failure_keeps_state Service _ c) as [Hkeep Hfail].
  split; [exact Ef|]. split; [|exact Hkeep].
  exact (Hfail _ _ eq_refl Ef eq_refl).
Defined.
(** ** The read path, the write path and the probe *)

Section RequestFacts.
Context {B : Type} {H : Http B} {R : MathRandom B}.

Lemma listDocs_outcome :
  forall endpoint (c : Client B),
  exists docs c',
    PayloadCMSClient.listDocs endpoint c = (Val docs, c')
    /\ Js.truthy docs = true
    /\ config c' = config c.
Proof.
  intros endpoint c. unfold PayloadCMSClient.listDocs, StateExn.try_catch.
  match goal with
  | |- context [match ?body c with _ => _ end] =>
      destruct (body c) as [[docs|e] c'] eqn:E
  end.
  - exists docs, c'. split; [reflexivity|].
    unfold StateExn.bind at 1 in E.
    destruct (PayloadCMSClient.ensureAuthenticated c) as [[[]|e] c1] eqn:Ea;
      [|discriminate].
    destruct (ensureAuthenticated_outcome c _ _ Ea) as [Hc1 _].
    unfold StateExn.bind at 1 in E.
    destruct (PayloadCMSClient.makeRequest endpoint "GET" JUndefined c1)
      as [[response|e] c2] eqn:Em; [|discriminate].
    destruct (makeRequest_outcome _ _ _ c1 _ _ Em) as [Hc2 _].
    unfold StateExn.bind, StateExn.lift, StateExn.ret in E.
    destruct (json response) as [result|e]; [|discriminate].
    destruct (Js.get result "docs") as [d|e]; [|discriminate].
    injection E as <- <-. split; [|congruence].
    unfold Js.or. destruct (Js.truthy d) eqn:Hd; [exact Hd | reflexivity].
  - unfold StateExn.ret. exists (JArr []), c'. split; [reflexivity|].
    split; [reflexivity|].
    unfold StateExn.bind at 1 in E.
    destruct (PayloadCMSClient.ensureAuthenticated c) as [[[]|e0] c1] eqn:Ea.
    + destruct (ensureAuthenticated_outcome c _ _ Ea) as [Hc1 _].
      unfold StateExn.bind at 1 in E.
      destruct (PayloadCMSClient.makeRequest endpoint "GET" JUndefined c1)
        as [[response|e1] c2] eqn:Em.
      * destruct (makeRequest_outcome _ _ _ c1 _ _ Em) as [Hc2 _].
        unfold StateExn.bind, StateExn.lift, StateExn.ret in E.
        destruct (json response) as [result|e2];
          [destruct (Js.get result "docs") as [d|e3]|];
          try discriminate; injection E as _ <-; congruence.
      * destruct (makeRequest_outcome _ _ _ c1 _ _ Em) as [Hc2 _].
        injection E as _ <-. congruence.
    + destruct (ensureAuthenticated_outcome c _ _ Ea) as [Hc1 _].
      injection E as _ <-. exact Hc1.
Qed.

End RequestFacts.

(** X3: the read path never throws.  [getMedia], [getUsers],
    [getCategories] and [getPosts] return a truthy value on every
    client and every network -- the [docs] of the answer, or the empty
    array -- and leave the configuration alone. *)
Theorem listings_never_throw :
  forall (B : Type) (H : Http B) (c : Client B),
    (exists docs c', PayloadCMSClient.getMedia c = (Val docs, c')
                     /\ Js.truthy docs = true /\ config c' = config c)
    /\ (exists docs c', PayloadCMSClient.getUsers c = (Val docs, c')
                        /\ Js.truthy docs = true /\ config c' = config c)
    /\ (exists docs c', PayloadCMSClient.getCategories c = (Val docs, c')
                        /\ Js.truthy docs = true /\ config c' = config c)
    /\ (exists docs c', PayloadCMSClient.getPosts c = (Val docs, c')
                        /\ Js.truthy docs = true /\ config c' = config c).
Proof.
  intros B H c. repeat split; apply listDocs_outcome.
Qed.

(** X4: a listing that cannot be fetched is the empty array.  When the
    client holds a token and the service answers the listing with a
    status that is not ok, or the network rejects the request, the
    listing is [[]]. *)
Theorem listing_failure_is_empty :
  forall (B : Type) (H : Http B) (c : Client B) endpoint outcome b',
    Js.truthy (authToken c) = true ->
    fetch (apiRequest (config c) (authToken c) endpoint "GET" JUndefined) (net c)
    = (outcome, b') ->
    match outcome with Val response => ok response = false | Throw _ => True end ->
    PayloadCMSClient.listDocs endpoint c = (Val (JArr []), onNet c b').
Proof.
  intros B H c endpoint outcome b' Ht Ef Hbad.
  unfold PayloadCMSClient.listDocs, StateExn.try_catch.
  unfold StateExn.bind at 1.
  unfold PayloadCMSClient.ensureAuthenticated. unfold StateExn.bind at 1.
  unfold StateExn.gets. rewrite Ht. cbn [negb]. unfold StateExn.ret at 1.
  unfold StateExn.bind at 1.
  rewrite (makeRequest_authenticated endpoint "GET" JUndefined c Ht), Ef.
  destruct outcome as [response|e].
  - rewrite Hbad. reflexivity.
  - reflexivity.
Qed.

Lemma listing_failure_is_empty_witness :
  let c := mkClient InMemory.cfg (JStr "session-token") InMemory.empty in
  fetch (apiRequest (config c) (authToken c) "/tags?limit=10" "GET" JUndefined)
        (net c)
  = (Val InMemory.notFound, InMemory.empty)
  /\ PayloadCMSClient.listDocs "/tags?limit=10" c = (Val (JArr []), c).
Proof.
  intro c.
  assert (Ef : fetch (apiRequest (config c) (authToken c) "/tags?limit=10"
                        "GET" JUndefined) (net c)
               = (Val InMemory.notFound, InMemory.empty))
    by (vm_compute; reflexivity).
  split; [exact Ef|].
  exact (listing_failure_is_empty Service _ c "/tags?limit=10" _ _
           eq_refl Ef eq_refl).
Defined.

Section ProbeFacts.
Context {B : Type} {H : Http B}.

(** The probe answers, and keeps the configuration. *)
Lemma testConnection_returns :
  forall c : Client B,
  exists connected c',
    PayloadCMSClient.testConnection c = (Val (JBool connected), c')
    /\ config c' = config c.
Proof.
  intro c. unfold PayloadCMSClient.testConnection, StateExn.try_catch.
  match goal with
  | |- context [match ?body c with _ => _ end] =>
      destruct (body c) as [[v|e] c'] eqn:E
  end.
  - unfold StateExn.bind at 1 in E.
    destruct (PayloadCMSClient.ensureAuthenticated c) as [[[]|e] c1] eqn:Ea;
      [|discriminate].
    destruct (ensureAuthenticated_outcome c _ _ Ea) as [Hc1 _].
    unfold StateExn.bind in E.
    destruct (PayloadCMSClient.makeRequest "/posts?limit=1" "GET" JUndefined c1)
      as [[response|e] c2] eqn:Em; [|discriminate].
    destruct (makeRequest_outcome _ _ _ c1 _ _ Em) as [Hc2 _].
    unfold StateExn.ret in E. injection E as <- <-.
    exists true, c2. split; [reflexivity | congruence].
  - unfold StateExn.ret. exists false, c'. split; [reflexivity|].
    unfold StateExn.bind at 1 in E.
    destruct (PayloadCMSClient.ensureAuthenticated c) as [[[]|e0] c1] eqn:Ea.
    + destruct (ensureAuthenticated_outcome c _ _ Ea) as [Hc1 _].
      unfold StateExn.bind in E.
      destruct (PayloadCMSClient.makeRequest "/posts?limit=1" "GET" JUndefined c1)
        as [[response|e1] c2] eqn:Em.
      * discriminate.
      * destruct (makeRequest_outcome _ _ _ c1 _ _ Em) as [Hc2 _].
        injection E as _ <-. congruence.
    + destruct (ensureAuthenticated_outcome c _ _ Ea) as [Hc1 _].
      injection E as _ <-. exact Hc1.
Qed.

End ProbeFacts.

(** X5: [testConnection] answers with a boolean and never throws; when
    it answers [true] the client holds a token. *)
Theorem testConnection_is_boolean :
  forall (B : Type) (H : Http B) (c : Client B),
  exists connected c',
    PayloadCMSClient.testConnection c = (Val (JBool connected), c')
    /\ config c' = config c
    /\ (connected = true -> Js.truthy (authToken c') = true).
Proof.
  intros B H c.
  destruct (testConnection_returns c) as (connected & c' & E & Hc).
  exists connected, c'. split; [exact E|]. split; [exact Hc|].
  intros ->.
  unfold PayloadCMSClient.testConnection, StateExn.try_catch in E.
  unfold StateExn.bind at 1 in E.
  destruct (PayloadCMSClient.ensureAuthenticated c) as [[[]|e] c1] eqn:Ea;
    [|discriminate].
  unfold StateExn.bind in E.
  destruct (PayloadCMSClient.makeRequest "/posts?limit=1" "GET" JUndefined c1)
    as [[response|e] c2] eqn:Em; [|discriminate].
  destruct (makeRequest_outcome _ _ _ c1 _ _ Em) as [_ [Hauth _]].
  unfold StateExn.ret in E. injection E as <-. auto.
Qed.

(** X6: the write path reports its failure.  With a token at hand, a
    post that the service refuses makes [createPost] throw the error
    "API request failed: <status> <statusText> - <body>", and a
    category that the service refuses makes [createCategory] return
    [null]. *)
Theorem refused_creation :
  forall (B : Type) (H : Http B) (c : Client B),
    Js.truthy (authToken c) = true ->
    (forall postData response b',
        fetch (apiRequest (config c) (authToken c) "/posts" "POST" postData)
              (net c) = (Val response, b') ->
        ok response = false ->
        PayloadCMSClient.createPost postData c
        = (Throw (Error (requestFailed response)), onNet c b'))
    /\ (forall title response b',
           fetch (apiRequest (config c) (authToken c) "/categories" "POST"
                    (JObj [("title", JStr title);
                           ("slug", JStr (categorySlug title))]))
                 (net c) = (Val response, b') ->
           ok response = false ->
           PayloadCMSClient.createCategory title c = (Val JNull, onNet c b')).
Proof.
  intros B H c Ht. split.
  - intros postData response b' Ef Hok.
    unfold PayloadCMSClient.createPost, StateExn.try_catch.
    unfold StateExn.bind at 1.
    unfold PayloadCMSClient.ensureAuthenticated. unfold StateExn.bind at 1.
    unfold StateExn.gets. rewrite Ht. cbn [negb]. unfold StateExn.ret at 1.
    unfold StateExn.bind at 1.
    rewrite (makeRequest_authenticated "/posts" "POST" postData c Ht), Ef, Hok.
    reflexivity.
  - intros title response b' Ef Hok.
    unfold PayloadCMSClient.createCategory, StateExn.try_catch.
    unfold StateExn.bind at 1.
    unfold PayloadCMSClient.ensureAuthenticated. unfold StateExn.bind at 1.
    unfold StateExn.gets. rewrite Ht. cbn [negb]. unfold StateExn.ret at 1.
    unfold StateExn.bind at 1.
    rewrite (makeRequest_authenticated "/categories" "POST" _ c Ht), Ef, Hok.
    reflexivity.
Qed.

Lemma refused_creation_witness :
  let c := mkClient InMemory.cfg (JStr "session-token") InMemory.broken in
  Js.truthy (authToken c) = true
  /\ fetch (apiRequest (config c) (authToken c) "/posts" "POST" (JObj []))
           (net c) = (Val InMemory.serverError, InMemory.broken)
  /\ PayloadCMSClient.createPost (JObj []) c
     = (Throw (Error (requestFailed InMemory.serverError)), c).
Proof.
  intro c. split; [reflexivity|].
  assert (Ef : fetch (apiRequest (config c) (authToken c) "/posts" "POST" (JObj []))
                     (net c) = (Val InMemory.serverError, InMemory.broken))
    by (vm_compute; reflexivity).
  split; [exact Ef|].
  exact (proj1 (refused_creation Service _ c eq_refl) (JObj []) _ _ Ef eq_refl).
Defined.

(** X7: [createCategory] never throws, and it answers [null] whenever
    the client is left without a token. *)
Theorem createCategory_never_throws :
  forall (B : Type) (H : Http B) (title : string) (c : Client B),
  exists category c',
    PayloadCMSClient.createCategory title c = (Val category, c')
    /\ config c' = config c
    /\ (Js.truthy (authToken c') = false -> category = JNull).
Proof.
  intros B H title c. unfold PayloadCMSClient.createCategory, StateExn.try_catch.
  match goal with
  | |- context [match ?body c with _ => _ end] =>
      destruct (body c) as [[v|e] c'] eqn:E
  end.
  - exists v, c'. split; [reflexivity|].
    unfold StateExn.bind at 1 in E.
    destruct (PayloadCMSClient.ensureAuthenticated c) as [[[]|e] c1] eqn:Ea;
      [|discriminate].
    destruct (ensureAuthenticated_outcome c _ _ Ea) as [Hc1 _].
    unfold StateExn.bind at 1 in E.
    match type of E with
    | context [PayloadCMSClient.makeRequest ?a ?b ?d c1] =>
        destruct (PayloadCMSClient.makeRequest a b d c1)
          as [[response|e] c2] eqn:Em; [|discriminate];
        destruct (makeRequest_outcome _ _ _ c1 _ _ Em) as [Hc2 [Hauth _]]
    end.
    unfold StateExn.bind, StateExn.lift, StateExn.ret in E.
    destruct (json response) as [category|e]; [|discriminate].
    injection E as <- <-. split; [congruence|].
    intro Hn. rewrite Hauth in Hn. discriminate.
  - unfold StateExn.ret. exists JNull, c'. split; [reflexivity|].
    split; [|reflexivity].
    unfold StateExn.bind at 1 in E.
    destruct (PayloadCMSClient.ensureAuthenticated c) as [[[]|e0] c1] eqn:Ea.
    + destruct (ensureAuthenticated_outcome c _ _ Ea) as [Hc1 _].
      unfold StateExn.bind at 1 in E.
      match type of E with
      | context [PayloadCMSClient.makeRequest ?a ?b ?d c1] =>
          destruct (PayloadCMSClient.makeRequest a b d c1)
            as [[response|e1] c2] eqn:Em;
          destruct (makeRequest_outcome _ _ _ c1 _ _ Em) as [Hc2 _]
      end.
      * unfold StateExn.bind, StateExn.lift, StateExn.ret in E.
        destruct (json response) as [category|e2]; [discriminate|].
        injection E as _ <-. congruence.
      * injection E as _ <-. congruence.
    + destruct (ensureAuthenticated_outcome c _ _ Ea) as [Hc1 _].
      injection E as _ <-. exact Hc1.
Qed.

(** ** Identities, credentials and categories *)

(** X8: the author that [getDefaultAuthor] returns is [null] or an
    identifier of 24 hexadecimal digits, never a malformed one. *)
Theorem getDefaultAuthor_null_or_valid :
  forall (B : Type) (H : Http B) (c : Client B) id c',
    PayloadCMSClient.getDefaultAuthor c = (Val id, c') ->
    id = JNull \/ isValidObjectId id = true.
Proof.
  intros B H c id c' E. unfold PayloadCMSClient.getDefaultAuthor in E.
  do 4 step_call E.
  match type of E with
  | context [if ?b then _ else _] => destruct b eqn:Hadmin
  end.
  - unfold StateExn.ret in E. injection E as <- _.
    right. apply andb_true_iff in Hadmin. exact (proj2 Hadmin).
  - step_call E.
    match type of E with
    | context [if ?b then _ else _] => destruct b eqn:Hdemo
    end.
    + unfold StateExn.ret in E. injection E as <- _.
      right. apply andb_true_iff in Hdemo. exact (proj2 Hdemo).
    + match type of E with
      | context [match ?us with [] => _ | _ :: _ => _ end] =>
          destruct us as [|first rest]
      end.
      * unfold StateExn.ret in E. injection E as <- _. left. reflexivity.
      * step_call E. unfold StateExn.ret in E. injection E as <- _.
        match goal with
        | |- context [if ?b then _ else _] => destruct b eqn:Hv
        end; [right; exact Hv | left; reflexivity].
Qed.

Lemma getDefaultAuthor_null_or_valid_witness :
  PayloadCMSClient.getDefaultAuthor (InMemory.client stocked)
  = (Val (JStr "64b7f0c2a1d3e4f5a6b7c8db"),
     mkClient InMemory.cfg (JStr "session-token") stocked)
  /\ (JStr "64b7f0c2a1d3e4f5a6b7c8db" = JNull
      \/ isValidObjectId (JStr "64b7f0c2a1d3e4f5a6b7c8db") = true).
Proof.
  assert (E : PayloadCMSClient.getDefaultAuthor (InMemory.client stocked)
              = (Val (JStr "64b7f0c2a1d3e4f5a6b7c8db"),
                 mkClient InMemory.cfg (JStr "session-token") stocked))
    by (vm_compute; reflexivity).
  split; [exact E|].
  exact (getDefaultAuthor_null_or_valid Service _ _ _ _ E).
Defined.

(** X9: the image that [getRandomHeroImage] returns is [null] or an
    identifier of 24 hexadecimal digits, never a malformed one. *)
Theorem getRandomHeroImage_valid_or_null :
  forall (B : Type) (H : Http B) (R : MathRandom B) (c : Client B) id c',
    PayloadCMSClient.getRandomHeroImage c = (Val id, c') ->
    id = JNull \/ isValidObjectId id = true.
Proof.
  intros B H R c id c' E. exact (getRandomHeroImage_null_or_valid c id c' E).
Qed.

Lemma getRandomHeroImage_valid_or_null_witness :
  fst (PayloadCMSClient.getRandomHeroImage (InMemory.client stocked))
  = Val (JStr "64b7f0c2a1d3e4f5a6b7c8da")
  /\ (JStr "64b7f0c2a1d3e4f5a6b7c8da" = JNull
      \/ isValidObjectId (JStr "64b7f0c2a1d3e4f5a6b7c8da") = true).
Proof.
  destruct (PayloadCMSClient.getRandomHeroImage (InMemory.client stocked))
    as [r c'] eqn:E.
  assert (Hr : r = Val (JStr "64b7f0c2a1d3e4f5a6b7c8da")).
  { vm_compute in E. injection E as <- _. reflexivity. }
  subst r. split; [reflexivity|].
  exact (getRandomHeroImage_valid_or_null Service _ _ _ _ _ E).
Defined.

(** X10: [authenticate] answers with a boolean and never throws.  The
    client keeps the new credentials either way; it holds a token when
    the answer is [true], and no token at all -- the former one is
    gone -- when the answer is [false]. *)
Theorem authenticate_outcome :
  forall (B : Type) (H : Http B) (email password : string) (c : Client B),
  exists authenticated c',
    PayloadCMSClient.authenticate email password c
    = (Val (JBool authenticated), c')
    /\ config c' = mkConfig (base_url (config c)) email password
    /\ (authenticated = true -> Js.truthy (authToken c') = true)
    /\ (authenticated = false -> authToken c' = JNull).
Proof.
  intros B H email password c.
  unfold PayloadCMSClient.authenticate, StateExn.try_catch.
  unfold StateExn.bind at 1. unfold StateExn.modify.
  unfold StateExn.bind.
  destruct (PayloadCMSClient.getAuthToken
              (mkClient (mkConfig (base_url (config c)) email password)
                        JNull (net c))) as [[token|e] c'] eqn:E;
    destruct (getAuthToken_outcome _ _ _ E) as [Hc Ho];
    cbn [config authToken] in Hc, Ho; unfold StateExn.ret.
  - exists true, c'. destruct Ho as [Ht Ha].
    split; [reflexivity|]. split; [exact Hc|]. split; [|discriminate].
    intros _. rewrite Ha. exact Ht.
  - exists false, c'. split; [reflexivity|]. split; [exact Hc|].
    split; [discriminate|]. intros _. exact Ho.
Qed.

(** *** Categories that exist already *)

Section CategoryFacts.
Context {B : Type} {H : Http B} {R : MathRandom B}.

Lemma categoryLoop_reuses :
  forall cats titles ids (c : Client B),
    forallb (hasCategory cats) titles = true ->
    PayloadCMSClient.categoryLoop (JArr cats) titles ids c
    = (Val (ids ++ map (categoryIdOf cats) titles), c).
Proof.
  intros cats titles. induction titles as [|title rest IH]; intros ids c Hall.
  - simpl. unfold StateExn.ret. rewrite app_nil_r. reflexivity.
  - simpl in Hall. apply andb_true_iff in Hall. destruct Hall as [Hone Hrest].
    cbn [PayloadCMSClient.categoryLoop asArray ResMonad.bind].
    unfold StateExn.bind, StateExn.lift.
    unfold hasCategory in Hone. unfold categoryIdOf at 1. cbn [map].
    destruct (findM (PayloadCMSClient.sameTitle title) cats) as [cat|e];
      [|discriminate].
    rewrite Hone. rewrite (IH _ c Hrest), <- app_assoc. reflexivity.
Qed.

End CategoryFacts.

(** X11: categories that exist are reused.  When every requested title
    matches, up to case, a category of the list that
    [getOrCreateCategories] fetched, the result holds the identifiers of
    the matches in the order of the titles, and nothing is sent to the
    service after the listing. *)
Theorem getOrCreateCategories_reuses_existing :
  forall (B : Type) (H : Http B) (c : Client B) cats c1 titles,
    PayloadCMSClient.getCategories c = (Val (JArr cats), c1) ->
    forallb (hasCategory cats) titles = true ->
    PayloadCMSClient.getOrCreateCategories titles c
    = (Val (map (categoryIdOf cats) titles), c1).
Proof.
  intros B H c cats c1 titles Eg Hall.
  unfold PayloadCMSClient.getOrCreateCategories, StateExn.bind. rewrite Eg.
  exact (categoryLoop_reuses cats titles [] c1 Hall).
Qed.

Lemma getOrCreateCategories_reuses_existing_witness :
  let c := InMemory.client stocked in
  let c1 := mkClient InMemory.cfg (JStr "session-token") stocked in
  PayloadCMSClient.getCategories c = (Val (JArr (categories stocked)), c1)
  /\ forallb (hasCategory (categories stocked)) ["docker"; "DOCKER"] = true
  /\ PayloadCMSClient.getOrCreateCategories ["docker"; "DOCKER"] c
     = (Val [JStr "64b7f0c2a1d3e4f5a6b7c8d9"; JStr "64b7f0c2a1d3e4f5a6b7c8d9"],
        c1).
Proof.
  intros c c1.
  assert (Eg : PayloadCMSClient.getCategories c
               = (Val (JArr (categories stocked)), c1))
    by (vm_compute; reflexivity).
  split; [exact Eg|]. split; [reflexivity|].
  exact (getOrCreateCategories_reuses_existing Service _ c _ c1
           ["docker"; "DOCKER"] Eg eq_refl).
Defined.

(** *** The slug of a category *)

Lemma alnum_slug_char :
  forall c, is_alnum c = true -> slug_char c = true /\ JsString.is_hyphen c = false.
Proof. intro c. each_char c. Qed.

Lemma slug_char_alnum_or_hyphen :
  forall c, slug_char c = true -> is_alnum c = negb (JsString.is_hyphen c).
Proof. intro c. each_char c. Qed.

Lemma nonalnum_collapsed :
  forall s b,
    JsString.forallb slug_char
      (JsString.replace_runs (fun c => negb (is_alnum c)) hyphen b s) = true
    /\ no_double_hyphen
         (JsString.replace_runs (fun c => negb (is_alnum c)) hyphen b s) = true
    /\ (b = true ->
        starts_with_hyphen
          (JsString.replace_runs (fun c => negb (is_alnum c)) hyphen b s) = false).
Proof.
  induction s as [|c s IH]; intros b.
  - simpl. repeat split; reflexivity.
  - cbn [JsString.replace_runs].
    destruct (is_alnum c) eqn:Ea; cbn [negb].
    + destruct (alnum_slug_char c Ea) as [Hs Hh].
      destruct (IH false) as (Ha & Hd & _).
      cbn [JsString.forallb no_double_hyphen starts_with_hyphen].
      rewrite Hs, Hh, Ha, Hd. repeat split.
    + destruct b.
      * exact (IH true).
      * destruct (IH true) as (Ha & Hd & Hst).
        cbn [JsString.forallb no_double_hyphen starts_with_hyphen].
        rewrite Ha, Hd, (Hst eq_refl). repeat split. discriminate.
Qed.

Lemma replace_runs_same_class :
  forall (p q : ascii -> bool) r s b,
    JsString.forallb (fun c => Bool.eqb (p c) (q c)) s = true ->
    JsString.replace_runs p r b s = JsString.replace_runs q r b s.
Proof.
  intros p q r. induction s as [|c s IH]; intros b Hs; [reflexivity|].
  simpl in Hs. apply andb_true_iff in Hs. destruct Hs as [Hc Hs].
  apply Bool.eqb_prop in Hc. simpl. rewrite Hc.
  destruct (q c); [destruct b|]; rewrite (IH _ Hs); reflexivity.
Qed.

(** X12: the slug that [createCategory] derives from a title reads as a
    slug -- lower-case letters, digits and single hyphens, with no
    hyphen at either end -- and deriving it again changes nothing. *)
Theorem categorySlug_is_slug :
  forall title,
    slug_like (categorySlug title) = true
    /\ categorySlug (categorySlug title) = categorySlug title.
Proof.
  assert (Hshape : forall title, slug_like (categorySlug title) = true).
  { intro title. unfold categorySlug.
    destruct (nonalnum_collapsed (JsString.toLowerCase title) false)
      as (Ha & Hd & _).
    destruct (drop_leading_shape _ Ha Hd) as (H5a & H5d & H5s).
    unfold slug_like.
    rewrite (drop_trailing_forallb _ _ _ H5a), (drop_trailing_no_double _ _ H5d),
      (drop_trailing_start _ _ H5s), (drop_trailing_end _ H5d).
    reflexivity. }
  intro title. split; [apply Hshape|].
  generalize (Hshape title). generalize (categorySlug title). intros s Hs.
  unfold slug_like in Hs.
  apply andb_true_iff in Hs. destruct Hs as [Hs He].
  apply andb_true_iff in Hs. destruct Hs as [Hs Hst].
  apply andb_true_iff in Hs. destruct Hs as [Ha Hd].
  apply negb_true_iff in He, Hst.
  unfold categorySlug. rewrite (lower_id _ Ha).
  rewrite (replace_runs_same_class (fun c => negb (is_alnum c))
             JsString.is_hyphen hyphen s false).
  - rewrite (replace_runs_single s false Hd) by discriminate.
    rewrite (drop_leading_id _ Hst). apply drop_trailing_id. exact He.
  - apply (forallb_weaken slug_char); [|exact Ha].
    intros c Hc. rewrite (slug_char_alnum_or_hyphen c Hc), negb_involutive.
    apply Bool.eqb_reflx.
Qed.

(** ** What the validator accepts *)

Lemma isNil_app :
  forall (A : Type) (xs ys : list A), isNil (xs ++ ys) = isNil xs && isNil ys.
Proof. intros A [|x xs] ys; reflexivity. Qed.

Lemma isNil_unless : forall c msg, isNil (unless c msg) = c.
Proof. intros [|] msg; reflexivity. Qed.

(** The checks of one block, as tests. *)
Lemma blockViolations_none :
  forall index block,
    Js.nullish block = false ->
    isNil (blockViolations index block)
    = negb (negb (Js.truthy (Js.prop block "type"))
            || negb (Js.is_string (Js.prop block "type"))
            || negb (Js.includes blockTypes (Js.prop block "type")))
      && negb (negb (Js.eq_str (Js.prop block "type") "mediaBlock")
               && (negb (Js.truthy (Js.prop block "content"))
                   || negb (Js.is_string (Js.prop block "content")))
               || Js.eq_str (Js.prop block "type") "mediaBlock"
                  && negb (Js.is_string (Js.prop block "content")))
      && negb (Js.truthy (Js.prop block "metadata")
               && negb (Js.is_object (Js.prop block "metadata")))
      && negb (Js.eq_str (Js.prop block "type") "code"
               && Js.truthy (Js.get_opt (Js.prop block "metadata") "language")
               && negb (Js.includes allowedLanguages
                          (Js.prop (Js.prop block "metadata") "language")))
      && negb (Js.eq_str (Js.prop block "type") "heading"
               && Js.truthy (Js.get_opt (Js.prop block "metadata") "level")
               && negb (Js.includes allowedLevels
                          (Js.prop (Js.prop block "metadata") "level")))
      && negb (Js.eq_str (Js.prop block "type") "banner"
               && Js.truthy (Js.get_opt (Js.prop block "metadata") "style")
               && negb (Js.includes allowedStyles
                          (Js.prop (Js.prop block "metadata") "style"))).
Proof.
  intros index block Hb.
  transitivity (isNil match validateBlock block index [] with
                      | Val errs => errs
                      | Throw _ => []
                      end).
  { rewrite (validateBlock_appends block index [] Hb). reflexivity. }
  unfold validateBlock, Js.get. rewrite Hb.
  cbn [ResMonad.bind]. cbv zeta. unfold push_if, push.
  repeat match goal with
         | |- context [if ?c then _ else _] => destruct c
         end; reflexivity.
Qed.

Lemma type_check :
  forall t,
    negb (negb (Js.truthy (JStr t)) || negb (Js.is_string (JStr t))
          || negb (Js.includes blockTypes (JStr t)))
    = existsb (String.eqb t) blockTypes.
Proof.
  intros [|a t]; [reflexivity|].
  cbn [Js.truthy Js.is_string JsString.is_empty negb orb].
  rewrite negb_involutive. reflexivity.
Qed.

Lemma field_check :
  forall kind key allowed t metadata,
    negb (Js.eq_str (JStr t) kind
          && Js.truthy (Js.get_opt metadata key)
          && negb (Js.includes allowed (Js.prop metadata key)))
    = fieldOk kind key allowed t metadata.
Proof.
  intros kind key allowed t metadata. unfold fieldOk, enumOk.
  cbn [Js.eq_str].
  destruct (String.eqb t kind); [|reflexivity]. cbn [andb negb orb].
  destruct metadata; cbn [Js.get_opt Js.nullish Js.truthy andb negb orb];
    try reflexivity;
    match goal with
    | |- context [Js.truthy ?v] => destruct (Js.truthy v)
    end; cbn [andb negb orb]; try reflexivity; apply negb_involutive.
Qed.

(** A block passes its checks exactly when it conforms. *)
Lemma blockViolations_conforming :
  forall index block,
    Js.nullish block = false ->
    isNil (blockViolations index block) = conformingBlock block.
Proof.
  intros index block Hb. rewrite (blockViolations_none index block Hb).
  unfold conformingBlock.
  destruct (Js.prop block "type") as [| |[|]|[| |]|t| |]; try reflexivity.
  rewrite type_check, !field_check.
  destruct (Js.prop block "content") as [| |[|]|[| |]|c| |];
    cbn [Js.eq_str Js.truthy Js.is_string negb orb andb];
    try (destruct (String.eqb t "mediaBlock");
         cbn [negb orb andb]; rewrite ?andb_false_r; reflexivity).
  f_equal. f_equal. f_equal.
  f_equal.
  - f_equal. destruct (String.eqb t "mediaBlock"), (JsString.is_empty c);
      reflexivity.
  - destruct (Js.truthy (Js.prop block "metadata")),
      (Js.is_object (Js.prop block "metadata")); reflexivity.
Qed.

Lemma conformingBlock_not_nullish :
  forall block, conformingBlock block = true -> Js.nullish block = false.
Proof. intros [| | | | | |]; try reflexivity; discriminate. Qed.

Lemma blocks_conforming :
  forall items index,
    existsb Js.nullish items = false ->
    isNil (indexed blockViolations index items) = forallb conformingBlock items.
Proof.
  induction items as [|b rest IH]; intros index Hn; [reflexivity|].
  simpl in Hn. apply orb_false_iff in Hn. destruct Hn as [Hb Hrest].
  cbn [indexed forallb].
  rewrite isNil_app, (blockViolations_conforming index b Hb), (IH _ Hrest).
  reflexivity.
Qed.

Lemma categories_conforming :
  forall cats index,
    isNil (indexed categoryViolations index cats) = forallb nonblank_string cats.
Proof.
  induction cats as [|c rest IH]; intros index; [reflexivity|].
  cbn [indexed forallb]. rewrite isNil_app, IH.
  unfold categoryViolations. rewrite isNil_unless. reflexivity.
Qed.

Lemma conforming_blocks_not_nullish :
  forall items, forallb conformingBlock items = true ->
                existsb Js.nullish items = false.
Proof.
  induction items as [|b rest IH]; intro Hall; [reflexivity|].
  simpl in Hall. apply andb_true_iff in Hall. destruct Hall as [Hb Hrest].
  simpl. rewrite (conformingBlock_not_nullish b Hb), (IH Hrest). reflexivity.
Qed.

Lemma violations_conforming :
  forall request,
    inspectable request = true ->
    isNil (allViolations request) = conformingRequest request.
Proof.
  intros request Hi. unfold inspectable in Hi.
  apply andb_true_iff in Hi. destruct Hi as [_ Hb].
  apply negb_true_iff in Hb. unfold hasNullishBlock in Hb.
  unfold allViolations, conformingRequest.
  rewrite !isNil_app.
  unfold titleViolations, slugViolations, heroImageViolations.
  rewrite !isNil_unless.
  assert (Hmeta : isNil (metaViolations request)
                  = nonempty_string (Js.prop (Js.prop request "meta") "title")
                    && nonempty_string (Js.prop (Js.prop request "meta") "description")).
  { unfold metaViolations.
    destruct (Js.prop request "meta"); try reflexivity;
      rewrite isNil_app, !isNil_unless; reflexivity. }
  assert (Hblocks : isNil (blocksViolations request)
                    = match Js.prop request "blocks" with
                      | JArr items => forallb conformingBlock items
                      | _ => false
                      end).
  { unfold blocksViolations.
    destruct (Js.prop request "blocks"); try reflexivity.
    apply blocks_conforming. exact Hb. }
  assert (Hcats : isNil (categoriesViolations request)
                  = match Js.prop request "categories" with
                    | JArr cats => forallb nonblank_string cats
                    | categories => negb (Js.truthy categories)
                    end).
  { unfold categoriesViolations.
    destruct (Js.prop request "categories");
      try (rewrite isNil_unless; reflexivity).
    apply categories_conforming. }
  rewrite Hmeta, Hblocks, Hcats.
  rewrite !andb_assoc. reflexivity.
Qed.

(** X13: the validator accepts a value exactly when the value conforms
    to the contract: a non-blank [title]; a [meta] with non-empty
    [title] and [description]; an array of [blocks], each with a type
    of the closed set, a string [content] that is empty only for a
    media block, and metadata within its enumerations; and, when they
    are given, a non-blank [slug], non-blank [categories] and a boolean
    [heroImage]. *)
Theorem validator_accepts_conforming_requests :
  forall request, accepts request = conformingRequest request.
Proof.
  intro request. unfold accepts.
  destruct (inspectable request) eqn:Hi.
  - rewrite (validate_inspectable request Hi). cbn [valid].
    apply violations_conforming. exact Hi.
  - destruct (validate_not_inspectable request Hi) as (e & He & _).
    rewrite He. symmetry. unfold inspectable in Hi.
    apply andb_false_iff in Hi. destruct Hi as [Hn | Hb].
    + apply negb_false_iff in Hn. destruct request; try discriminate; reflexivity.
    + apply negb_false_iff in Hb. unfold hasNullishBlock in Hb.
      unfold conformingRequest.
      destruct (Js.prop request "blocks") as [| | | | |items|]; try discriminate.
      destruct (forallb conformingBlock items) eqn:Hall.
      * rewrite (conforming_blocks_not_nullish items Hall) in Hb. discriminate.
      * rewrite ?andb_false_r. reflexivity.
Qed.

Lemma indexed_In :
  forall (A : Type) (f : nat -> A -> list string) xs start i x msg,
    nth_error xs i = Some x ->
    In msg (f (start + i) x) ->
    In msg (indexed f start xs).
Proof.
  intros A f xs. induction xs as [|y rest IH]; intros start i x msg Hi Hin.
  - destruct i; discriminate.
  - cbn [indexed]. apply in_or_app. destruct i as [|i].
    + injection Hi as ->. rewrite Nat.add_0_r in Hin. left. exact Hin.
    + right. apply (IH (S start) i x msg Hi).
      rewrite Nat.add_succ_comm. exact Hin.
Qed.

(** X14: a block of unknown type is refused with the list of the known
    types.  When the block at position [i] has for type a non-empty
    string outside the closed set, the validator returns
    [valid = false] and its errors hold
    "blocks[i].type must be one of: paragraph, heading, code, banner,
    mediaBlock". *)
Theorem validator_names_allowed_types :
  forall data items i block type,
    inspectable data = true ->
    Js.prop data "blocks" = JArr items ->
    nth_error items i = Some block ->
    Js.prop block "type" = JStr type ->
    JsString.is_empty type = false ->
    existsb (String.eqb type) blockTypes = false ->
    exists result,
      validatePostCreationRequest data = Val result
      /\ valid result = false
      /\ In (blk i ++ ".type must be one of: paragraph, heading, code, banner, mediaBlock")%string
            (errors result).
Proof.
  intros data items i block type Hi Hb Hnth Ht Hne Hout.
  rewrite (validate_inspectable data Hi). eexists. split; [reflexivity|].
  cbn [valid errors].
  assert (Hin : In (blk i ++ ".type must be one of: paragraph, heading, code, banner, mediaBlock")%string
                   (allViolations data)).
  { unfold allViolations. apply in_or_app. right. apply in_or_app. right.
    apply in_or_app. left. unfold blocksViolations. rewrite Hb.
    apply (indexed_In _ blockViolations items 0 i block _ Hnth).
    cbn [Nat.add]. unfold blockViolations. apply in_or_app. left.
    unfold typeViolations. rewrite Ht.
    destruct type as [|c type]; [discriminate|].
    rewrite Hout. left. reflexivity. }
  split.
  - destruct (allViolations data); [destruct Hin | reflexivity].
  - exact Hin.
Qed.

Lemma validator_names_allowed_types_witness :
  let data :=
    JObj [("title", JStr "T");
          ("meta", JObj [("title", JStr "T"); ("description", JStr "D")]);
          ("blocks", JArr mixedBlocks)] in
  inspectable data = true
  /\ nth_error mixedBlocks 3
     = Some (JObj [("type", JStr "quote"); ("content", JStr "Less is more.")])
  /\ exists result,
       validatePostCreationRequest data = Val result
       /\ valid result = false
       /\ In "blocks[3].type must be one of: paragraph, heading, code, banner, mediaBlock"
             (errors result).
Proof.
  intro data. split; [reflexivity|]. split; [reflexivity|].
  exact (validator_names_allowed_types data mixedBlocks 3 _ "quote"
           eq_refl eq_refl eq_refl eq_refl eq_refl eq_refl).
Defined.

(** ** What compilation makes of an accepted request *)

(** X15: on an accepted request the compiler never replaces a
    language.  The code node of every code block carries
    [block.metadata?.language || 'javascript'], the language the block
    asked for or the default when it asked for none. *)
Theorem accepted_code_language_is_kept :
  forall (W : Type) (R : MathRandom W) request items block (w : W),
    accepts request = true ->
    Js.prop request "blocks" = JArr items ->
    In block items ->
    Js.prop block "type" = JStr "code" ->
    exists node w',
      convertBlock block w = (Val node, w')
      /\ languageOf node
         = Js.or (Js.get_opt (Js.prop block "metadata") "language")
                 (JStr "javascript").
Proof.
  intros W R request items block w Ha Hb Hin Ht.
  rewrite validator_accepts_conforming_requests in Ha.
  unfold conformingRequest in Ha. rewrite Hb in Ha.
  repeat (apply andb_true_iff in Ha; destruct Ha as [Ha ?]).
  match goal with
  | Hall : forallb conformingBlock items = true |- _ =>
      rewrite forallb_forall in Hall; specialize (Hall block Hin);
      rename Hall into Hc
  end.
  unfold conformingBlock in Hc. rewrite Ht in Hc.
  destruct (Js.prop block "content"); try discriminate.
  repeat (apply andb_true_iff in Hc; destruct Hc as [Hc ?]).
  match goal with
  | Hf : fieldOk "code" "language" _ _ _ = true |- _ =>
      unfold fieldOk, enumOk in Hf; cbn [String.eqb Ascii.eqb Bool.eqb] in Hf;
      change (negb (String.eqb "code" "code")) with false in Hf;
      cbn [orb] in Hf; rename Hf into Hlang
  end.
  assert (Hnn : Js.nullish block = false)
    by (destruct block; try discriminate; reflexivity).
  unfold convertBlock, StateExn.lift, Js.get. rewrite Hnn, Ht.
  unfold StateExn.bind at 1.
  change (Js.eq_str (JStr "code") "heading") with false.
  change (Js.eq_str (JStr "code") "paragraph") with false.
  change (Js.eq_str (JStr "code") "code") with true.
  cbv iota.
  set (requested := Js.get_opt (Js.prop block "metadata") "language") in *.
  match goal with
  | |- context [createCodeBlock ?code ?lang ?name w] =>
      destruct (createCodeBlock_returns code lang name w) as (id & w' & E)
  end.
  rewrite E. do 2 eexists. split; [reflexivity|].
  unfold languageOf.
  match goal with
  | |- context [Js.prop (Js.prop (JObj ?fs) "fields") "language"] =>
      change (Js.prop (Js.prop (JObj fs) "fields") "language")
        with (validLanguage (Js.or requested (JStr "javascript")))
  end.
  unfold validLanguage, Js.or.
  destruct (Js.truthy requested); cbn [negb orb] in Hlang.
  - rewrite Hlang. reflexivity.
  - reflexivity.
Qed.

Lemma accepted_code_language_is_kept_witness :
  let block := JObj [("type", JStr "code"); ("content", JStr "SELECT 1;");
                     ("metadata", JObj [("language", JStr "sql")])] in
  let request :=
    JObj [("title", JStr "Queries");
          ("meta", JObj [("title", JStr "Queries"); ("description", JStr "SQL")]);
          ("blocks", JArr [block])] in
  accepts request = true
  /\ exists node w',
       convertBlock block InMemory.empty = (Val node, w')
       /\ languageOf node = JStr "sql".
Proof.
  intros block request. split; [reflexivity|].
  exact (accepted_code_language_is_kept Service _ request [block] block
           InMemory.empty eq_refl eq_refl (or_introl eq_refl) eq_refl).
Defined.

(** X16: the fields that compilation copies.  On an accepted request
    the submission has the title and the two [meta] fields of the
    request; its slug is the slug of the request, as given, when there
    is one, and the slug derived from the title otherwise.  A derived
    slug is made of lower-case letters, digits and single hyphens, with
    no hyphen at either end. *)
Theorem compiled_fields :
  forall (W : Type) (R : MathRandom W) request (w : W),
    accepts request = true ->
    exists title postData w',
      Js.prop request "title" = JStr title
      /\ processPostCreationRequest request w = (Val postData, w')
      /\ Js.prop postData "title" = JStr title
      /\ Js.prop postData "slug"
         = (if Js.truthy (Js.prop request "slug")
            then Js.prop request "slug"
            else JStr (generateSlug title))
      /\ slug_like (generateSlug title) = true
      /\ Js.prop (Js.prop postData "meta") "title"
         = Js.prop (Js.prop request "meta") "title"
      /\ Js.prop (Js.prop postData "meta") "description"
         = Js.prop (Js.prop request "meta") "description".
Proof.
  intros W R request w Ha.
  destruct (process_accepted_fields request w Ha)
    as (title & content & w' & Ht & E).
  exists title. eexists. exists w'. split; [exact Ht|]. split; [exact E|].
  split; [reflexivity|]. split; [reflexivity|].
  split; [apply generateSlug_slug_like|]. split; reflexivity.
Qed.

Lemma compiled_fields_witness :
  accepts mediaRequest = true
  /\ exists postData w',
       processPostCreationRequest mediaRequest InMemory.empty = (Val postData, w')
       /\ Js.prop postData "title" = JStr "Docker Best Practices!"
       /\ Js.prop postData "slug" = JStr "docker-best-practices".
Proof.
  split; [reflexivity|].
  destruct (compiled_fields Service _ mediaRequest InMemory.empty eq_refl)
    as (title & postData & w' & Ht & E & Htitle & Hslug & _).
  exists postData, w'. split; [exact E|].
  injection Ht as <-. split; [exact Htitle | exact Hslug].
Defined.

(** X17: the categories of a request go nowhere.  Whatever compilation
    returns has neither [categories] nor [authors], and enrichment adds
    no [categories]. *)
Theorem categories_are_dropped :
  forall (W : Type) (R : MathRandom W) (P : PayloadClient W)
         request (w : W) postData w1,
    processPostCreationRequest request w = (Val postData, w1) ->
    Js.prop postData "categories" = JUndefined
    /\ Js.prop postData "authors" = JUndefined
    /\ forall (w2 : W) enhanced w3,
         enhancePostDataFromJSON postData request w2 = (Val enhanced, w3) ->
         Js.prop enhanced "categories" = JUndefined.
Proof.
  intros W R P request w postData w1 E.
  destruct (process_returns_draft W R request w postData w1 E) as [_ Hs].
  unfold processPostCreationRequest in E.
  do 5 step_call E.
  unfold StateExn.ret in E. injection E as <- _.
  split; [reflexivity|]. split; [reflexivity|].
  intros wa enhanced wb Ee.
  rewrite (enhance_keeps "categories" _ request wa enhanced wb
             eq_refl eq_refl eq_refl eq_refl Ee).
  reflexivity.
Qed.

Lemma categories_are_dropped_witness :
  Js.prop testRequest "categories" = JArr [JStr "Testing"; JStr "PayloadCMS"]
  /\ exists postData w1,
       processPostCreationRequest testRequest (InMemory.client InMemory.empty)
       = (Val postData, w1)
       /\ Js.prop postData "categories" = JUndefined.
Proof.
  split; [reflexivity|].
  destruct (processPostCreationRequest testRequest
              (InMemory.client InMemory.empty)) as [[postData|e] w1] eqn:E.
  - exists postData, w1. split; [reflexivity|].
    exact (proj1 (categories_are_dropped (Client Service) _ _ testRequest
                    (InMemory.client InMemory.empty) postData w1 E)).
  - vm_compute in E. discriminate.
Defined.

(** ** Media placeholders *)

(** X18: a block of type 'mediaBlock' always compiles, whatever its
    content and metadata, to a node that [processMediaBlocks] recognises
    as a placeholder; the node has no children. *)
Theorem mediaBlock_compiles_to_placeholder :
  forall (W : Type) (R : MathRandom W) block (w : W),
    Js.prop block "type" = JStr "mediaBlock" ->
    exists node w',
      convertBlock block w = (Val node, w')
      /\ isMediaPlaceholder node = true
      /\ Js.prop node "children" = JUndefined.
Proof.
  intros W R block w Ht.
  assert (Hnn : Js.nullish block = false)
    by (destruct block; try discriminate; reflexivity).
  unfold convertBlock, StateExn.lift, Js.get. rewrite Hnn, Ht.
  unfold StateExn.bind at 1.
  change (Js.eq_str (JStr "mediaBlock") "heading") with false.
  change (Js.eq_str (JStr "mediaBlock") "paragraph") with false.
  change (Js.eq_str (JStr "mediaBlock") "code") with false.
  change (Js.eq_str (JStr "mediaBlock") "banner") with false.
  change (Js.eq_str (JStr "mediaBlock") "mediaBlock") with true.
  cbv iota.
  match goal with
  | |- context [createMediaBlock ?name w] =>
      destruct (createMediaBlock_returns name w) as (id & w' & E)
  end.
  rewrite E. do 2 eexists. split; [reflexivity|]. split; reflexivity.
Qed.

Lemma mediaBlock_compiles_to_placeholder_witness :
  exists node w',
    convertBlock (JObj [("type", JStr "mediaBlock"); ("content", JStr "a diagram")])
                 InMemory.empty = (Val node, w')
    /\ isMediaPlaceholder node = true
    /\ Js.prop node "children" = JUndefined.
Proof.
  exact (mediaBlock_compiles_to_placeholder Service _
           (JObj [("type", JStr "mediaBlock"); ("content", JStr "a diagram")])
           InMemory.empty eq_refl).
Defined.

(** X19: the media pass leaves every other node alone.  On the node
    compiled from a block whose type is not 'mediaBlock' the callback of
    [processBlocks] returns with the node as it was and without a call
    to the client. *)
Theorem processBlock_skips_other_nodes :
  forall (W : Type) (R : MathRandom W) (P : PayloadClient W) block node,
    compiledFrom W block node ->
    Js.eq_str (Js.prop block "type") "mediaBlock" = false ->
    forall w : W, processBlock node w = (Val tt, (node, w)).
Proof.
  intros W R P block node (w0 & w1 & E) Hm w.
  destruct (Js.nullish block) eqn:Hnn.
  { destruct (convertBlock_throws block w0 Hnn) as (e & He).
    rewrite He in E. discriminate. }
  unfold convertBlock, StateExn.lift, Js.get in E. rewrite Hnn in E.
  unfold StateExn.bind at 1 in E. rewrite Hm in E.
  destruct (Js.eq_str (Js.prop block "type") "heading").
  { unfold StateExn.ret in E. injection E as <- _. reflexivity. }
  destruct (Js.eq_str (Js.prop block "type") "paragraph").
  { unfold StateExn.ret in E. injection E as <- _. reflexivity. }
  destruct (Js.eq_str (Js.prop block "type") "code").
  { match type of E with
    | createCodeBlock ?c ?l ?n w0 = _ =>
        destruct (createCodeBlock_returns c l n w0) as (id & w' & E')
    end.
    rewrite E' in E. injection E as <- _. reflexivity. }
  destruct (Js.eq_str (Js.prop block "type") "banner").
  { match type of E with
    | createBannerBlock ?c ?l ?n w0 = _ =>
        destruct (createBannerBlock_returns c l n w0) as (id & w' & E')
    end.
    rewrite E' in E. injection E as <- _. reflexivity. }
  unfold StateExn.ret in E. injection E as <- _. reflexivity.
Qed.

Lemma processBlock_skips_other_nodes_witness :
  let block := JObj [("type", JStr "heading"); ("content", JStr "Overview");
                     ("metadata", JObj [("level", JStr "h3")])] in
  let node := createHeading (JStr "Overview") (JStr "h3") in
  compiledFrom (Client Service) block node
  /\ processBlock node (InMemory.client stocked)
     = (Val tt, (node, InMemory.client stocked)).
Proof.
  intros block node.
  assert (Hc : compiledFrom (Client Service) block node).
  { exists (InMemory.client stocked), (InMemory.client stocked). reflexivity. }
  split; [exact Hc|].
  exact (processBlock_skips_other_nodes (Client Service) _ _ block node Hc
           eq_refl (InMemory.client stocked)).
Defined.

(** X20: a placeholder is resolved in place.  When the client answers
    a truthy identifier, the callback stores it in [fields.media] of the
    node and changes nothing else: the other properties of the node and
    the other fields are as before. *)
Theorem processBlock_resolves_placeholder :
  forall (W : Type) (R : MathRandom W) (P : PayloadClient W)
         node (w : W) mediaId w1,
    isMediaPlaceholder node = true ->
    Js.isArray (Js.prop node "children") = false ->
    getRandomHeroImage w = (Val mediaId, w1) ->
    Js.truthy mediaId = true ->
    exists node',
      processBlock node w = (Val tt, (node', w1))
      /\ mediaOf node' = mediaId
      /\ (forall k, String.eqb k "fields" = false ->
                    Js.prop node' k = Js.prop node k)
      /\ (forall k, String.eqb k "media" = false ->
                    Js.prop (Js.prop node' "fields") k
                    = Js.prop (Js.prop node "fields") k).
Proof.
  intros W R P node w mediaId w1 Hp Hc Eg Hv.
  destruct node as [| | | | | |fs]; try discriminate.
  pose proof Hp as Hp'. unfold isMediaPlaceholder in Hp'.
  apply andb_true_iff in Hp'. destruct Hp' as [Hp' Hmedia].
  apply andb_true_iff in Hp'. destruct Hp' as [Htype Hkind].
  cbn [Js.prop] in Htype, Hkind, Hmedia, Hc.
  assert (Er : resolveMedia (fs, w)
               = (Val tt, (Js.set_assoc "fields"
                             (Js.set (Js.assoc "fields" fs) "media" mediaId) fs,
                           w1))).
  { unfold resolveMedia, Mutation.read. unfold StateExn.bind at 1.
    cbn [fst snd]. cbv zeta.
    assert (Hk : Js.eq_str (Js.get_opt (Js.assoc "fields" fs) "blockType")
                           "mediaBlock" = true).
    { destruct (Js.assoc "fields" fs); try discriminate; exact Hkind. }
    rewrite Htype, Hk. cbn [andb]. rewrite Hmedia.
    unfold StateExn.bind, Mutation.call. cbn [fst snd]. rewrite Eg, Hv.
    reflexivity. }
  eexists. split.
  { cbn [processBlock]. rewrite Er.
    rewrite (walkChildren_none processBlock fs w1 Hc). reflexivity. }
  destruct (Js.assoc "fields" fs) as [| | | | | |ffs] eqn:Hf; try discriminate.
  split.
  { unfold mediaOf. cbn [Js.prop]. rewrite assoc_set_assoc_same.
    cbn [Js.set Js.prop]. apply assoc_set_assoc_same. }
  split.
  - intros k Hk. cbn [Js.prop]. apply assoc_set_assoc_other. exact Hk.
  - intros k Hk. cbn [Js.prop]. rewrite assoc_set_assoc_same, Hf.
    cbn [Js.set Js.prop]. apply assoc_set_assoc_other. exact Hk.
Qed.

Lemma processBlock_resolves_placeholder_witness :
  let node := JObj [("type", JStr "block");
                    ("fields", JObj [("blockType", JStr "mediaBlock");
                                     ("media", JStr "random");
                                     ("id", JStr "k3j2h1g0f9e8")]);
                    ("format", JStr ""); ("version", JNum 2)] in
  exists node',
    fst (snd (processBlock node (InMemory.client stocked))) = node'
    /\ mediaOf node' = JStr "64b7f0c2a1d3e4f5a6b7c8da"
    /\ Js.prop (Js.prop node' "fields") "id" = JStr "k3j2h1g0f9e8".
Proof.
  intro node.
  destruct (getRandomHeroImage (InMemory.client stocked)) as [[mediaId|e] w1] eqn:Eg;
    [|vm_compute in Eg; discriminate].
  assert (Hid : mediaId = JStr "64b7f0c2a1d3e4f5a6b7c8da")
    by (vm_compute in Eg; congruence).
  assert (Hv : Js.truthy mediaId = true) by (rewrite Hid; reflexivity).
  destruct (processBlock_resolves_placeholder (Client Service) _ _ node
              (InMemory.client stocked) mediaId w1 eq_refl eq_refl Eg Hv)
    as (node' & E & Hm & _ & Hf).
  exists node'. split; [rewrite E; reflexivity|].
  split; [rewrite Hm; exact Hid|].
  rewrite (Hf "id" eq_refl). reflexivity.
Defined.

(** ** Early exits of the tool *)

(** X21: a request that validation does not accept never reaches the
    client.  The tool returns a failure and leaves the client as it
    was; when the request can be inspected, the failure is
    'Invalid JSON input' and its details are the violations joined by
    ', '. *)
Theorem rejected_request_never_reaches_client :
  forall (W : Type) (R : MathRandom W) (P : PayloadClient W) request (w : W),
    accepts request = false ->
    exists error details,
      createPostFromJSON request w = (Val (failure error details), w)
      /\ (inspectable request = true ->
          error = "Invalid JSON input"
          /\ details = JsString.join ", " (allViolations request)).
Proof.
  intros W R P request w Ha. unfold accepts in Ha.
  unfold createPostFromJSON, StateExn.try_catch, createPostBody.
  unfold StateExn.bind at 1. unfold StateExn.lift.
  destruct (inspectable request) eqn:Hi.
  - rewrite (validate_inspectable request Hi) in *. cbn [valid errors] in *.
    rewrite Ha. cbn [negb]. unfold StateExn.ret.
    do 2 eexists. split; [reflexivity|]. intros _. split; reflexivity.
  - destruct (validate_not_inspectable request Hi) as (e & He & Herr).
    rewrite He. unfold StateExn.ret. rewrite Herr.
    do 2 eexists. split; [reflexivity|]. discriminate.
Qed.

Lemma rejected_request_never_reaches_client_witness :
  let request := JObj [("title", JStr "   "); ("blocks", JArr [])] in
  createPostFromJSON request (InMemory.client stocked)
  = (Val (failure "Invalid JSON input"
            "title is required and must be a non-empty string, meta is required and must be an object"),
     InMemory.client stocked).
Proof.
  intro request.
  destruct (rejected_request_never_reaches_client (Client Service) _ _ request
              (InMemory.client stocked) eq_refl)
    as (error & details & E & Hd).
  destruct (Hd eq_refl) as [-> ->]. exact E.
Defined.

(** X22: a failed connection test ends the run.  When [testConnection]
    answers a falsy value on an accepted request, the tool returns the
    connection failure from the state the test left: nothing is
    compiled, enriched or submitted. *)
Theorem createPostFromJSON_stops_when_disconnected :
  forall (W : Type) (R : MathRandom W) (P : PayloadClient W)
         request (w : W) isConnected w1,
    accepts request = true ->
    testConnection w = (Val isConnected, w1) ->
    Js.truthy isConnected = false ->
    createPostFromJSON request w
    = (Val (failure "Could not connect to PayloadCMS Local API"
              "Failed to initialize PayloadCMS Local API. Ensure the tool is running inside the PayloadCMS container."),
       w1).
Proof.
  intros W R P request w isConnected w1 Ha Et Hc.
  destruct (accepts_inv request Ha) as [Hi Hv].
  unfold createPostFromJSON, StateExn.try_catch, createPostBody.
  unfold StateExn.bind at 1. unfold StateExn.lift.
  rewrite (validate_inspectable request Hi), Hv. cbn [valid isNil negb].
  unfold StateExn.bind at 1. rewrite Et, Hc. reflexivity.
Qed.

Lemma createPostFromJSON_stops_when_disconnected_witness :
  exists w1,
    createPostFromJSON testRequest
      (mkClient (mkConfig "http://elsewhere:3000" "a@b.c" "pw") JNull InMemory.empty)
    = (Val (failure "Could not connect to PayloadCMS Local API"
              "Failed to initialize PayloadCMS Local API. Ensure the tool is running inside the PayloadCMS container."),
       w1).
Proof.
  eexists.
  refine (createPostFromJSON_stops_when_disconnected (Client Service) _ _
            testRequest _ (JBool false) _ eq_refl _ eq_refl).
  vm_compute. reflexivity.
Defined.

(** ** Enrichment *)

Section EnrichmentFacts.
Context {W : Type} {R : MathRandom W} {P : PayloadClient W}.

Lemma keeps_afterAuthor :
  forall request, keeps "authors" (afterAuthor request).
Proof.
  intro request. unfold afterAuthor.
  apply keeps_bind; [apply keeps_lift|]. intro heroRequested.
  apply keeps_bind.
  { apply keeps_when, keeps_bind; [apply keeps_call|]. intro heroImageId.
    apply keeps_when, keeps_bind.
    - apply keeps_update. intro s. apply prop_set_other. reflexivity.
    - intros _. apply keeps_setMetaImage. reflexivity. }
  intros _. apply keeps_processMediaBlocks. reflexivity.
Qed.

Lemma enhanceBody_author :
  forall request s (w : W) authorId w1,
    getDefaultAuthor w = (Val authorId, w1) ->
    enhanceBody request (s, w)
    = afterAuthor request
        (if Js.truthy authorId then Js.set s "authors" (JArr [authorId]) else s,
         w1).
Proof.
  intros request s w authorId w1 Eg.
  unfold enhanceBody. unfold StateExn.bind at 1.
  unfold Mutation.call. cbn [fst snd]. rewrite Eg.
  unfold StateExn.bind at 1.
  destruct (Js.truthy authorId); reflexivity.
Qed.

End EnrichmentFacts.

(** X23: the author of a post.  When the author lookup answers a
    truthy identifier, the enriched post has exactly that author; when
    it answers a falsy value, [authors] stays as compiled; when the
    lookup throws, enrichment hands back the post as compiled and asks
    the client nothing more. *)
Theorem enrichment_author :
  forall (W : Type) (R : MathRandom W) (P : PayloadClient W)
         postData request (w : W),
    (forall authorId w1 enhanced w',
        getDefaultAuthor w = (Val authorId, w1) ->
        enhancePostDataFromJSON postData request w = (Val enhanced, w') ->
        Js.prop enhanced "authors"
        = (if Js.truthy authorId then JArr [authorId]
           else Js.prop (spread postData) "authors"))
    /\ (forall e w1,
           getDefaultAuthor w = (Throw e, w1) ->
           enhancePostDataFromJSON postData request w
           = (Val (spread postData), w1)).
Proof.
  intros W R P postData request w. split.
  - intros authorId w1 enhanced w' Eg E.
    unfold enhancePostDataFromJSON, StateExn.try_catch in E.
    rewrite (enhanceBody_author request _ w authorId w1 Eg) in E.
    match type of E with
    | context [afterAuthor request (?s1, w1)] =>
        destruct (afterAuthor request (s1, w1)) as [r [s' w2]] eqn:Ea;
        pose proof (keeps_afterAuthor request _ _ _ _ _ Ea) as Hk
    end.
    assert (Hs : enhanced = s').
    { destruct r as [[]|e0]; unfold StateExn.ret in E; congruence. }
    subst enhanced. rewrite Hk.
    destruct (Js.truthy authorId); [|reflexivity].
    unfold spread. destruct postData; apply prop_set_same.
  - intros e w1 Eg.
    unfold enhancePostDataFromJSON, StateExn.try_catch, enhanceBody.
    unfold StateExn.bind at 1. unfold Mutation.call. cbn [fst snd].
    rewrite Eg. reflexivity.
Qed.

Lemma enrichment_author_witness :
  let postData := JObj [("title", JStr "Notes")] in
  let request := JObj [("title", JStr "Notes")] in
  exists enhanced w',
    enhancePostDataFromJSON postData request (InMemory.client stocked)
    = (Val enhanced, w')
    /\ Js.prop enhanced "authors" = JArr [JStr "64b7f0c2a1d3e4f5a6b7c8db"].
Proof.
  intros postData request.
  destruct (getDefaultAuthor (InMemory.client stocked)) as [[authorId|e] w1] eqn:Eg;
    [|vm_compute in Eg; discriminate].
  assert (Hid : authorId = JStr "64b7f0c2a1d3e4f5a6b7c8db")
    by (vm_compute in Eg; congruence).
  destruct (enhancePostDataFromJSON postData request (InMemory.client stocked))
    as [[enhanced|e] w'] eqn:E; [|vm_compute in E; discriminate].
  exists enhanced, w'. split; [reflexivity|].
  rewrite (proj1 (enrichment_author (Client Service) _ _ postData request
                    (InMemory.client stocked)) authorId w1 enhanced w' Eg E).
  rewrite Hid. reflexivity.
Defined.

(** X24: enrichment always hands a post back, and the post differs
    from the compiled one in [authors], [heroImage], [meta] and
    [content] at most: every other property is the one of the shallow
    copy it started from. *)
Theorem enrichment_is_total_and_local :
  forall (W : Type) (R : MathRandom W) (P : PayloadClient W)
         postData request (w : W),
  exists enhanced w',
    enhancePostDataFromJSON postData request w = (Val enhanced, w')
    /\ forall k,
         existsb (String.eqb k) ["authors"; "heroImage"; "meta"; "content"] = false ->
         Js.prop enhanced k = Js.prop (spread postData) k.
Proof.
  intros W R P postData request w.
  destruct (enhance_returns postData request w) as (enhanced & w' & E).
  exists enhanced, w'. split; [exact E|].
  intros k Hk. cbn [existsb] in Hk.
  repeat (apply orb_false_iff in Hk; destruct Hk as [? Hk]).
  apply (enhance_keeps k postData request w enhanced w'); assumption.
Qed.

(** ** The tool over the HTTP client *)

(** X25: a refused login is reported as a connection failure.  On an
    accepted request, with no token cached, a login answered with a
    status that is not ok makes the tool return the connection failure;
    the login is the only request sent. *)
Theorem refused_login_is_connection_failure :
  forall (B : Type) (H : Http B) (R : MathRandom B)
         request (c : Client B) response b',
    accepts request = true ->
    Js.truthy (authToken c) = false ->
    fetch (loginRequest (config c)) (net c) = (Val response, b') ->
    ok response = false ->
    createPostFromJSON request c
    = (Val (failure "Could not connect to PayloadCMS Local API"
              "Failed to initialize PayloadCMS Local API. Ensure the tool is running inside the PayloadCMS container."),
       onNet c b').
Proof.
  intros B H R request c response b' Ha Ht Ef Hok.
  destruct (accepts_inv request Ha) as [Hi Hv].
  assert (Et : testConnection c = (Val (JBool false), onNet c b')).
  { change (testConnection c) with (PayloadCMSClient.testConnection c).
    unfold PayloadCMSClient.testConnection, StateExn.try_catch.
    unfold StateExn.bind at 1.
    unfold PayloadCMSClient.ensureAuthenticated.
    unfold StateExn.bind at 1. unfold StateExn.gets. rewrite Ht. cbn [negb].
    unfold StateExn.bind at 1.
    rewrite (getAuthToken_refused c response b' Ht Ef Hok). reflexivity. }
  unfold createPostFromJSON, StateExn.try_catch, createPostBody.
  unfold StateExn.bind at 1. unfold StateExn.lift.
  rewrite (validate_inspectable request Hi), Hv. cbn [valid isNil negb].
  unfold StateExn.bind at 1. rewrite Et. reflexivity.
Qed.

Lemma refused_login_is_connection_failure_witness :
  let c := mkClient (mkConfig "http://elsewhere:3000" "demo-author@example.com" "password")
                    JNull stocked in
  createPostFromJSON testRequest c
  = (Val (failure "Could not connect to PayloadCMS Local API"
            "Failed to initialize PayloadCMS Local API. Ensure the tool is running inside the PayloadCMS container."),
     c).
Proof.
  intro c.
  assert (Ef : fetch (loginRequest (config c)) (net c)
               = (Val InMemory.notFound, stocked)) by (vm_compute; reflexivity).
  exact (refused_login_is_connection_failure Service _ _ testRequest c
           InMemory.notFound stocked eq_refl eq_refl Ef eq_refl).
Defined.

(** ** Configuration detection *)

Lemma truthyOr_truthy :
  forall v next,
    Text.truthy next = true -> Text.truthy (ConfigManager.truthyOr v next) = true.
Proof.
  intros [s|] next Hn; cbn [ConfigManager.truthyOr]; [|exact Hn].
  destruct (Text.truthy s) eqn:Hs; [exact Hs | exact Hn].
Qed.

Lemma orElse_truthy : forall a b, Text.truthy a = true -> orElse a b = a.
Proof. intros a b Ha. unfold orElse. rewrite Ha. reflexivity. Qed.

Lemma forallb_drop_while :
  forall q p s,
    JsString.forallb q s = true -> JsString.forallb q (JsString.drop_while p s) = true.
Proof.
  intros q p s. induction s as [|c s IH]; intro Hq; [reflexivity|].
  cbn [JsString.drop_while]. destruct (p c); [|exact Hq].
  cbn [JsString.forallb] in Hq. apply andb_true_iff in Hq. apply IH, Hq.
Qed.

Lemma forallb_rev_onto :
  forall q s acc,
    JsString.forallb q s = true -> JsString.forallb q acc = true ->
    JsString.forallb q (JsString.rev_onto s acc) = true.
Proof.
  intros q s. induction s as [|c s IH]; intros acc Hs Ha; [exact Ha|].
  cbn [JsString.rev_onto]. cbn [JsString.forallb] in Hs.
  apply andb_true_iff in Hs. destruct Hs as [Hc Hs].
  apply IH; [exact Hs|]. cbn [JsString.forallb]. rewrite Hc, Ha. reflexivity.
Qed.

Lemma forallb_trim :
  forall q s,
    JsString.forallb q s = true -> JsString.forallb q (JsString.trim s) = true.
Proof.
  intros q s Hs. unfold JsString.trim, JsString.rev.
  apply forallb_rev_onto; [|reflexivity].
  apply forallb_drop_while, forallb_rev_onto; [|reflexivity].
  apply forallb_drop_while, Hs.
Qed.

Lemma forallb_filter :
  forall q p s,
    JsString.forallb q s = true -> JsString.forallb q (JsString.filter p s) = true.
Proof.
  intros q p s. induction s as [|c s IH]; intro Hs; [reflexivity|].
  cbn [JsString.forallb] in Hs. apply andb_true_iff in Hs. destruct Hs as [Hc Hs].
  cbn [JsString.filter]. destruct (p c); [|exact (IH Hs)].
  cbn [JsString.forallb]. rewrite Hc, (IH Hs). reflexivity.
Qed.

Lemma filter_satisfies :
  forall p s, JsString.forallb p (JsString.filter p s) = true.
Proof.
  intros p s. induction s as [|c s IH]; [reflexivity|].
  cbn [JsString.filter]. destruct (p c) eqn:Hc; [|exact IH].
  cbn [JsString.forallb]. rewrite Hc, IH. reflexivity.
Qed.

Lemma forallb_and :
  forall p q s,
    JsString.forallb p s = true -> JsString.forallb q s = true ->
    JsString.forallb (fun c => p c && q c) s = true.
Proof.
  intros p q s. induction s as [|c s IH]; intros Hp Hq; [reflexivity|].
  cbn [JsString.forallb] in *.
  apply andb_true_iff in Hp, Hq. destruct Hp as [Hp1 Hp2], Hq as [Hq1 Hq2].
  rewrite Hp1, Hq1, (IH Hp2 Hq2). reflexivity.
Qed.

(** The parts of a split hold the code units of the string, and none
    is the separator. *)
Lemma split_parts :
  forall q sep s part,
    JsString.forallb q s = true ->
    In part (Text.split sep s) ->
    JsString.forallb (fun c => q c && negb (Ascii.eqb c sep)) part = true.
Proof.
  intros q sep s. induction s as [|c s IH]; intros part Hq Hin.
  - cbn [Text.split] in Hin. destruct Hin as [<-|[]]. reflexivity.
  - cbn [JsString.forallb] in Hq. apply andb_true_iff in Hq.
    destruct Hq as [Hc Hs]. cbn [Text.split] in Hin.
    destruct (Ascii.eqb c sep) eqn:Hsep.
    + destruct Hin as [<-|Hin]; [reflexivity | exact (IH part Hs Hin)].
    + destruct (Text.split sep s) as [|p0 ps] eqn:Hsp.
      * destruct Hin as [<-|[]]. cbn [JsString.forallb].
        rewrite Hc, Hsep. reflexivity.
      * destruct Hin as [<-|Hin].
        -- cbn [JsString.forallb]. rewrite Hc, Hsep. cbn [negb andb].
           apply IH; [exact Hs | left; reflexivity].
        -- apply IH; [exact Hs | right; exact Hin].
Qed.

Lemma forallb_true : forall s, JsString.forallb (fun _ => true) s = true.
Proof. induction s as [|c s IH]; [reflexivity | exact IH]. Qed.

Lemma forallb_imp :
  forall (p q : ascii -> bool) s,
    (forall c, p c = true -> q c = true) ->
    JsString.forallb p s = true -> JsString.forallb q s = true.
Proof.
  intros p q s Hpq. induction s as [|c s IH]; intro Hp; [reflexivity|].
  cbn [JsString.forallb] in *. apply andb_true_iff in Hp. destruct Hp as [Hc Hs].
  rewrite (Hpq c Hc), (IH Hs). reflexivity.
Qed.

Lemma urlOfLine_plain :
  forall line url,
    JsString.forallb (fun c => negb (Ascii.eqb c Text.newline)) line = true ->
    ConfigManager.urlOfLine line = Some url ->
    Text.truthy url = true
    /\ JsString.forallb plain url = true
    /\ Text.startsWith "NEXT_PUBLIC_SERVER_URL=" line = true.
Proof.
  intros line url Hl E. unfold ConfigManager.urlOfLine in E.
  destruct (Text.startsWith "NEXT_PUBLIC_SERVER_URL=" line) eqn:Hs; [|discriminate].
  destruct (nth_error (Text.split "=" line) 1) as [part|] eqn:Hn; [|discriminate].
  cbv zeta in E.
  match type of E with
  | (if Text.truthy ?u then _ else _) = _ =>
      destruct (Text.truthy u) eqn:Hu; [|discriminate]
  end.
  injection E as <-. split; [exact Hu|]. split; [|reflexivity].
  pose proof (split_parts _ "="%char line part Hl (nth_error_In _ _ Hn)) as Hp.
  unfold plain.
  apply forallb_and; [apply forallb_and|].
  - apply filter_satisfies.
  - apply forallb_filter, forallb_trim.
    revert Hp. apply forallb_imp. intros c Hc.
    apply andb_true_iff in Hc. apply Hc.
  - apply forallb_filter, forallb_trim.
    revert Hp. apply forallb_imp. intros c Hc.
    apply andb_true_iff in Hc. apply Hc.
Qed.

Lemma firstUrl_from_line :
  forall lines url,
    ConfigManager.firstUrl lines = Some url ->
    exists line, In line lines /\ ConfigManager.urlOfLine line = Some url.
Proof.
  induction lines as [|line rest IH]; intros url E; [discriminate|].
  cbn [ConfigManager.firstUrl] in E.
  destruct (ConfigManager.urlOfLine line) as [u|] eqn:Hu.
  - injection E as <-. exists line. split; [left; reflexivity | exact Hu].
  - destruct (IH url E) as (l & Hin & Hl). exists l. split; [right; exact Hin | exact Hl].
Qed.

(** X26: the URL read from [.env].  [readEnvFile] answers [null] when
    the file is absent or cannot be read.  A URL it answers is not
    empty, comes from a line that starts with NEXT_PUBLIC_SERVER_URL=,
    and holds no double quote, no line feed and no equals sign: the
    value is cut at its first equals sign. *)
Theorem readEnvFile_url :
  forall h,
    (forall url,
        ConfigManager.readEnvFile h = Some url ->
        Text.truthy url = true
        /\ JsString.forallb plain url = true
        /\ exists envContent line,
             dotenv h = Some (Val envContent)
             /\ In line (Text.split Text.newline envContent)
             /\ Text.startsWith "NEXT_PUBLIC_SERVER_URL=" line = true)
    /\ ((dotenv h = None \/ exists e, dotenv h = Some (Throw e)) ->
        ConfigManager.readEnvFile h = None).
Proof.
  intro h. split.
  - intros url E. unfold ConfigManager.readEnvFile in E.
    destruct (cwd h) as [dir|e0]; [|discriminate].
    destruct (dotenv h) as [[envContent|e]|] eqn:Hd; try discriminate.
    destruct (firstUrl_from_line _ _ E) as (line & Hin & Hl).
    pose proof (split_parts _ Text.newline envContent line
                  (forallb_true envContent) Hin) as Hline.
    destruct (urlOfLine_plain line url Hline Hl) as (Ht & Hp & Hs).
    split; [exact Ht|]. split; [exact Hp|].
    exists envContent, line. auto.
  - intros [Hd | [e Hd]]; unfold ConfigManager.readEnvFile; rewrite Hd;
      destruct (cwd h); reflexivity.
Qed.

Lemma readEnvFile_url_witness :
  ConfigManager.readEnvFile dotenvHost = Some "http://cms.local:3000/?a"%string
  /\ JsString.forallb plain "http://cms.local:3000/?a" = true.
Proof.
  assert (E : ConfigManager.readEnvFile dotenvHost
              = Some "http://cms.local:3000/?a"%string)
    by (vm_compute; reflexivity).
  split; [exact E|].
  exact (proj1 (proj2 (proj1 (readEnvFile_url dotenvHost) _ E))).
Defined.
Lemma digits_fst :
  forall s, JsString.forallb JsString.is_digit (fst (Text.digits s)) = true.
Proof.
  induction s as [|c s IH]; [reflexivity|].
  cbn [Text.digits]. destruct (JsString.is_digit c) eqn:Hc; [|reflexivity].
  destruct (Text.digits s) as [ds rest]. cbn [fst JsString.forallb] in *.
  rewrite Hc, IH. reflexivity.
Qed.

Lemma portHere_digits :
  forall s port,
    ConfigManager.portHere s = Some port ->
    Text.truthy port = true /\ JsString.forallb JsString.is_digit port = true.
Proof.
  intros s port E. unfold ConfigManager.portHere in E.
  destruct (Text.after _ s) as [s1|]; [|discriminate].
  pose proof (digits_fst s1) as Hd.
  destruct (Text.digits s1) as [ds s2]. cbn [fst] in Hd.
  destruct (Text.truthy ds) eqn:Ht; [|discriminate].
  cbn [andb] in E. destruct (Text.startsWith _ s2); [|discriminate].
  injection E as <-. split; assumption.
Qed.

Lemma portMatch_digits :
  forall s port,
    ConfigManager.portMatch s = Some port ->
    Text.truthy port = true /\ JsString.forallb JsString.is_digit port = true.
Proof.
  induction s as [|c s IH]; intros port E; cbn [ConfigManager.portMatch] in E.
  - destruct (ConfigManager.portHere EmptyString) eqn:Hp; [|discriminate].
    injection E as <-. exact (portHere_digits _ _ Hp).
  - destruct (ConfigManager.portHere (String c s)) eqn:Hp.
    + injection E as <-. exact (portHere_digits _ _ Hp).
    + exact (IH port E).
Qed.

Lemma detectServerIp_usable :
  forall h, ConfigManager.usableIp (ConfigManager.detectServerIp h) = true.
Proof.
  intro h. unfold ConfigManager.detectServerIp.
  destruct (execSync h) as [run|]; [|reflexivity].
  cbv zeta.
  assert (Hh : ConfigManager.usableIp
                 match run ConfigManager.hostnameCommand with
                 | Val out =>
                     if ConfigManager.usableIp
                          (hd EmptyString (Text.split " " (JsString.trim out)))
                     then hd EmptyString (Text.split " " (JsString.trim out))
                     else "localhost"%string
                 | Throw _ => "localhost"%string
                 end = true).
  { destruct (run ConfigManager.hostnameCommand) as [out|e]; [|reflexivity].
    set (ip := hd EmptyString (Text.split " " (JsString.trim out))).
    destruct (ConfigManager.usableIp ip) eqn:Hu; [exact Hu | reflexivity]. }
  destruct (run ConfigManager.routeCommand) as [out|e]; [|exact Hh].
  destruct (ConfigManager.usableIp (JsString.trim out)) eqn:Hu; [exact Hu | exact Hh].
Qed.

(** X27: the URL derived from [docker-compose.yaml].  It is
    http://<address>:<port>, where the port is a non-empty run of digits
    found in the file and the address is the one [detectServerIp]
    answers, which is never empty and never 127.0.0.1. *)
Theorem detectFromDockerCompose_url :
  forall h url,
    ConfigManager.detectFromDockerCompose h = Some url ->
    exists port,
      url = ("http://" ++ ConfigManager.detectServerIp h ++ ":" ++ port)%string
      /\ Text.truthy port = true
      /\ JsString.forallb JsString.is_digit port = true
      /\ Text.truthy (ConfigManager.detectServerIp h) = true
      /\ ConfigManager.detectServerIp h <> "127.0.0.1"%string.
Proof.
  intros h url E. unfold ConfigManager.detectFromDockerCompose in E.
  destruct (cwd h) as [dir|e0]; [|discriminate].
  destruct (compose h) as [[composeContent|e]|]; try discriminate.
  destruct (ConfigManager.portMatch composeContent) as [port|] eqn:Hp;
    [|discriminate].
  injection E as <-. exists port.
  destruct (portMatch_digits _ _ Hp) as [Ht Hd].
  pose proof (detectServerIp_usable h) as Hu.
  unfold ConfigManager.usableIp in Hu. apply andb_true_iff in Hu.
  destruct Hu as [Hu1 Hu2]. apply negb_true_iff in Hu2.
  repeat split; try assumption.
  intro Heq. rewrite Heq in Hu2. discriminate.
Qed.

Lemma detectFromDockerCompose_url_witness :
  ConfigManager.detectFromDockerCompose composeHost
  = Some "http://10.0.0.5:8080"%string
  /\ exists port,
       "http://10.0.0.5:8080"%string
       = ("http://" ++ ConfigManager.detectServerIp composeHost ++ ":" ++ port)%string
       /\ JsString.forallb JsString.is_digit port = true.
Proof.
  assert (E : ConfigManager.detectFromDockerCompose composeHost
              = Some "http://10.0.0.5:8080"%string) by (vm_compute; reflexivity).
  split; [exact E|].
  destruct (detectFromDockerCompose_url composeHost _ E)
    as (port & Hurl & _ & Hd & _).
  exists port. split; [exact Hurl | exact Hd].
Defined.

(** X28: a detected configuration is never blank.  Its URL, its email
    and its password are not empty; a value of PAYLOADCMS_URL that is
    not empty is the URL, whatever the files say; and the client of a
    tool built without a configuration works with the detected
    configuration, field for field. *)
Theorem detectConfig_never_blank :
  forall h,
    Text.truthy (base_url (ConfigManager.detectConfig h)) = true
    /\ Text.truthy (admin_email (ConfigManager.detectConfig h)) = true
    /\ Text.truthy (admin_password (ConfigManager.detectConfig h)) = true
    /\ (forall url,
           ConfigManager.lookup "PAYLOADCMS_URL" (env h) = Some url ->
           Text.truthy url = true ->
           base_url (ConfigManager.detectConfig h) = url)
    /\ (forall (B : Type) (b : B),
           Construction.toolClient h None b
           = mkClient (ConfigManager.detectConfig h) JNull b).
Proof.
  intro h.
  assert (Hb : Text.truthy (base_url (ConfigManager.detectConfig h)) = true).
  { cbn [ConfigManager.detectConfig base_url]. unfold ConfigManager.detectBaseUrl.
    repeat apply truthyOr_truthy. reflexivity. }
  assert (He : Text.truthy (admin_email (ConfigManager.detectConfig h)) = true).
  { cbn [ConfigManager.detectConfig admin_email]. unfold ConfigManager.envOr.
    apply truthyOr_truthy. reflexivity. }
  assert (Hp : Text.truthy (admin_password (ConfigManager.detectConfig h)) = true).
  { cbn [ConfigManager.detectConfig admin_password]. unfold ConfigManager.envOr.
    apply truthyOr_truthy. reflexivity. }
  repeat split; try assumption.
  - intros url Hl Ht. cbn [ConfigManager.detectConfig base_url].
    unfold ConfigManager.detectBaseUrl. rewrite Hl.
    cbn [ConfigManager.truthyOr]. rewrite Ht. reflexivity.
  - intros B b. unfold Construction.toolClient, Construction.newClient,
      Construction.toolConfig.
    rewrite (orElse_truthy _ _ Hb), (orElse_truthy _ _ He), (orElse_truthy _ _ Hp).
    destruct (ConfigManager.detectConfig h). reflexivity.
Qed.

Lemma detectConfig_never_blank_witness :
  let h := mkHost [("PAYLOADCMS_URL", "https://cms.example.org"%string)]
             (Val "/app"%string)
             (dotenv dotenvHost) (compose composeHost) None in
  base_url (ConfigManager.detectConfig h) = "https://cms.example.org"%string.
Proof.
  intro h.
  exact (proj1 (proj2 (proj2 (proj2 (detectConfig_never_blank h))))
           "https://cms.example.org"%string eq_refl eq_refl).
Defined.

Section ProbeOutcome.
Context {B : Type} {H : Http B}.

Lemma validateConfig_returns :
  forall h cfg (b : B),
  exists v b', ConfigManager.validateConfig h cfg b = (Val v, b').
Proof.
  intros h cfg b.
  unfold ConfigManager.validateConfig, ConfigManager.testPayloadCMSConnection.
  unfold StateExn.bind at 1. unfold StateExn.try_catch. cbv zeta.
  unfold StateExn.bind at 1.
  destruct (fetch _ b) as [[response|e] b1]; unfold StateExn.ret; eauto.
Qed.

End ProbeOutcome.

(** X29: what [validateConfig] calls valid.  It never throws.  The
    configuration is valid exactly when it has no error, which is when
    the probe of /api/posts, sent to the URL of the configuration or to
    the detected one when that URL is empty, was answered with status
    200 or 401; a rejected probe makes it invalid.  The warning about
    the demo credentials depends on the email alone and never makes a
    configuration invalid. *)
Theorem validateConfig_valid_iff_reachable :
  forall (B : Type) (H : Http B) h cfg (b : B),
  exists v b',
    ConfigManager.validateConfig h cfg b = (Val v, b')
    /\ ConfigManager.valid v = isNil (ConfigManager.errors v)
    /\ isNil (ConfigManager.warnings v)
       = negb (String.eqb (admin_email cfg) "demo-author@example.com")
    /\ match fetch (ConfigManager.probe
                      (orElse (base_url cfg) (ConfigManager.detectBaseUrl h))) b with
       | (Val response, b1) =>
           b' = b1
           /\ ConfigManager.valid v
              = ((status response =? 401)%Z || (status response =? 200)%Z)
       | (Throw _, b1) => b' = b1 /\ ConfigManager.valid v = false
       end.
Proof.
  intros B H h cfg b.
  unfold ConfigManager.validateConfig, ConfigManager.testPayloadCMSConnection.
  unfold StateExn.bind at 1. unfold StateExn.try_catch. cbv zeta.
  unfold StateExn.bind at 1. unfold orElse.
  destruct (fetch _ b) as [[response|e] b1].
  - unfold StateExn.ret.
    destruct ((status response =? 401)%Z || (status response =? 200)%Z);
      cbn [negb]; do 2 eexists; (split; [reflexivity|]);
      cbn [ConfigManager.valid ConfigManager.errors ConfigManager.warnings isNil];
      destruct (String.eqb (admin_email cfg) "demo-author@example.com");
      repeat split.
  - unfold StateExn.ret. cbn [negb]. do 2 eexists. split; [reflexivity|].
    cbn [ConfigManager.valid ConfigManager.errors ConfigManager.warnings isNil].
    destruct (String.eqb (admin_email cfg) "demo-author@example.com");
      repeat split.
Qed.

(** X30: the status report.  Over the HTTP client [getStatus] throws
    exactly when [process.cwd()] does: the error is the one of
    [process.cwd()], it comes after the probe of [validateConfig], and
    the connection is not tested.  Otherwise [getStatus] returns a
    report and leaves the configuration of the client alone; the report
    gives the working directory, the connection and the validity as
    booleans, shows no password among the configuration fields, and
    shows the password of the environment as '***' or 'not set' only. *)
Theorem getStatus_report :
  forall (B : Type) (H : Http B) h cfg (c : Client B),
    (forall dir,
        cwd h = Val dir ->
        exists report c',
          Construction.getStatus h cfg c = (Val report, c')
          /\ config c' = config c
          /\ Js.prop (Js.prop report "environment") "cwd" = JStr dir
          /\ Js.is_boolean (Js.prop report "connection") = true
          /\ Js.is_boolean (Js.prop (Js.prop report "validation") "valid") = true
          /\ map fst (match Js.prop report "config" with JObj fs => fs | _ => [] end)
             = ["base_url"; "admin_email"]%string
          /\ In (Js.prop (Js.prop (Js.prop report "environment") "env_vars")
                         "PAYLOADCMS_TOOL_PASSWORD")
                [JStr "***"; JStr "not set"])
    /\ (forall error,
           cwd h = Throw error ->
           Construction.getStatus h cfg c
           = (Throw error,
              onNet c (snd (ConfigManager.validateConfig h cfg (net c))))).
Proof.
  intros B H h cfg c. split.
  - intros dir Hd. unfold Construction.getStatus.
    unfold StateExn.bind at 1. unfold Construction.onNetwork.
    destruct (validateConfig_returns h cfg (net c)) as (v & b' & Ev).
    rewrite Ev. unfold StateExn.bind at 1.
    unfold ConfigManager.getEnvironmentInfo, StateExn.lift. rewrite Hd.
    cbn [ResMonad.bind]. unfold StateExn.bind at 1.
    destruct (testConnection_returns (mkClient (config c) (authToken c) b'))
      as (connected & c' & Et & Hc).
    rewrite Et. unfold StateExn.ret.
    do 2 eexists. split; [reflexivity|].
    split; [exact Hc|]. split; [reflexivity|]. split; [reflexivity|].
    split; [reflexivity|]. split; [reflexivity|].
    cbn -[In].
    destruct (ConfigManager.lookup "PAYLOADCMS_TOOL_PASSWORD" (env h)) as [pw|].
    + destruct (Text.truthy pw); [left | right; left]; reflexivity.
    + right; left; reflexivity.
  - intros error Hd. unfold Construction.getStatus.
    unfold StateExn.bind at 1. unfold Construction.onNetwork.
    destruct (validateConfig_returns h cfg (net c)) as (v & b' & Ev).
    rewrite Ev. unfold StateExn.bind at 1.
    unfold ConfigManager.getEnvironmentInfo, StateExn.lift. rewrite Hd.
    cbn [ResMonad.bind fst snd]. reflexivity.
Qed.

(** On a host whose working directory is gone, the status query of a
    client of the stocked service fails with the error of
    [process.cwd()]. *)
Lemma getStatus_report_witness :
  cwd strandedHost = Throw (Error "ENOENT: no such file or directory, uv_cwd")
  /\ fst (Construction.getStatus strandedHost InMemory.cfg (InMemory.client stocked))
     = Throw (Error "ENOENT: no such file or directory, uv_cwd").
Proof.
  split; [reflexivity|].
  rewrite (proj2 (getStatus_report Service _ strandedHost InMemory.cfg
                    (InMemory.client stocked))
             _ eq_refl).
  reflexivity.
Defined.
